(** * addcomputer.py: a shallow embedding of the ADDCOMPUTER class

    The class of [examples/addcomputer.py] adds, re-passwords or deletes a
    machine account, over SAMR (RPC over SMB) or over LDAPS.  The protocol
    libraries (impacket's [samr], [epm], [transport] and
    [ldap3_kerberos_login], and [ldap3]) are collaborators: every call to them is a [call], answered by an arbitrary
    environment that may return a value or raise.  The methods of the class
    are state-passing computations that record each collaborator call and each
    log line, so that ordering and error-handling properties of the two
    engines can be stated on the recorded trace. *)

From Stdlib Require Import String Ascii List ZArith Bool Arith Lia.
Import ListNotations.
Open Scope string_scope.

(** ** Python strings

    A [str] is modelled by a [string]: a sequence of code points below 256,
    to which the functions below apply as Python's do. *)

Module PyStr.

(** [s[-1]], which raises IndexError on the empty string. *)
Fixpoint last_char (s : string) : option ascii :=
  match s with
  | EmptyString => None
  | String c EmptyString => Some c
  | String _ r => last_char r
  end.

(** [s[:-1]] *)
Fixpoint drop_last (s : string) : string :=
  match s with
  | EmptyString => EmptyString
  | String _ EmptyString => EmptyString
  | String c r => String c (drop_last r)
  end.

(** [s.endswith(c)] for a one-character suffix. *)
Definition endswith (s : string) (c : ascii) : bool :=
  match last_char s with
  | Some d => Ascii.eqb d c
  | None => false
  end.

(** [c in s] *)
Fixpoint contains (c : ascii) (s : string) : bool :=
  match s with
  | EmptyString => false
  | String d r => Ascii.eqb d c || contains c r
  end.

(** [s.split(c)]: the pieces between the occurrences of [c]; never empty. *)
Fixpoint split (c : ascii) (s : string) : list string :=
  match s with
  | EmptyString => [EmptyString]
  | String d r =>
      if Ascii.eqb d c then EmptyString :: split c r
      else match split c r with
           | p :: ps => String d p :: ps
           | [] => [String d EmptyString]
           end
  end.

(** [sep.join(l)] *)
Fixpoint join (sep : string) (l : list string) : string :=
  match l with
  | [] => EmptyString
  | [x] => x
  | x :: r => x ++ sep ++ join sep r
  end.

Definition is_upper (c : ascii) : bool :=
  let n := nat_of_ascii c in (65 <=? n)%nat && (n <=? 90)%nat.

Definition is_digit (c : ascii) : bool :=
  let n := nat_of_ascii c in (48 <=? n)%nat && (n <=? 57)%nat.

(** Strings are sequences of code points below 256.  There the cased
    characters that [str.lower()] changes are [A-Z] and the capital letters
    192 to 222 of Latin-1, the multiplication sign 215 excepted; each is
    moved up by 32. *)
Definition lower_char (c : ascii) : ascii :=
  let n := nat_of_ascii c in
  if is_upper c || ((192 <=? n)%nat && (n <=? 222)%nat && negb (n =? 215)%nat)
  then ascii_of_nat (n + 32) else c.

(** [s.lower()] *)
Fixpoint lower (s : string) : string :=
  match s with
  | EmptyString => EmptyString
  | String c r => String (lower_char c) (lower r)
  end.

(** [c.isspace()], the white space of [str.strip()]: the characters 9 to
    13, 28 to 32, 133 and 160. *)
Definition is_space (c : ascii) : bool :=
  let n := nat_of_ascii c in
  ((9 <=? n)%nat && (n <=? 13)%nat) || ((28 <=? n)%nat && (n <=? 32)%nat)
  || (n =? 133)%nat || (n =? 160)%nat.

(** The white space [int()] skips at both ends of its argument: the same
    without the separators 28 to 31. *)
Definition is_int_space (c : ascii) : bool :=
  let n := nat_of_ascii c in
  ((9 <=? n)%nat && (n <=? 13)%nat) || (n =? 32)%nat
  || (n =? 133)%nat || (n =? 160)%nat.

Fixpoint lstrip (sp : ascii -> bool) (s : string) : string :=
  match s with
  | String c r => if sp c then lstrip sp r else s
  | EmptyString => EmptyString
  end.

Fixpoint rstrip (sp : ascii -> bool) (s : string) : string :=
  match s with
  | EmptyString => EmptyString
  | String c r =>
      match rstrip sp r with
      | EmptyString => if sp c then EmptyString else String c EmptyString
      | r' => String c r'
      end
  end.

(** [s.strip()] *)
Definition strip (s : string) : string := rstrip is_space (lstrip is_space s).

Definition hex_digit (c : ascii) : option Z :=
  let n := nat_of_ascii c in
  if (48 <=? n)%nat && (n <=? 57)%nat then Some (Z.of_nat (n - 48))
  else if (65 <=? n)%nat && (n <=? 70)%nat then Some (Z.of_nat (n - 55))
  else if (97 <=? n)%nat && (n <=? 102)%nat then Some (Z.of_nat (n - 87))
  else None.

(** The digits of [int(s, 16)] after sign and prefix: hexadecimal digits,
    with single underscores allowed between digits.  [acc] is the value
    read so far, [prev] tells whether the previous character was a digit. *)
Fixpoint hex_digits (s : string) (acc : Z) (prev : bool) : option Z :=
  match s with
  | EmptyString => if prev then Some acc else None
  | String c r =>
      if Ascii.eqb c "_"%char then
        if prev then hex_digits r acc false else None
      else match hex_digit c with
           | Some d => hex_digits r (16 * acc + d)%Z true
           | None => None
           end
  end.

(** After an optional [0x] prefix one underscore may precede the digits. *)
Definition hex_body (s : string) : option Z :=
  match s with
  | String "0"%char (String x r) =>
      if Ascii.eqb x "x"%char || Ascii.eqb x "X"%char then
        match r with
        | String "_"%char r' => hex_digits r' 0%Z false
        | _ => hex_digits r 0%Z false
        end
      else hex_digits s 0%Z false
  | _ => hex_digits s 0%Z false
  end.

(** [int(s, 16)]; [None] stands for the ValueError of a malformed
    literal. *)
Definition int16 (s : string) : option Z :=
  match rstrip is_int_space (lstrip is_int_space s) with
  | String "-"%char r => option_map Z.opp (hex_body r)
  | String "+"%char r => hex_body r
  | r => hex_body r
  end.

(** [s.encode('utf-16-le')] on the one-byte characters of [string]: every
    character followed by a zero byte. *)
Fixpoint utf16le (s : string) : string :=
  match s with
  | EmptyString => EmptyString
  | String c r => String c (String zero (utf16le r))
  end.

(** [repr(s)]: the string between single quotes, or between double quotes
    when it holds a single quote and no double quote; the backslash and the
    quote used are escaped, as are tab, line feed and carriage return, and
    every other character that is not printable is written [\xNN]. *)
Definition is_printable (c : ascii) : bool :=
  let n := nat_of_ascii c in
  ((32 <=? n)%nat && (n <=? 126)%nat) || ((161 <=? n)%nat && negb (n =? 173)%nat).

Definition hex_char (d : nat) : ascii :=
  if (d <? 10)%nat then ascii_of_nat (48 + d) else ascii_of_nat (87 + d).

Definition repr_char (q c : ascii) : string :=
  let n := nat_of_ascii c in
  if Ascii.eqb c q || (n =? 92)%nat then String (ascii_of_nat 92) (String c EmptyString)
  else if (n =? 9)%nat then "\t"
  else if (n =? 10)%nat then "\n"
  else if (n =? 13)%nat then "\r"
  else if is_printable c then String c EmptyString
  else String (ascii_of_nat 92)
         (String "x" (String (hex_char (n / 16)) (String (hex_char (n mod 16)) EmptyString))).

Fixpoint repr_body (q : ascii) (s : string) : string :=
  match s with
  | EmptyString => EmptyString
  | String c r => repr_char q c ++ repr_body q r
  end.

Definition repr (s : string) : string :=
  let q := if contains "'" s && negb (contains (ascii_of_nat 34) s)
           then ascii_of_nat 34 else "'"%char in
  String q (repr_body q s ++ String q EmptyString).

(** ['%s' % x] for an attribute that may be [None]. *)
Definition fmt (x : option string) : string :=
  match x with
  | Some s => s
  | None => "None"
  end.

(** [string.ascii_uppercase + string.digits] *)
Definition ascii_uppercase : string := "ABCDEFGHIJKLMNOPQRSTUVWXYZ".
Definition ascii_lowercase : string := "abcdefghijklmnopqrstuvwxyz".
Definition digits : string := "0123456789".
Definition ascii_letters : string := ascii_lowercase ++ ascii_uppercase.

End PyStr.
Import PyStr.

(** The double quote, the NUL character and the escape used by
    [escape_filter_chars], as strings. *)
Definition dquote : string := String (ascii_of_nat 34) EmptyString.
Definition nul : string := String zero EmptyString.

(** [ldap3.utils.conv.escape_filter_chars]: backslash, star, parentheses and
    NUL are replaced by a backslash and their two hexadecimal digits. *)
Fixpoint escape_filter_chars (s : string) : string :=
  match s with
  | EmptyString => EmptyString
  | String c r =>
      let n := nat_of_ascii c in
      (if (n =? 92)%nat then "\5c"
       else if (n =? 42)%nat then "\2a"
       else if (n =? 40)%nat then "\28"
       else if (n =? 41)%nat then "\29"
       else if (n =? 0)%nat then "\00"
       else String c EmptyString) ++ escape_filter_chars r
  end.

(** ** Exceptions *)

(** The exception classes the script raises or tells apart.  All but the last
    two are subclasses of [Exception]. *)
Inductive exn : Type :=
| Exception (msg : string)
| ValueError (msg : string)
| IndexError (msg : string)
| TypeError (msg : string)
| KeyError (key : string)
| DCERPCSessionError (error_code : Z) (msg : string)
| LDAPSocketOpenError (msg : string)
| KeyboardInterrupt
| SystemExit (code : Z).

(** [isinstance(e, Exception)] *)
Definition is_Exception (e : exn) : bool :=
  match e with
  | KeyboardInterrupt | SystemExit _ => false
  | _ => true
  end.

(** [str(e)]: the message; for a [KeyError], the [repr] of the key. *)
Definition str_exn (e : exn) : string :=
  match e with
  | Exception m | ValueError m | IndexError m | TypeError m
  | DCERPCSessionError _ m | LDAPSocketOpenError m => m
  | KeyError key => repr key
  | KeyboardInterrupt => ""
  | SystemExit _ => ""
  end.

(** ** Data of the collaborators *)

(** Transport, DCE/RPC, TLS, server and connection objects are opaque. *)
Definition obj := nat.
(** SAMR context handles and security identifiers are opaque too. *)
Definition handle := nat.
Definition sid := string.

(** The access masks and account types of [impacket.dcerpc.v5.samr] the
    script names; a mask built with [|] is the list of its members. *)
Inductive samr_flag : Type :=
| SAM_SERVER_ENUMERATE_DOMAINS
| SAM_SERVER_LOOKUP_DOMAIN
| DOMAIN_LOOKUP
| DOMAIN_CREATE_USER
| DELETE
| USER_FORCE_PASSWORD_CHANGE
| MAXIMUM_ALLOWED
| USER_WORKSTATION_TRUST_ACCOUNT.

(** NTSTATUS codes compared by the script. *)
Definition STATUS_NONE_MAPPED : Z := 0xc0000073.
Definition STATUS_ACCESS_DENIED : Z := 0xc0000022.

(** [ldap3.core.results]: the LDAP result codes of RFC 4511. *)
Definition RESULT_UNWILLING_TO_PERFORM : Z := 53.
Definition RESULT_INSUFFICIENT_ACCESS_RIGHTS : Z := 50.

(** [ldapConn.result]: the code, the message, and the text [str()] gives. *)
Record ldap_result : Type := mk_ldap_result {
  result : Z;
  message : string;
  result_str : string
}.

(** One entry of [ldapConn.entries]. *)
Record entry : Type := mk_entry {
  entry_dn : string;
  objectSid : option string
}.

(** What an operation leaves on the connection: [result], [entries], and for
    each item of [response] its [possSuperiors] attribute. *)
Record conn_state : Type := mk_conn_state {
  conn_result : ldap_result;
  entries : list entry;
  response : list (list string)
}.

(** The attribute dictionary [ucd] of the new computer entry. *)
Record ucd_t : Type := mk_ucd {
  dnsHostName : string;
  userAccountControl : Z;
  servicePrincipalName : list string;
  sAMAccountName : option string;
  unicodePwd : string
}.

Inductive attributes : Type :=
| computer_attrs (ucd : ucd_t)
| nTSecurityDescriptor (sd : list nat).

Inductive tls_version : Type := PROTOCOL_TLSv1_2 | PROTOCOL_TLSv1.

(** [search_scope=]: the default, and [ldap3.LEVEL]. *)
Inductive search_scope : Type := SUBTREE | LEVEL.

(** [ldap3.Connection(server)] or
    [ldap3.Connection(server, user=, password=, authentication=NTLM)] *)
Inductive conn_auth : Type :=
| no_credentials
| NTLM (user : string) (password : string).

(** ** Collaborator calls, indexed by the type of what they return *)

Inductive call : Type -> Type :=
| hept_map (host : string) : call string
| DCERPCTransportFactory (stringBinding : string) : call obj
| set_dport (t : obj) (port : option Z) : call unit
| setRemoteHost (t : obj) (ip : string) : call unit
| setRemoteName (t : obj) (name : string) : call unit
| hasattr_set_credentials (t : obj) : call bool
| set_credentials (t : obj) (username password domain lmhash nthash : string)
    (aesKey : option string) : call unit
| set_kerberos (t : obj) (k : bool) (kdcHost : option string) : call unit
| get_dce_rpc (t : obj) : call obj
| dce_connect (dce : obj) : call unit
| dce_bind (dce : obj) : call unit
| dce_disconnect (dce : obj) : call unit
| hSamrConnect5 (dce : obj) (serverName : string) (access : list samr_flag) : call handle
| hSamrEnumerateDomainsInSamServer (dce : obj) (h : handle) : call (list string)
| hSamrLookupDomainInSamServer (dce : obj) (h : handle) (name : string) : call sid
| hSamrOpenDomain (dce : obj) (h : handle) (access : list samr_flag) (s : sid) : call handle
| hSamrLookupNamesInDomain (dce : obj) (h : handle) (names : list (option string))
    : call (list Z)
| hSamrOpenUser (dce : obj) (h : handle) (access : samr_flag) (rid : Z) : call handle
| hSamrCreateUser2InDomain (dce : obj) (h : handle) (name : option string)
    (accountType desiredAccess : samr_flag) : call handle
| hSamrDeleteUser (dce : obj) (h : handle) : call unit
| hSamrSetPasswordInternal4New (dce : obj) (h : handle) (password : string) : call unit
| hSamrSetInformationUser2 (dce : obj) (h : handle) (control : samr_flag) : call unit
| hSamrCloseHandle (dce : obj) (h : handle) : call unit
| ldap3_Tls (version : tls_version) : call obj
| ldap3_Server (host : string) (port : option Z) (tls : obj) : call obj
| ldap3_Connection (server : obj) (auth : conn_auth) : call obj
| ldap3_kerberos_login (conn : obj) (target user password domain lmhash nthash : string)
    (aesKey kdcHost : option string) : call unit
| ldap_bind (conn : obj) : call (bool * conn_state)
| ldap_schemaNamingContext (conn : obj) : call (list string)
| ldap_search (conn : obj) (base : option string) (filter : string)
    (scope : search_scope) (attrs : list string) : call (bool * conn_state)
| ldap_add (conn : obj) (dn : string) (objectClass : list string) (attrs : attributes)
    (sdflags : option Z) : call (bool * conn_state)
| ldap_delete (conn : obj) (dn : string) : call (bool * conn_state)
| ldap_modify_replace (conn : obj) (dn : string) (attr : string) (value : string)
    : call (bool * conn_state).

(** ** The recorded trace *)

Inductive level : Type := INFO | WARNING | ERROR | CRITICAL.

Inductive event : Type :=
| Ev {R : Type} (c : call R) (r : exn + R)
| Log (l : level) (msg : string)
| Traceback (e : exn)
| Stdout (msg : string).

(** ** The object and its construction options *)

(** [cmdLineOptions], as argparse fills it. *)
Record Options : Type := mk_Options {
  hashes : option string;
  aesKey : option string;
  k : bool;
  dc_host : option string;
  computer_name : option string;
  computer_pass : option string;
  method : string;
  port : option Z;
  domain_netbios : option string;
  no_add : bool;
  delete : bool;
  dc_ip : option string;
  baseDN : option string;
  computer_group : option string
}.

(** The private attributes of an [ADDCOMPUTER] object once [__init__] has
    returned.  An attribute is an [option] where it may still be [None]. *)
Record Self : Type := mk_Self {
  __username : string;
  __password : string;
  __domain : string;
  __lmhash : string;
  __nthash : string;
  __hashes : option string;
  __aesKey : option string;
  __doKerberos : bool;
  __target : string;
  __kdcHost : option string;
  __computerName : option string;
  __computerPassword : string;
  __method : string;
  __port : option Z;
  __domainNetbios : string;
  __noAdd : bool;
  __delete : bool;
  __targetIp : option string;
  __baseDN : option string;
  __computerGroup : option string
}.

(** [self.__computerName = n], the one attribute assigned after construction. *)
Definition set_computerName (me : Self) (n : option string) : Self :=
  {| __username := __username me; __password := __password me;
     __domain := __domain me; __lmhash := __lmhash me; __nthash := __nthash me;
     __hashes := __hashes me; __aesKey := __aesKey me;
     __doKerberos := __doKerberos me; __target := __target me;
     __kdcHost := __kdcHost me; __computerName := n;
     __computerPassword := __computerPassword me; __method := __method me;
     __port := __port me; __domainNetbios := __domainNetbios me;
     __noAdd := __noAdd me; __delete := __delete me;
     __targetIp := __targetIp me; __baseDN := __baseDN me;
     __computerGroup := __computerGroup me |}.

(** The three handle variables of [doSAMRAdd], which its [finally] block
    reads whatever happened in between. *)
Record Locals : Type := mk_Locals {
  servHandle : option handle;
  domainHandle : option handle;
  userHandle : option handle
}.

(** ** Computations: state, exceptions, and the trace they leave *)

(** A run ends by returning, by raising, or is still inside one of the
    script's unbounded [while] loops when the fuel given to it is used up. *)
Inductive outcome (A : Type) : Type :=
| Ret (a : A)
| Raise (e : exn)
| Loop.
Arguments Ret {A} a.
Arguments Raise {A} e.
Arguments Loop {A}.

Section Monad.
Context {W : Type}.

(** The environment [world], the stream read by [random.choice], whether the
    root logger is at DEBUG, the object [self], and the handle variables. *)
Record St : Type := mk_St {
  world : W;
  rng : nat -> nat;
  rpos : nat;
  debug : bool;
  me : Self;
  frame : Locals
}.

Definition set_world (s : St) (w : W) : St :=
  mk_St w (rng s) (rpos s) (debug s) (me s) (frame s).

Definition set_me (s : St) (x : Self) : St :=
  mk_St (world s) (rng s) (rpos s) (debug s) x (frame s).

Definition set_frame (s : St) (l : Locals) : St :=
  mk_St (world s) (rng s) (rpos s) (debug s) (me s) l.

Definition M (A : Type) : Type := St -> outcome A * St * list event.

Definition ret {A} (a : A) : M A := fun s => (Ret a, s, []).

Definition bind {A B} (m : M A) (f : A -> M B) : M B :=
  fun s =>
    match m s with
    | (Ret a, s1, t1) => let '(r, s2, t2) := f a s1 in (r, s2, (t1 ++ t2)%list)
    | (Raise e, s1, t1) => (Raise e, s1, t1)
    | (Loop, s1, t1) => (Loop, s1, t1)
    end.

Definition raise {A} (e : exn) : M A := fun s => (Raise e, s, []).

Definition diverge {A} : M A := fun s => (Loop, s, []).

(** [try: m  except ...: h].  [h e] is [None] when no clause matches [e]. *)
Definition try_except {A} (m : M A) (h : exn -> option (M A)) : M A :=
  fun s =>
    match m s with
    | (Raise e, s1, t1) =>
        match h e with
        | Some k => let '(r, s2, t2) := k s1 in (r, s2, (t1 ++ t2)%list)
        | None => (Raise e, s1, t1)
        end
    | r => r
    end.

(** [try: m  finally: f].  The block [f] runs however [m] ended; when [f]
    raises, its exception replaces the outcome of [m]. *)
Definition try_finally {A} (m : M A) (f : M unit) : M A :=
  fun s =>
    match m s with
    | (Loop, s1, t1) => (Loop, s1, t1)
    | (o, s1, t1) =>
        match f s1 with
        | (Ret _, s2, t2) => (o, s2, (t1 ++ t2)%list)
        | (Raise e, s2, t2) => (Raise e, s2, (t1 ++ t2)%list)
        | (Loop, s2, t2) => (Loop, s2, (t1 ++ t2)%list)
        end
    end.

Definition emit (e : event) : M unit := fun s => (Ret tt, s, [e]).

(** [logging.info], [logging.warning], [logging.error], [logging.critical] *)
Definition log (l : level) (msg : string) : M unit := emit (Log l msg).

(** [logging.getLogger().level == logging.DEBUG] *)
Definition is_debug : M bool := fun s => (Ret (debug s), s, []).

Definition get_me : M Self := fun s => (Ret (me s), s, []).

Definition put_me (x : Self) : M unit :=
  fun s => (Ret tt, set_me s x, []).

Definition get_frame : M Locals := fun s => (Ret (frame s), s, []).

Definition put_frame (l : Locals) : M unit :=
  fun s => (Ret tt, set_frame s l, []).

(** [random.choice(seq)]: the next number of the stream picks the index. *)
Definition choice (seq : string) : M ascii :=
  fun s =>
    let i := Nat.modulo (rng s (rpos s)) (String.length seq) in
    match String.get i seq with
    | Some c => (Ret c, mk_St (world s) (rng s) (S (rpos s)) (debug s) (me s) (frame s), [])
    | None => (Raise (IndexError "Cannot choose from an empty sequence"), s, [])
    end.

Definition when (b : bool) (m : M unit) : M unit := if b then m else ret tt.

End Monad.
Arguments St W : clear implicits.
Arguments M W A : clear implicits.

Notation "x <- m ;; f" := (bind m (fun x => f))
  (at level 61, m at next level, right associativity).
Notation "m ;; f" := (bind m (fun _ => f))
  (at level 61, right associativity).
Notation "' pat <- m ;; f" := (bind m (fun x => match x with pat => f end))
  (at level 61, pat pattern, m at next level, right associativity).

(** ** The methods of [ADDCOMPUTER] *)

Section Engine.
Context {W : Type}.

(** The environment: its answer to a call, and its next state. *)
Variable respond : forall R : Type, call R -> W -> (exn + R) * W.

Definition invoke {R} (c : call R) : M W R :=
  fun s =>
    match respond R c (world s) with
    | (inl e, w) => (Raise e, set_world s w, [Ev c (inl e)])
    | (inr r, w) => (Ret r, set_world s w, [Ev c (inr r)])
    end.

(** [''.join(random.choice(alphabet) for _ in range(n))] *)
Fixpoint random_string (n : nat) (alphabet : string) : M W string :=
  match n with
  | O => ret EmptyString
  | S n' =>
      c <- choice alphabet ;;
      r <- random_string n' alphabet ;;
      ret (String c r)
  end.

(** [a, b = l] *)
Definition unpack2 (l : list string) : M W (string * string) :=
  match l with
  | [a; b] => ret (a, b)
  | [] => raise (ValueError "not enough values to unpack (expected 2, got 0)")
  | [_] => raise (ValueError "not enough values to unpack (expected 2, got 1)")
  | _ => raise (ValueError "too many values to unpack (expected 2)")
  end.

(** [l[0]] *)
Definition index0 {A} (l : list A) : M W A :=
  match l with
  | x :: _ => ret x
  | [] => raise (IndexError "list index out of range")
  end.

(** [for x in l: f(x)] *)
Fixpoint for_each {A} (f : A -> M W unit) (l : list A) : M W unit :=
  match l with
  | [] => ret tt
  | x :: r => f x ;; for_each f r
  end.

(** The [except Exception as e] clause shared by [run_ldaps] and
    [doSAMRAdd] (lines 323-328 and 448-453). *)
Definition log_exception (e : exn) : option (M W unit) :=
  if is_Exception e then
    Some (dbg <- is_debug ;;
          when dbg (emit (Traceback e)) ;;
          log CRITICAL (str_exn e))
  else None.

(** [ADDCOMPUTER.__init__] (lines 53-132).  The attributes are computed in
    the order of the source and the object is returned complete; a raise
    leaves no object behind. *)
Definition __init__ (username password domain : string) (o : Options) : M W Self :=
  '(lmhash0, nthash0) <-
    match hashes o with
    | Some h => unpack2 (split ":" h)
    | None => ret (EmptyString, EmptyString)
    end ;;
  let '(lmhash1, hashes1) :=
    if (lmhash0 =? "") && (String.length nthash0 =? 32)%nat
    then ("aad3b435b51404eeaad3b435b51404ee",
          Some (join ":" ["aad3b435b51404eeaad3b435b51404ee"; nthash0]))
    else (EmptyString, hashes o) in
  let kdcHost1 := match dc_ip o with Some ip => Some ip | None => dc_host o end in
  if negb ((method o =? "SAMR") || (method o =? "LDAPS")) then
    raise (ValueError ("Unsupported method " ++ method o))
  else if k o && match dc_host o with None => true | Some _ => false end then
    raise (ValueError "Kerberos auth requires DNS name of the target DC. Use -dc-host.")
  else
    when ((method o =? "LDAPS") && negb (contains "." domain))
      (log WARNING ("'" ++ domain ++
         "' doesn't look like a FQDN. Generating baseDN will probably fail.")) ;;
    '(lmhash2, nthash2) <-
      match hashes o with
      | Some h => unpack2 (split ":" h)
      | None => ret (lmhash1, EmptyString)
      end ;;
    computerName1 <-
      match computer_name o with
      | None =>
          if no_add o then
            raise (ValueError "You have to provide a computer name when using -no-add.")
          else if delete o then
            raise (ValueError "You have to provide a computer name when using -delete.")
          else ret None
      | Some n =>
          match last_char n with
          | None => raise (IndexError "string index out of range")
          | Some c => if Ascii.eqb c "$" then ret (Some n) else ret (Some (n ++ "$"))
          end
      end ;;
    computerPassword1 <-
      match computer_pass o with
      | None => random_string 32 (ascii_letters ++ digits)
      | Some p => ret p
      end ;;
    target1 <-
      match dc_host o with
      | None =>
          when (negb (contains "." domain))
            (log WARNING ("No DC host set and '" ++ domain ++
               "' doesn't look like a FQDN. DNS resolution of short names will probably fail.")) ;;
          ret domain
      | Some t => ret t
      end ;;
    let port1 :=
      match port o with
      | None =>
          if method o =? "SAMR" then Some 445%Z
          else if method o =? "LDAPS" then Some 636%Z
          else None
      | Some p => Some p
      end in
    let domainNetbios1 :=
      match domain_netbios o with None => domain | Some d => d end in
    let baseDN1 :=
      match baseDN o with
      | None =>
          if method o =? "LDAPS" then
            Some (drop_last
                    (fold_left (fun acc i => acc ++ "dc=" ++ i ++ ",")
                       (split "." domain) EmptyString))
          else None
      | Some b => Some b
      end in
    computerGroup1 <-
      match computer_group o with
      | None =>
          if method o =? "LDAPS" then
            match baseDN1 with
            | Some b => ret (Some ("CN=Computers," ++ b))
            | None => raise (TypeError ("can only concatenate str (not " ++ dquote
                                        ++ "NoneType" ++ dquote ++ ") to str"))
            end
          else ret None
      | Some g => ret (Some g)
      end ;;
    ret {| __username := username; __password := password; __domain := domain;
           __lmhash := lmhash2; __nthash := nthash2; __hashes := hashes1;
           __aesKey := aesKey o; __doKerberos := k o; __target := target1;
           __kdcHost := kdcHost1; __computerName := computerName1;
           __computerPassword := computerPassword1; __method := method o;
           __port := port1; __domainNetbios := domainNetbios1;
           __noAdd := no_add o; __delete := delete o; __targetIp := dc_ip o;
           __baseDN := baseDN1; __computerGroup := computerGroup1 |}.

(** [generateComputerName] (lines 339-340) *)
Definition generateComputerName : M W string :=
  r <- random_string 8 (ascii_uppercase ++ digits) ;;
  ret ("DESKTOP-" ++ (r ++ "$")).

(** [self.__computerName = n] *)
Definition assign_computerName (n : option string) : M W unit :=
  x <- get_me ;;
  put_me (set_computerName x n).

(** [s[:-1]] for an attribute that may be [None] *)
Definition without_marker (n : option string) : M W string :=
  match n with
  | Some s => ret (drop_last s)
  | None => raise (TypeError "'NoneType' object is not subscriptable")
  end.

(** *** The LDAPS path *)

(** [connection.search(base, filter, search_scope=, attributes=)] *)
Definition search (conn : obj) (base : option string) (filter : string)
  (scope : search_scope) (attrs : list string) : M W (bool * conn_state) :=
  invoke (ldap_search conn base filter scope attrs).

(** [LDAPComputerExists] (lines 331-333) *)
Definition LDAPComputerExists (connection : obj) (computerName : option string)
  : M W bool :=
  x <- get_me ;;
  '(_, cs) <- search connection (__baseDN x)
                ("(sAMAccountName=" ++ fmt computerName ++ ")") SUBTREE [] ;;
  ret (List.length (entries cs) =? 1)%nat.

(** [LDAPGetComputer] (lines 335-337) *)
Definition LDAPGetComputer (connection : obj) (computerName : option string)
  : M W entry :=
  x <- get_me ;;
  '(_, cs) <- search connection (__baseDN x)
                ("(sAMAccountName=" ++ fmt computerName ++ ")") SUBTREE [] ;;
  index0 (entries cs).

(** [getUserInfo] (lines 156-164); [None] is its [return False]. *)
Definition getUserInfo (ldapConn : obj) (username : string)
  : M W (option (string * string)) :=
  x <- get_me ;;
  '(_, cs) <- search ldapConn (__baseDN x)
                ("(sAMAccountName=" ++ escape_filter_chars username ++ ")")
                SUBTREE ["objectSid"] ;;
  try_except
    (e0 <- index0 (entries cs) ;;
     match objectSid e0 with
     | Some sid0 => ret (Some (entry_dn e0, sid0))
     | None => raise (KeyError "objectSid")
     end)
    (fun e =>
       match e with
       | IndexError _ =>
           Some (log ERROR ("User not found in LDAP: " ++ username) ;; ret None)
       | _ => None
       end).

Definition ACL_ALLOW_EVERYONE_EVERYTHING : list nat :=
  [1; 0; 4; 156; 0; 0; 0; 0; 0; 0; 0; 0; 0; 0; 0; 0; 20; 0; 0; 0; 2; 0; 48; 0;
   2; 0; 0; 0; 0; 0; 20; 0; 255; 1; 15; 0; 1; 1; 0; 0; 0; 0; 0; 1; 0; 0; 0; 0;
   0; 10; 20; 0; 0; 0; 0; 16; 1; 1; 0; 0; 0; 0; 0; 1; 0; 0; 0; 0]%nat.

Definition computer_classes : list string :=
  ["top"; "person"; "organizationalPerson"; "user"; "computer"].

(** [bypass_with_msExchStorageGroup] (lines 166-211).  [Some false] is its
    [return False]; falling off the end returns [None]. *)
Definition bypass_with_msExchStorageGroup (ldapConn : obj) (ucd : ucd_t)
  : M W (option bool) :=
  log INFO "Checking if `msExchStorageGroup` object exists within the schema and is vulnerable" ;;
  ctx <- invoke (ldap_schemaNamingContext ldapConn) ;;
  schema <- index0 ctx ;;
  '(res, cs) <- search ldapConn (Some schema) "(cn=ms-Exch-Storage-Group)"
                  LEVEL ["possSuperiors"] ;;
  if negb res then
    log ERROR "Object `msExchStorageGroup` does not exist within the schema, Exchange is probably not installed" ;;
    ret (Some false)
  else
    poss <- index0 (response cs) ;;
    if negb (existsb (String.eqb "computer") poss) then
      log ERROR "Object `msExchStorageGroup` not vulnerable, was probably patched" ;;
      ret (Some false)
    else
      log INFO "Object `msExchStorageGroup` exists and is vulnerable!" ;;
      x <- get_me ;;
      result0 <- getUserInfo ldapConn (__username x) ;;
      match result0 with
      | None =>
          log ERROR "Could not find target user in domain." ;;
          ret (Some false)
      | Some (target_dn, _) =>
          mESG_name <- random_string 8 ascii_uppercase ;;
          let mESG_dn := "CN=" ++ mESG_name ++ "," ++ target_dn in
          log INFO ("Attempting to add new `msExchStorageGroup` object `" ++ mESG_name
                    ++ "` under `" ++ target_dn ++ "`") ;;
          '(res1, cs1) <- invoke (ldap_add ldapConn mESG_dn
                                    ["top"; "container"; "msExchStorageGroup"]
                                    (nTSecurityDescriptor ACL_ALLOW_EVERYONE_EVERYTHING)
                                    (Some 4%Z)) ;;
          if negb res1 then
            log ERROR ("Failed to add `msExchStorageGroup` object: "
                       ++ result_str (conn_result cs1)) ;;
            ret (Some false)
          else
            log INFO ("Added `msExchStorageGroup` object at `" ++ mESG_dn
                      ++ "`. DON'T FORGET TO CLEANUP") ;;
            y <- get_me ;;
            computerHostname <- without_marker (__computerName y) ;;
            let newComputerDn := "CN=" ++ computerHostname ++ "," ++ mESG_dn in
            log INFO ("Attempting to create computer in `" ++ mESG_dn ++ "`") ;;
            '(res2, cs2) <- invoke (ldap_add ldapConn newComputerDn computer_classes
                                      (computer_attrs ucd) None) ;;
            if negb res2 then
              log ERROR ("Failed to add a new computer: " ++ result_str (conn_result cs2)) ;;
              ret (Some false)
            else
              z <- get_me ;;
              log INFO ("Adding new computer with username: " ++ fmt (__computerName z)
                        ++ " and password: " ++ __computerPassword z ++ " result: OK") ;;
              ret None
      end.

(** The body of the inner [try] of [run_ldaps] (lines 221-231): connect and
    authenticate with the given TLS profile. *)
Definition ldaps_connect (connectTo user : string) (tls : obj) : M W obj :=
  x <- get_me ;;
  ldapServer <- invoke (ldap3_Server connectTo (__port x) tls) ;;
  if __doKerberos x then
    ldapConn <- invoke (ldap3_Connection ldapServer no_credentials) ;;
    invoke (ldap3_kerberos_login ldapConn connectTo (__username x) (__password x)
              (__domain x) (__lmhash x) (__nthash x) (__aesKey x) (__kdcHost x)) ;;
    ret ldapConn
  else
    match __hashes x with
    | Some h =>
        ldapConn <- invoke (ldap3_Connection ldapServer (NTLM user h)) ;;
        invoke (ldap_bind ldapConn) ;;
        ret ldapConn
    | None =>
        ldapConn <- invoke (ldap3_Connection ldapServer (NTLM user (__password x))) ;;
        invoke (ldap_bind ldapConn) ;;
        ret ldapConn
    end.

(** The [except LDAPSocketOpenError] clause (lines 234-248): once more with
    TLSv1; here a refused bind with hashes raises. *)
Definition ldaps_connect_tlsv1 (connectTo user : string) : M W obj :=
  tls <- invoke (ldap3_Tls PROTOCOL_TLSv1) ;;
  x <- get_me ;;
  ldapServer <- invoke (ldap3_Server connectTo (__port x) tls) ;;
  if __doKerberos x then
    ldapConn <- invoke (ldap3_Connection ldapServer no_credentials) ;;
    invoke (ldap3_kerberos_login ldapConn connectTo (__username x) (__password x)
              (__domain x) (__lmhash x) (__nthash x) (__aesKey x) (__kdcHost x)) ;;
    ret ldapConn
  else
    match __hashes x with
    | Some h =>
        ldapConn <- invoke (ldap3_Connection ldapServer (NTLM user h)) ;;
        '(bind_res, cs) <- invoke (ldap_bind ldapConn) ;;
        if negb bind_res then raise (Exception (result_str (conn_result cs)))
        else ret ldapConn
    | None =>
        ldapConn <- invoke (ldap3_Connection ldapServer (NTLM user (__password x))) ;;
        invoke (ldap_bind ldapConn) ;;
        ret ldapConn
    end.

(** Lines 252-275 of [run_ldaps]: set the password of, or delete, an existing
    account. *)
Definition ldaps_existing (ldapConn : obj) : M W unit :=
  x <- get_me ;;
  ex <- LDAPComputerExists ldapConn (__computerName x) ;;
  if negb ex then
    raise (Exception ("Account " ++ fmt (__computerName x) ++ " not found in "
                      ++ fmt (__baseDN x) ++ "!"))
  else
    computer <- LDAPGetComputer ldapConn (__computerName x) ;;
    '(res, cs, msg) <-
      (if __delete x then
         r <- invoke (ldap_delete ldapConn (entry_dn computer)) ;;
         ret (r, "delete")
       else
         r <- invoke (ldap_modify_replace ldapConn (entry_dn computer) "unicodePwd"
                        (utf16le (dquote ++ __computerPassword x ++ dquote))) ;;
         ret (r, "set password for")) ;;
    if negb res then
      if (result (conn_result cs) =? RESULT_INSUFFICIENT_ACCESS_RIGHTS)%Z then
        raise (Exception ("User " ++ __username x ++ " doesn't have right to " ++ msg
                          ++ " " ++ fmt (__computerName x) ++ "!"))
      else raise (Exception (result_str (conn_result cs)))
    else if __noAdd x then
      log INFO ("Succesfully set password of " ++ fmt (__computerName x) ++ " to "
                ++ __computerPassword x ++ ".")
    else
      log INFO ("Succesfully deleted " ++ fmt (__computerName x) ++ ".").

(** The loop of lines 282-285: draw names until one is not found. *)
Fixpoint ldaps_find_unused (fuel : nat) (ldapConn : obj) : M W unit :=
  match fuel with
  | O => diverge
  | S fuel' =>
      n <- generateComputerName ;;
      assign_computerName (Some n) ;;
      x <- get_me ;;
      ex <- LDAPComputerExists ldapConn (__computerName x) ;;
      if negb ex then ret tt else ldaps_find_unused fuel' ldapConn
  end.

(** Lines 307-320: the add of the computer entry was refused. *)
Definition ldaps_add_refused (ldapConn : obj) (ucd : ucd_t) (cs : conn_state)
  : M W unit :=
  x <- get_me ;;
  if (result (conn_result cs) =? RESULT_UNWILLING_TO_PERFORM)%Z then
    match int16 (strip (hd EmptyString (split ":" (message (conn_result cs))))) with
    | None =>
        raise (ValueError
                 ("invalid literal for int() with base 16: "
                  ++ substring 0 200
                       (repr (strip (hd EmptyString (split ":" (message (conn_result cs))))))))
    | Some error_code =>
        if (error_code =? 0x216D)%Z then
          log CRITICAL ("User " ++ __username x ++ " machine quota exceeded!") ;;
          if endswith (__username x) "$" then
            log INFO "Trying to bypass machine quota with `msExchStorageGroup` object" ;;
            bypass_with_msExchStorageGroup ldapConn ucd ;;
            ret tt
          else ret tt
        else raise (Exception (result_str (conn_result cs)))
    end
  else if (result (conn_result cs) =? RESULT_INSUFFICIENT_ACCESS_RIGHTS)%Z then
    raise (Exception ("User " ++ __username x
                      ++ " doesn't have right to create a machine account!"))
  else raise (Exception (result_str (conn_result cs))).

(** Lines 277-322 of [run_ldaps]: create the account. *)
Definition ldaps_create (fuel : nat) (ldapConn : obj) : M W unit :=
  x <- get_me ;;
  match __computerName x with
  | Some _ =>
      ex <- LDAPComputerExists ldapConn (__computerName x) ;;
      if ex then
        raise (Exception ("Account " ++ fmt (__computerName x)
                 ++ " already exists! If you just want to set a password, use -no-add."))
      else ret tt
  | None => ldaps_find_unused fuel ldapConn
  end ;;
  y <- get_me ;;
  computerHostname <- without_marker (__computerName y) ;;
  let computerDn := "CN=" ++ computerHostname ++ "," ++ fmt (__computerGroup y) in
  let spns :=
    [ "HOST/" ++ computerHostname;
      "HOST/" ++ computerHostname ++ "." ++ __domain y;
      "RestrictedKrbHost/" ++ computerHostname;
      "RestrictedKrbHost/" ++ computerHostname ++ "." ++ __domain y ] in
  let ucd :=
    {| dnsHostName := computerHostname ++ "." ++ __domain y;
       userAccountControl := 0x1000;
       servicePrincipalName := spns;
       sAMAccountName := __computerName y;
       unicodePwd := utf16le (dquote ++ __computerPassword y ++ dquote) |} in
  '(res, cs) <- invoke (ldap_add ldapConn computerDn computer_classes
                          (computer_attrs ucd) None) ;;
  if negb res then ldaps_add_refused ldapConn ucd cs
  else
    log INFO ("Successfully added machine account " ++ fmt (__computerName y)
              ++ " with password " ++ __computerPassword y ++ ".").

(** Lines 214-248 of [run_ldaps]: open the session, with TLSv1.2 and, when
    the socket cannot be opened, once more with TLSv1. *)
Definition ldaps_session : M W obj :=
  x <- get_me ;;
  let connectTo :=
    match __targetIp x with Some ip => ip | None => __target x end in
  let user := __domain x ++ "\" ++ __username x in
  tls <- invoke (ldap3_Tls PROTOCOL_TLSv1_2) ;;
  try_except (ldaps_connect connectTo user tls)
    (fun e =>
       match e with
       | LDAPSocketOpenError _ => Some (ldaps_connect_tlsv1 connectTo user)
       | _ => None
       end).

(** The [try] block of [run_ldaps] (lines 217-322) *)
Definition ldaps_body (fuel : nat) : M W unit :=
  ldapConn <- ldaps_session ;;
  x <- get_me ;;
  if __noAdd x || __delete x then ldaps_existing ldapConn
  else ldaps_create fuel ldapConn.

(** [run_ldaps] (lines 213-328) *)
Definition run_ldaps (fuel : nat) : M W unit :=
  try_except (ldaps_body fuel) log_exception.

(** *** The SAMR path *)

Definition set_servHandle (h : option handle) : M W unit :=
  l <- get_frame ;;
  put_frame (mk_Locals h (domainHandle l) (userHandle l)).

Definition set_domainHandle (h : option handle) : M W unit :=
  l <- get_frame ;;
  put_frame (mk_Locals (servHandle l) h (userHandle l)).

Definition set_userHandle (h : option handle) : M W unit :=
  l <- get_frame ;;
  put_frame (mk_Locals (servHandle l) (domainHandle l) h).

(** Lines 357-371 of [doSAMRAdd]: choose the domain among those the server
    enumerated. *)
Definition samr_select_domain (domains : list string) : M W string :=
  let domainsWithoutBuiltin :=
    filter (fun x => negb (lower x =? "builtin")) domains in
  if (1 <? List.length domainsWithoutBuiltin)%nat then
    x <- get_me ;;
    let domain := filter (fun d => lower d =? __domainNetbios x) domains in
    if negb (List.length domain =? 1)%nat then
      log CRITICAL ("This server provides multiple domains and '" ++ __domainNetbios x
                    ++ "' isn't one of them.") ;;
      log CRITICAL "Available domain(s):" ;;
      for_each (fun d => log ERROR (" * " ++ d)) domains ;;
      log CRITICAL "Consider using -domain-netbios argument to specify which one you meant." ;;
      raise (Exception "")
    else index0 domain
  else index0 domainsWithoutBuiltin.

(** Lines 383-405: look the account up and open it, for [-no-add] and
    [-delete]. *)
Definition samr_open_existing (dce : obj) (domainHandle0 : handle)
  (selectedDomain : string) : M W handle :=
  x <- get_me ;;
  checkForUser <-
    try_except
      (invoke (hSamrLookupNamesInDomain dce domainHandle0 [__computerName x]))
      (fun e =>
         match e with
         | DCERPCSessionError code _ =>
             Some (if (code =? STATUS_NONE_MAPPED)%Z then
                     raise (Exception ("Account " ++ fmt (__computerName x)
                                       ++ " not found in domain " ++ selectedDomain ++ "!"))
                   else raise e)
         | _ => None
         end) ;;
  userRID <- index0 checkForUser ;;
  let '(access, msg) :=
    if __delete x then (DELETE, "delete")
    else (USER_FORCE_PASSWORD_CHANGE, "set password for") in
  try_except
    (h <- invoke (hSamrOpenUser dce domainHandle0 access userRID) ;;
     set_userHandle (Some h) ;;
     ret h)
    (fun e =>
       match e with
       | DCERPCSessionError code _ =>
           Some (if (code =? STATUS_ACCESS_DENIED)%Z then
                   raise (Exception ("User " ++ __username x ++ " doesn't have right to "
                                     ++ msg ++ " " ++ fmt (__computerName x) ++ "!"))
                 else raise e)
       | _ => None
       end).

(** Lines 418-424: one probe of the loop below; [true] is
    [foundUnused = True]. *)
Definition samr_probe (dce : obj) (domainHandle0 : handle) (name : option string)
  : M W bool :=
  try_except
    (invoke (hSamrLookupNamesInDomain dce domainHandle0 [name]) ;;
     ret false)
    (fun e =>
       match e with
       | DCERPCSessionError code _ =>
           Some (if (code =? STATUS_NONE_MAPPED)%Z then ret true else raise e)
       | _ => None
       end).

(** Lines 415-424: draw names until the lookup of one answers
    STATUS_NONE_MAPPED. *)
Fixpoint samr_find_unused (fuel : nat) (dce : obj) (domainHandle0 : handle)
  : M W unit :=
  match fuel with
  | O => diverge
  | S fuel' =>
      n <- generateComputerName ;;
      assign_computerName (Some n) ;;
      x <- get_me ;;
      foundUnused <- samr_probe dce domainHandle0 (__computerName x) ;;
      if foundUnused then ret tt else samr_find_unused fuel' dce domainHandle0
  end.

(** Lines 407-427: check or draw the name, then create the account. *)
Definition samr_create (fuel : nat) (dce : obj) (domainHandle0 : handle)
  : M W handle :=
  x <- get_me ;;
  match __computerName x with
  | Some _ =>
      try_except
        (invoke (hSamrLookupNamesInDomain dce domainHandle0 [__computerName x]) ;;
         raise (Exception ("Account " ++ fmt (__computerName x)
                  ++ " already exists! If you just want to set a password, use -no-add.")))
        (fun e =>
           match e with
           | DCERPCSessionError code _ =>
               Some (if negb (code =? STATUS_NONE_MAPPED)%Z then raise e else ret tt)
           | _ => None
           end)
  | None => samr_find_unused fuel dce domainHandle0
  end ;;
  y <- get_me ;;
  h <- invoke (hSamrCreateUser2InDomain dce domainHandle0 (__computerName y)
                 USER_WORKSTATION_TRUST_ACCOUNT USER_FORCE_PASSWORD_CHANGE) ;;
  set_userHandle (Some h) ;;
  ret h.

(** Lines 429-446: delete the account, or set its password and, for a new
    account, re-open it and set its account control. *)
Definition samr_apply (dce : obj) (domainHandle0 userHandle0 : handle) : M W unit :=
  x <- get_me ;;
  if __delete x then
    invoke (hSamrDeleteUser dce userHandle0) ;;
    log INFO ("Successfully deleted " ++ fmt (__computerName x) ++ ".") ;;
    set_userHandle None
  else
    invoke (hSamrSetPasswordInternal4New dce userHandle0 (__computerPassword x)) ;;
    if __noAdd x then
      log INFO ("Successfully set password of " ++ fmt (__computerName x) ++ " to "
                ++ __computerPassword x ++ ".")
    else
      checkForUser <- invoke (hSamrLookupNamesInDomain dce domainHandle0
                                [__computerName x]) ;;
      userRID <- index0 checkForUser ;;
      h <- invoke (hSamrOpenUser dce domainHandle0 MAXIMUM_ALLOWED userRID) ;;
      set_userHandle (Some h) ;;
      invoke (hSamrSetInformationUser2 dce h USER_WORKSTATION_TRUST_ACCOUNT) ;;
      log INFO ("Successfully added machine account " ++ fmt (__computerName x)
                ++ " with password " ++ __computerPassword x ++ ".").

(** Lines 348-379 of [doSAMRAdd]: connect, bind, open the server, select
    and open the domain. *)
Definition samr_open (dce : obj) : M W (handle * string) :=
  invoke (dce_connect dce) ;;
  invoke (dce_bind dce) ;;
  x <- get_me ;;
  servHandle0 <- invoke (hSamrConnect5 dce ("\\" ++ __target x ++ nul)
                           [SAM_SERVER_ENUMERATE_DOMAINS; SAM_SERVER_LOOKUP_DOMAIN]) ;;
  set_servHandle (Some servHandle0) ;;
  domains <- invoke (hSamrEnumerateDomainsInSamServer dce servHandle0) ;;
  selectedDomain <- samr_select_domain domains ;;
  domainSID <- invoke (hSamrLookupDomainInSamServer dce servHandle0 selectedDomain) ;;
  dbg <- is_debug ;;
  when dbg (log INFO ("Opening domain " ++ selectedDomain ++ "...")) ;;
  domainHandle0 <- invoke (hSamrOpenDomain dce servHandle0
                             [DOMAIN_LOOKUP; DOMAIN_CREATE_USER] domainSID) ;;
  set_domainHandle (Some domainHandle0) ;;
  ret (domainHandle0, selectedDomain).

(** The body of the [try] of [doSAMRAdd] (lines 348-446). *)
Definition samr_body (fuel : nat) (dce : obj) : M W unit :=
  '(domainHandle0, selectedDomain) <- samr_open dce ;;
  x <- get_me ;;
  userHandle0 <-
    (if __noAdd x || __delete x then samr_open_existing dce domainHandle0 selectedDomain
     else samr_create fuel dce domainHandle0) ;;
  samr_apply dce domainHandle0 userHandle0.

(** The [finally] block of [doSAMRAdd] (lines 454-461). *)
Definition samr_teardown (dce : obj) : M W unit :=
  l <- get_frame ;;
  match userHandle l with
  | Some h => invoke (hSamrCloseHandle dce h)
  | None => ret tt
  end ;;
  match domainHandle l with
  | Some h => invoke (hSamrCloseHandle dce h)
  | None => ret tt
  end ;;
  match servHandle l with
  | Some h => invoke (hSamrCloseHandle dce h)
  | None => ret tt
  end ;;
  invoke (dce_disconnect dce).

(** [doSAMRAdd] (lines 342-461) *)
Definition doSAMRAdd (fuel : nat) (rpctransport : obj) : M W unit :=
  dce <- invoke (get_dce_rpc rpctransport) ;;
  put_frame (mk_Locals None None None) ;;
  try_finally
    (try_except (samr_body fuel dce) log_exception)
    (samr_teardown dce).

(** [run_samr] (lines 136-154) *)
Definition run_samr (fuel : nat) : M W unit :=
  x <- get_me ;;
  stringBinding <-
    invoke (hept_map (match __targetIp x with Some ip => ip | None => __target x end)) ;;
  rpctransport <- invoke (DCERPCTransportFactory stringBinding) ;;
  invoke (set_dport rpctransport (__port x)) ;;
  match __targetIp x with
  | Some ip =>
      invoke (setRemoteHost rpctransport ip) ;;
      invoke (setRemoteName rpctransport (__target x))
  | None => ret tt
  end ;;
  has <- invoke (hasattr_set_credentials rpctransport) ;;
  when has (invoke (set_credentials rpctransport (__username x) (__password x)
                      (__domain x) (__lmhash x) (__nthash x) (__aesKey x))) ;;
  invoke (set_kerberos rpctransport (__doKerberos x) (__kdcHost x)) ;;
  doSAMRAdd fuel rpctransport.

(** [run] (lines 463-467) *)
Definition run (fuel : nat) : M W unit :=
  x <- get_me ;;
  if __method x =? "SAMR" then run_samr fuel
  else if __method x =? "LDAPS" then run_ldaps fuel
  else ret tt.

(** The end of the script (lines 532-543): construct the object and run it;
    an [Exception] is printed. *)
Definition main (fuel : nat) (username password domain : string) (options : Options)
  : M W unit :=
  if domain =? "" then
    log CRITICAL "Domain should be specified!" ;;
    raise (SystemExit 1)
  else
    try_except
      (executer <- __init__ username password domain options ;;
       put_me executer ;;
       run fuel)
      (fun e =>
         if is_Exception e then
           Some (dbg <- is_debug ;;
                 when dbg (emit (Traceback e)) ;;
                 emit (Stdout (str_exn e)))
         else None).

End Engine.

(** ** A simulated domain controller

    A small environment to run the methods on: it keeps the account names,
    issues fresh handles, and can be told to refuse the endpoint lookup, to
    fail every close-handle call, or to answer the add of a computer entry
    with the machine quota error. *)

Record Sim : Type := mk_Sim {
  accounts : list string;
  next_handle : nat;
  sim_domains : list string;
  hept_fails : bool;
  close_fails : bool;
  quota : bool;
  container : bool
}.

Definition sim_taken (w : Sim) (n : option string) : bool :=
  match n with
  | Some s => existsb (String.eqb s) (accounts w)
  | None => false
  end.

Definition sim_fresh (w : Sim) : Sim :=
  mk_Sim (accounts w) (S (next_handle w)) (sim_domains w) (hept_fails w)
    (close_fails w) (quota w) (container w).

Definition sim_add_account (w : Sim) (n : option string) : Sim :=
  mk_Sim (match n with Some s => s :: accounts w | None => accounts w end)
    (S (next_handle w)) (sim_domains w) (hept_fails w) (close_fails w) (quota w)
    (container w).

Definition sim_add_container (w : Sim) : Sim :=
  mk_Sim (accounts w) (next_handle w) (sim_domains w) (hept_fails w)
    (close_fails w) (quota w) true.

Definition sim_success : ldap_result := mk_ldap_result 0 "" "{'result': 0}".

Definition sim_quota_exceeded : ldap_result :=
  mk_ldap_result 53
    "0000216D: SvcErr: DSID-031A1202, problem 5003 (WILL_NOT_PERFORM), data 0"
    "{'result': 53, 'description': 'unwillingToPerform'}".

Definition sim_entries (w : Sim) (filter : string) : list entry :=
  map (fun a => mk_entry ("CN=" ++ drop_last a ++ ",CN=Computers,DC=corp,DC=local")
                  (Some "S-1-5-21-1-1104"))
    (List.filter (fun a => ("(sAMAccountName=" ++ a ++ ")") =? filter) (accounts w)).

Definition sim_respond (R : Type) (c : call R) : Sim -> (exn + R) * Sim :=
  match c in call R0 return Sim -> (exn + R0) * Sim with
  | hept_map host => fun w =>
      if hept_fails w then (inl (Exception "Connection error: timed out"), w)
      else (inr ("ncacn_np:" ++ host ++ "[\pipe\samr]"), w)
  | DCERPCTransportFactory _ => fun w => (inr 1%nat, w)
  | set_dport _ _ => fun w => (inr tt, w)
  | setRemoteHost _ _ => fun w => (inr tt, w)
  | setRemoteName _ _ => fun w => (inr tt, w)
  | hasattr_set_credentials _ => fun w => (inr true, w)
  | set_credentials _ _ _ _ _ _ _ => fun w => (inr tt, w)
  | set_kerberos _ _ _ => fun w => (inr tt, w)
  | get_dce_rpc _ => fun w => (inr 2%nat, w)
  | dce_connect _ => fun w => (inr tt, w)
  | dce_bind _ => fun w => (inr tt, w)
  | dce_disconnect _ => fun w => (inr tt, w)
  | hSamrConnect5 _ _ _ => fun w => (inr (next_handle w), sim_fresh w)
  | hSamrEnumerateDomainsInSamServer _ _ => fun w => (inr (sim_domains w), w)
  | hSamrLookupDomainInSamServer _ _ _ => fun w => (inr "S-1-5-21-1", w)
  | hSamrOpenDomain _ _ _ _ => fun w => (inr (next_handle w), sim_fresh w)
  | hSamrLookupNamesInDomain _ _ names => fun w =>
      if forallb (sim_taken w) names then (inr [1104%Z], w)
      else (inl (DCERPCSessionError STATUS_NONE_MAPPED "STATUS_NONE_MAPPED"), w)
  | hSamrOpenUser _ _ _ _ => fun w => (inr (next_handle w), sim_fresh w)
  | hSamrCreateUser2InDomain _ _ name _ _ => fun w =>
      (inr (next_handle w), sim_add_account w name)
  | hSamrDeleteUser _ _ => fun w => (inr tt, w)
  | hSamrSetPasswordInternal4New _ _ _ => fun w => (inr tt, w)
  | hSamrSetInformationUser2 _ _ _ => fun w => (inr tt, w)
  | hSamrCloseHandle _ _ => fun w =>
      if close_fails w
      then (inl (DCERPCSessionError 0xc0000008 "STATUS_INVALID_HANDLE"), w)
      else (inr tt, w)
  | ldap3_Tls _ => fun w => (inr 1%nat, w)
  | ldap3_Server _ _ _ => fun w => (inr 2%nat, w)
  | ldap3_Connection _ _ => fun w => (inr 3%nat, w)
  | ldap3_kerberos_login _ _ _ _ _ _ _ _ _ => fun w => (inr tt, w)
  | ldap_bind _ => fun w => (inr (true, mk_conn_state sim_success [] []), w)
  | ldap_schemaNamingContext _ => fun w =>
      (inr ["CN=Schema,CN=Configuration,DC=corp,DC=local"], w)
  | ldap_search _ _ filter scope _ => fun w =>
      match scope with
      | LEVEL =>
          (inr (true, mk_conn_state sim_success [] [["computer"; "container"]]), w)
      | SUBTREE =>
          (inr (true, mk_conn_state sim_success (sim_entries w filter) []), w)
      end
  | ldap_add _ _ _ attrs _ => fun w =>
      match attrs with
      | nTSecurityDescriptor _ =>
          (inr (true, mk_conn_state sim_success [] []), sim_add_container w)
      | computer_attrs ucd =>
          if quota w && negb (container w)
          then (inr (false, mk_conn_state sim_quota_exceeded [] []), w)
          else (inr (true, mk_conn_state sim_success [] []),
                sim_add_account w (sAMAccountName ucd))
      end
  | ldap_delete _ _ => fun w => (inr (true, mk_conn_state sim_success [] []), w)
  | ldap_modify_replace _ _ _ _ => fun w =>
      (inr (true, mk_conn_state sim_success [] []), w)
  end.

(** A domain controller with the domains BUILTIN and CORP and the given
    accounts. *)
Definition sim_dc (accts : list string) : Sim :=
  mk_Sim accts 10 ["Builtin"; "CORP"] false false false false.

Definition blank_self : Self :=
  mk_Self "" "" "" "" "" None None false "" None None "" "" None "" false false
    None None None.

(** The state a script starts in. *)
Definition start (w : Sim) : St Sim :=
  mk_St w (fun i => (7 * i + 3)%nat) 0 false blank_self (mk_Locals None None None).


(** ** Reading a run *)

Definition out_of {W A} (r : outcome A * St W * list event) : outcome A := fst (fst r).
Definition state_of {W A} (r : outcome A * St W * list event) : St W := snd (fst r).
Definition trace_of {W A} (r : outcome A * St W * list event) : list event := snd r.

(** A computation satisfies [Q] when every run of it relates the state it
    starts in, the trace it leaves and the state it ends in by [Q]. *)
Definition sat {W A} (Q : St W -> list event -> St W -> Prop) (m : M W A) : Prop :=
  forall s, Q s (trace_of (m s)) (state_of (m s)).

(** [Q] is closed under sequencing. *)
Definition sequential {W} (Q : St W -> list event -> St W -> Prop) : Prop :=
  (forall s, Q s [] s) /\
  (forall s t1 s1 t2 s2, Q s t1 s1 -> Q s1 t2 s2 -> Q s (t1 ++ t2)%list s2).

(** The three relations used below: the events of the trace all satisfy [P];
    the object is left as it was; it is left as it was up to its computer
    name. *)
Definition only {W} (P : event -> Prop) : St W -> list event -> St W -> Prop :=
  fun _ t _ => Forall P t.

Definition same_me {W} : St W -> list event -> St W -> Prop :=
  fun s _ s' => me s' = me s.

Definition same_but_name {W} : St W -> list event -> St W -> Prop :=
  fun s _ s' => set_computerName (me s') None = set_computerName (me s) None.


(** ** Classifying events *)

(** A call to a collaborator, as opposed to a log line. *)
Definition is_call (e : event) : bool :=
  match e with
  | Ev _ _ => true
  | _ => false
  end.

(** ** The shape of a generated computer name *)

(** [DESKTOP-], eight characters among [A-Z0-9], and a final [$]. *)
Definition desktop_pattern (n : string) : bool :=
  String.prefix "DESKTOP-" n
  && (String.length n =? 17)%nat
  && forallb (fun c => is_upper c || is_digit c)
       (list_ascii_of_string (substring 8 8 n))
  && (substring 16 1 n =? "$").

(** The calls of the [finally] block of [doSAMRAdd]. *)
Definition is_teardown (e : event) : bool :=
  match e with
  | Ev c _ =>
      match c with
      | hSamrCloseHandle _ _ | dce_disconnect _ => true
      | _ => false
      end
  | _ => false
  end.

(** The calls [run_samr] and [doSAMRAdd] make outside the [try] block of
    [doSAMRAdd]: the set-up of the transport, and the teardown. *)
Definition is_unguarded (e : event) : bool :=
  match e with
  | Ev c _ =>
      match c with
      | hept_map _ | DCERPCTransportFactory _ | set_dport _ _ | setRemoteHost _ _
      | setRemoteName _ _ | hasattr_set_credentials _
      | set_credentials _ _ _ _ _ _ _ | set_kerberos _ _ _ | get_dce_rpc _
      | hSamrCloseHandle _ _ | dce_disconnect _ => true
      | _ => false
      end
  | _ => false
  end.

(** A close-handle call that raised. *)
Definition is_failed_close (e : event) : bool :=
  match e with
  | Ev c (inl _) =>
      match c with
      | hSamrCloseHandle _ _ => true
      | _ => false
      end
  | _ => false
  end.

(** The handle a close-handle call was given. *)
Definition closed_handle (e : event) : option handle :=
  match e with
  | Ev c _ =>
      match c with
      | hSamrCloseHandle _ h => Some h
      | _ => None
      end
  | _ => None
  end.

(** The handles given to close-handle along a trace, in order. *)
Definition closed_handles (t : list event) : list handle :=
  flat_map (fun e => match closed_handle e with Some h => [h] | None => [] end) t.

Definition is_create_user (e : event) : bool :=
  match e with
  | Ev c _ =>
      match c with
      | hSamrCreateUser2InDomain _ _ _ _ _ => true
      | _ => false
      end
  | _ => false
  end.

Definition is_ldap_add (e : event) : bool :=
  match e with
  | Ev c _ =>
      match c with
      | ldap_add _ _ _ _ _ => true
      | _ => false
      end
  | _ => false
  end.

(** The quota-bypass fallback begins by reading the schema naming context,
    and nothing else reads it: one such event is one attempt. *)
Definition is_bypass_attempt (e : event) : bool :=
  match e with
  | Ev c _ =>
      match c with
      | ldap_schemaNamingContext _ => true
      | _ => false
      end
  | _ => false
  end.

(** The answer to a name lookup, to a search, to an add. *)
Definition lookup_reply (e : event) : option (exn + list Z) :=
  match e with
  | Ev c r =>
      match c in call R0 return exn + R0 -> option (exn + list Z) with
      | hSamrLookupNamesInDomain _ _ _ => fun r0 => Some r0
      | _ => fun _ => None
      end r
  | _ => None
  end.

Definition search_reply (e : event) : option (exn + bool * conn_state) :=
  match e with
  | Ev c r =>
      match c in call R0 return exn + R0 -> option (exn + bool * conn_state) with
      | ldap_search _ _ _ _ _ => fun r0 => Some r0
      | _ => fun _ => None
      end r
  | _ => None
  end.

Definition add_reply (e : event) : option (exn + bool * conn_state) :=
  match e with
  | Ev c r =>
      match c in call R0 return exn + R0 -> option (exn + bool * conn_state) with
      | ldap_add _ _ _ _ _ => fun r0 => Some r0
      | _ => fun _ => None
      end r
  | _ => None
  end.

(** The first event of a trace that [f] recognises. *)
Fixpoint first_reply {A} (f : event -> option A) (t : list event) : option A :=
  match t with
  | [] => None
  | e :: r =>
      match f e with
      | Some x => Some x
      | None => first_reply f r
      end
  end.

(** ** The handles held, read off the trace

    A handle is held from the call that returned it; the user handle is
    replaced by a later open or create, and dropped by a delete. *)
Definition held_step (l : Locals) (e : event) : Locals :=
  match e with
  | Ev c (inr r) =>
      match c in call R0 return R0 -> Locals with
      | hSamrConnect5 _ _ _ => fun h => mk_Locals (Some h) (domainHandle l) (userHandle l)
      | hSamrOpenDomain _ _ _ _ => fun h => mk_Locals (servHandle l) (Some h) (userHandle l)
      | hSamrOpenUser _ _ _ _ => fun h => mk_Locals (servHandle l) (domainHandle l) (Some h)
      | hSamrCreateUser2InDomain _ _ _ _ _ =>
          fun h => mk_Locals (servHandle l) (domainHandle l) (Some h)
      | hSamrDeleteUser _ _ => fun _ => mk_Locals (servHandle l) (domainHandle l) None
      | _ => fun _ => l
      end r
  | _ => l
  end.

Definition held_from (l : Locals) (t : list event) : Locals := fold_left held_step t l.

Definition held (t : list event) : Locals := held_from (mk_Locals None None None) t.

(** The handles to close, in the order of the [finally] block. *)
Definition handles_of (l : Locals) : list handle :=
  (match userHandle l with Some h => [h] | None => [] end
   ++ match domainHandle l with Some h => [h] | None => [] end
   ++ match servHandle l with Some h => [h] | None => [] end)%list.

(** The trace of a teardown in which every close-handle call returns:
    the handles are closed in order, then the transport is disconnected. *)
Definition teardown_trace (dce : obj) (l : Locals) (rd : exn + unit) : list event :=
  (map (fun h => Ev (hSamrCloseHandle dce h) (inr tt)) (handles_of l)
   ++ [Ev (dce_disconnect dce) rd])%list.

(** The handles are as the trace says. *)
Definition tracks_handles {W} : St W -> list event -> St W -> Prop :=
  fun s t s' => frame s' = held_from (frame s) t.

(** An object whose computer name is set is left as it was. *)
Definition keeps_named {W} : St W -> list event -> St W -> Prop :=
  fun s _ s' => __computerName (me s) <> None -> me s' = me s.

(** ** States to run the methods in *)

(** The state in which [run] starts: the simulated domain controller [w],
    and the object constructed from the options. *)
Definition constructed (username password domain : string) (o : Options) (w : Sim)
  : St Sim :=
  match __init__ username password domain o (start w) with
  | (Ret x, s, _) => set_me s x
  | (_, s, _) => s
  end.

Definition options_for (computer : option string) (meth : string)
  (netbios : option string) (noadd del : bool) : Options :=
  mk_Options None None false None computer (Some "Passw0rd!") meth None netbios
    noadd del None None None.

(** A domain controller that serves two domains besides the built-in one. *)
Definition sim_two_domains : Sim :=
  mk_Sim [] 10 ["Builtin"; "CORP"; "OTHER"] false false false false.

(** The exception a call raised, when the event is a call that raised. *)
Definition raise_of (e : event) : option exn :=
  match e with
  | Ev _ (inl x) => Some x
  | _ => None
  end.

(** An [Exception] leaves a run only as the error of its last event, a call
    made outside the guarded block. *)
Definition escapes_from_unguarded {W A} (r : outcome A * St W * list event) : Prop :=
  forall e,
    out_of r = Raise e ->
    is_Exception e = true ->
    exists pre ev,
      trace_of r = (pre ++ [ev])%list /\ raise_of ev = Some e /\ is_unguarded ev = true.

(** An error raised by a call made outside the guarded block ends the run
    at that call, and leaves the run. *)
Definition unguarded_errors_leave {W A} (r : outcome A * St W * list event) : Prop :=
  forall pre ev post e,
    trace_of r = (pre ++ ev :: post)%list ->
    is_unguarded ev = true ->
    raise_of ev = Some e ->
    post = [] /\ out_of r = Raise e.

(** Events that are neither a search nor an add; neither a name lookup nor a
    create-user. *)
Definition quiet_ldap (e : event) : bool :=
  match search_reply e with
  | Some _ => false
  | None => negb (is_ldap_add e)
  end.

Definition quiet_samr (e : event) : bool :=
  match lookup_reply e with
  | Some _ => false
  | None => negb (is_create_user e)
  end.

(** What the engines log when the account to create is already there. *)
Definition already_exists (n : string) : string :=
  "Account " ++ n ++ " already exists! If you just want to set a password, use -no-add.".

(** Events that are neither an add nor the start of the quota-bypass
    fallback. *)
Definition quiet_add (e : event) : bool :=
  match add_reply e with
  | Some _ => false
  | None => negb (is_bypass_attempt e)
  end.

(** How many times the fallback was attempted. *)
Definition bypass_attempts (t : list event) : nat :=
  List.length (filter is_bypass_attempt t).

(** The sub-code [run_ldaps] reads from the message of a refused add. *)
Definition sub_code (cs : conn_state) : option Z :=
  int16 (strip (hd EmptyString (split ":" (message (conn_result cs))))).

(** The handle variables are left as they were. *)
Definition same_frame {W} : St W -> list event -> St W -> Prop :=
  fun s _ s' => frame s' = frame s.

(** Domain controllers that misbehave: the endpoint mapper does not answer;
    every close-handle call fails; the machine quota of the caller is used up
    (the account [WS01$] is there). *)
Definition sim_no_endpoint : Sim :=
  mk_Sim [] 10 ["Builtin"; "CORP"] true false false false.

Definition sim_close_fails : Sim :=
  mk_Sim [] 10 ["Builtin"; "CORP"] false true false false.

Definition sim_quota : Sim :=
  mk_Sim ["WS01$"] 10 ["Builtin"; "CORP"] false false true false.

(** The objects the constructor builds for the domain [corp.local] and the
    password [pw], with the computer password [Passw0rd!] given: over SAMR,
    and over LDAPS. *)
Definition samr_self (user : string) (computer : option string) (netbios : string)
  (noadd del : bool) : Self :=
  mk_Self user "pw" "corp.local" "" "" None None false "corp.local" None computer
    "Passw0rd!" "SAMR" (Some 445%Z) netbios noadd del None None None.

Definition ldaps_self (user : string) (computer : option string) : Self :=
  mk_Self user "pw" "corp.local" "" "" None None false "corp.local" None computer
    "Passw0rd!" "LDAPS" (Some 636%Z) "corp.local" false false None
    (Some "dc=corp,dc=local") (Some "CN=Computers,dc=corp,dc=local").

(** The state in which [run] starts with such an object. *)
Definition ready (w : Sim) (x : Self) : St Sim :=
  mk_St w (fun i => (7 * i + 3)%nat) 0 false x (mk_Locals None None None).

Definition samr_pc1 (w : Sim) : St Sim :=
  ready w (samr_self "alice" (Some "PC1$") "corp.local" false false).

Definition samr_unnamed (w : Sim) : St Sim :=
  ready w (samr_self "alice" None "corp.local" false false).

Definition ldaps_pc1 (user : string) (w : Sim) : St Sim :=
  ready w (ldaps_self user (Some "PC1$")).

Definition ldaps_unnamed (w : Sim) : St Sim :=
  ready w (ldaps_self "alice" None).


(** ** More classes of calls *)

(** The calls that remove an account: [ldapConn.delete] and
    [hSamrDeleteUser]. *)
Definition is_delete_call (e : event) : bool :=
  match e with
  | Ev c _ =>
      match c with
      | ldap_delete _ _ | hSamrDeleteUser _ _ => true
      | _ => false
      end
  | _ => false
  end.

(** The calls that add something to the domain: [ldapConn.add] and
    [hSamrCreateUser2InDomain]. *)
Definition is_create_call (e : event) : bool :=
  match e with
  | Ev c _ =>
      match c with
      | ldap_add _ _ _ _ _ | hSamrCreateUser2InDomain _ _ _ _ _ => true
      | _ => false
      end
  | _ => false
  end.

(** The calls that set a password: [ldapConn.modify] of [unicodePwd] and
    [hSamrSetPasswordInternal4New]. *)
Definition is_password_call (e : event) : bool :=
  match e with
  | Ev c _ =>
      match c with
      | ldap_modify_replace _ _ _ _ | hSamrSetPasswordInternal4New _ _ _ => true
      | _ => false
      end
  | _ => false
  end.

(** The calls to [ldap3]: the TLS profile, the server and the connection
    objects, and the methods of the connection. *)
Definition is_ldap_call (e : event) : bool :=
  match e with
  | Ev c _ =>
      match c with
      | ldap3_Tls _ | ldap3_Server _ _ _ | ldap3_Connection _ _ | ldap_bind _
      | ldap_schemaNamingContext _ | ldap_search _ _ _ _ _ | ldap_add _ _ _ _ _
      | ldap_delete _ _ | ldap_modify_replace _ _ _ _ => true
      | _ => false
      end
  | _ => false
  end.

(** The call to [ldap3_kerberos_login], the helper of
    [impacket.examples.utils] (line 40) that binds a connection with
    Kerberos. *)
Definition is_kerberos_login_call (e : event) : bool :=
  match e with
  | Ev c _ =>
      match c with
      | ldap3_kerberos_login _ _ _ _ _ _ _ _ _ => true
      | _ => false
      end
  | _ => false
  end.

(** The calls to impacket's [epm], [transport] and [samr], and to the
    transport and DCE/RPC objects they return. *)
Definition is_rpc_call (e : event) : bool :=
  match e with
  | Ev c _ =>
      match c with
      | hept_map _ | DCERPCTransportFactory _ | set_dport _ _ | setRemoteHost _ _
      | setRemoteName _ _ | hasattr_set_credentials _
      | set_credentials _ _ _ _ _ _ _ | set_kerberos _ _ _ | get_dce_rpc _
      | dce_connect _ | dce_bind _ | dce_disconnect _ | hSamrConnect5 _ _ _
      | hSamrEnumerateDomainsInSamServer _ _ | hSamrLookupDomainInSamServer _ _ _
      | hSamrOpenDomain _ _ _ _ | hSamrLookupNamesInDomain _ _ _
      | hSamrOpenUser _ _ _ _ | hSamrCreateUser2InDomain _ _ _ _ _
      | hSamrDeleteUser _ _ | hSamrSetPasswordInternal4New _ _ _
      | hSamrSetInformationUser2 _ _ _ | hSamrCloseHandle _ _ => true
      | _ => false
      end
  | _ => false
  end.

(** While the object satisfies [J], the events all satisfy [P]; and [J] is
    kept. *)
Definition guards {W} (J : Self -> Prop) (P : event -> Prop)
  : St W -> list event -> St W -> Prop :=
  fun s t s' => J (me s) -> Forall P t /\ J (me s').

(** The base DN [__init__] leaves in the object (lines 122-129): the one
    given, or over LDAPS the one made of the labels of the domain. *)
Definition init_baseDN (d : string) (o : Options) : option string :=
  match baseDN o with
  | None =>
      if method o =? "LDAPS" then
        Some (drop_last (fold_left (fun acc i => acc ++ "dc=" ++ i ++ ",")
                           (split "." d) EmptyString))
      else None
  | Some b => Some b
  end.

(** The body of the [try] of the script's last lines (lines 537-538). *)
Definition main_body {W} (respond : forall R : Type, call R -> W -> (exn + R) * W)
  (fuel : nat) (username password domain : string) (options : Options) : M W unit :=
  executer <- __init__ username password domain options ;;
  put_me executer ;;
  run respond fuel.

(** The DN and the attributes of the entry [run_ldaps] adds for the computer
    name [n] (lines 288-304). *)
Definition computer_dn (x : Self) (n : string) : string :=
  "CN=" ++ drop_last n ++ "," ++ fmt (__computerGroup x).

Definition computer_entry (x : Self) (n : string) : ucd_t :=
  {| dnsHostName := drop_last n ++ "." ++ __domain x;
     userAccountControl := 0x1000;
     servicePrincipalName :=
       [ "HOST/" ++ drop_last n;
         "HOST/" ++ drop_last n ++ "." ++ __domain x;
         "RestrictedKrbHost/" ++ drop_last n;
         "RestrictedKrbHost/" ++ drop_last n ++ "." ++ __domain x ];
     sAMAccountName := Some n;
     unicodePwd := utf16le (dquote ++ __computerPassword x ++ dquote) |}.

(** The calls that open the LDAPS session (lines 219-248). *)
Definition is_session_call (e : event) : bool :=
  match e with
  | Ev c _ =>
      match c with
      | ldap3_Tls _ | ldap3_Server _ _ _ | ldap3_Connection _ _
      | ldap3_kerberos_login _ _ _ _ _ _ _ _ _ | ldap_bind _ => true
      | _ => false
      end
  | _ => false
  end.

(** The answer to [ldapConn.delete]. *)
Definition delete_reply (e : event) : option (exn + bool * conn_state) :=
  match e with
  | Ev c r =>
      match c in call R0 return exn + R0 -> option (exn + bool * conn_state) with
      | ldap_delete _ _ => fun r0 => Some r0
      | _ => fun _ => None
      end r
  | _ => None
  end.

(** The calls that change an account that is there: a delete or a new
    password. *)
Definition is_change_call (e : event) : bool :=
  is_delete_call e || is_password_call e.

(** The second TLS profile, made only by the [except] clause of line 233. *)
Definition is_tlsv1_call (e : event) : bool :=
  match e with
  | Ev c _ =>
      match c with
      | ldap3_Tls PROTOCOL_TLSv1 => true
      | _ => false
      end
  | _ => false
  end.

(** The answer to [ldapConn.bind()]. *)
Definition bind_reply (e : event) : option (exn + bool * conn_state) :=
  match e with
  | Ev c r =>
      match c in call R0 return exn + R0 -> option (exn + bool * conn_state) with
      | ldap_bind _ => fun r0 => Some r0
      | _ => fun _ => None
      end r
  | _ => None
  end.

(** A run that raised did so by its last event, a call that raised. *)
Definition raised_by_last_call {W A} (r : outcome A * St W * list event) : Prop :=
  forall e,
    out_of r = Raise e ->
    exists pre ev, trace_of r = (pre ++ [ev])%list /\ raise_of ev = Some e.

(** The calls that open the SAMR session, the server and the domain
    (lines 348-379). *)
Definition is_open_call (e : event) : bool :=
  match e with
  | Ev c _ =>
      match c with
      | dce_connect _ | dce_bind _ | hSamrConnect5 _ _ _
      | hSamrEnumerateDomainsInSamServer _ _ | hSamrLookupDomainInSamServer _ _ _
      | hSamrOpenDomain _ _ _ _ => true
      | _ => false
      end
  | Log _ _ => true
  | _ => false
  end.

(** The answer to [hSamrOpenUser]. *)
Definition open_user_reply (e : event) : option (exn + handle) :=
  match e with
  | Ev c r =>
      match c in call R0 return exn + R0 -> option (exn + handle) with
      | hSamrOpenUser _ _ _ _ => fun r0 => Some r0
      | _ => fun _ => None
      end r
  | _ => None
  end.

(** What an [ldapConn.add] was asked to add: the DN, the object classes,
    the attributes and the [sdflags] of the control. *)
Definition add_request (e : event)
  : option (string * list string * attributes * option Z) :=
  match e with
  | Ev c _ =>
      match c with
      | ldap_add _ dn cls attrs sd => Some (dn, cls, attrs, sd)
      | _ => None
      end
  | _ => None
  end.

(** The adds asked for along a trace, in order. *)
Definition add_requests (t : list event)
  : list (string * list string * attributes * option Z) :=
  flat_map (fun e => match add_request e with Some x => [x] | None => [] end) t.

(** The container the fallback adds under the DN [udn] with the name [m]
    (lines 186-193). *)
Definition storage_group (m udn : string)
  : string * list string * attributes * option Z :=
  ("CN=" ++ m ++ "," ++ udn, ["top"; "container"; "msExchStorageGroup"],
   nTSecurityDescriptor ACL_ALLOW_EVERYONE_EVERYTHING, Some 4%Z).

(** The answer to [hSamrEnumerateDomainsInSamServer]. *)
Definition enum_reply (e : event) : option (exn + list string) :=
  match e with
  | Ev c r =>
      match c in call R0 return exn + R0 -> option (exn + list string) with
      | hSamrEnumerateDomainsInSamServer _ _ => fun r0 => Some r0
      | _ => fun _ => None
      end r
  | _ => None
  end.

(** The calls that name a domain: its lookup and its opening. *)
Definition is_domain_call (e : event) : bool :=
  match e with
  | Ev c _ =>
      match c with
      | hSamrLookupDomainInSamServer _ _ _ | hSamrOpenDomain _ _ _ _ => true
      | _ => false
      end
  | _ => false
  end.

(** The domain a call to [hSamrLookupDomainInSamServer] asks for: the
    selected domain of line 373. *)
Definition looked_up_domain (e : event) : option string :=
  match e with
  | Ev c _ =>
      match c with
      | hSamrLookupDomainInSamServer _ _ name => Some name
      | _ => None
      end
  | _ => None
  end.

(** The enumerated domains that are not the built-in one (line 357). *)
Definition domainsWithoutBuiltin (domains : list string) : list string :=
  filter (fun x => negb (lower x =? "builtin")) domains.

(** ** More domain controllers that misbehave

    Each answers one call in its own way and every other call as the
    simulated domain controller does. *)

(** The add of a computer entry is refused with the result [res]. *)
Definition respond_refusing_add (res : ldap_result) (R : Type) (c : call R)
  : Sim -> (exn + R) * Sim :=
  match c in call R0 return Sim -> (exn + R0) * Sim with
  | ldap_add conn dn cls attrs sd => fun w =>
      match attrs with
      | computer_attrs _ => (inr (false, mk_conn_state res [] []), w)
      | _ => sim_respond _ (ldap_add conn dn cls attrs sd) w
      end
  | c0 => sim_respond _ c0
  end.

Definition insufficient_rights : ldap_result :=
  mk_ldap_result 50 "00000005: SecErr: DSID-031A11ED, problem 4003"
    "{'result': 50, 'description': 'insufficientAccessRights'}".

Definition unwilling_no_code : ldap_result :=
  mk_ldap_result 53 "SvcErr: DSID-031A1202, problem 5003 (WILL_NOT_PERFORM)"
    "{'result': 53, 'description': 'unwillingToPerform'}".

Definition invalid_credentials : ldap_result :=
  mk_ldap_result 49 "80090308: LdapErr: DSID-0C09044E, AcceptSecurityContext error"
    "{'result': 49, 'description': 'invalidCredentials'}".

(** A server that speaks TLSv1 only: objects made from the TLSv1.2 profile
    carry an even number, and binding one of them fails to open the socket. *)
Definition respond_tlsv1_only (R : Type) (c : call R) : Sim -> (exn + R) * Sim :=
  match c in call R0 return Sim -> (exn + R0) * Sim with
  | ldap3_Tls v => fun w =>
      (inr (match v with PROTOCOL_TLSv1_2 => 2 | PROTOCOL_TLSv1 => 1 end)%nat, w)
  | ldap3_Server _ _ tls => fun w => (inr (tls + 10)%nat, w)
  | ldap3_Connection srv _ => fun w => (inr (srv + 10)%nat, w)
  | ldap_bind conn => fun w =>
      if Nat.even conn
      then (inl (LDAPSocketOpenError "socket ssl wrapping error"), w)
      else (inr (true, mk_conn_state sim_success [] []), w)
  | c0 => sim_respond _ c0
  end.

(** A server that speaks TLSv1 only and refuses the credentials. *)
Definition respond_tlsv1_refusing (R : Type) (c : call R) : Sim -> (exn + R) * Sim :=
  match c in call R0 return Sim -> (exn + R0) * Sim with
  | ldap_bind conn => fun w =>
      if Nat.even conn
      then (inl (LDAPSocketOpenError "socket ssl wrapping error"), w)
      else (inr (false, mk_conn_state invalid_credentials [] []), w)
  | c0 => respond_tlsv1_only _ c0
  end.

(** A server that refuses the credentials at the first bind. *)
Definition respond_refusing_bind (R : Type) (c : call R) : Sim -> (exn + R) * Sim :=
  match c in call R0 return Sim -> (exn + R0) * Sim with
  | ldap_bind _ => fun w => (inr (false, mk_conn_state invalid_credentials [] []), w)
  | c0 => sim_respond _ c0
  end.

(** A server on which the caller may not open the account. *)
Definition respond_denying_open (R : Type) (c : call R) : Sim -> (exn + R) * Sim :=
  match c in call R0 return Sim -> (exn + R0) * Sim with
  | hSamrOpenUser _ _ _ _ => fun w =>
      (inl (DCERPCSessionError STATUS_ACCESS_DENIED "STATUS_ACCESS_DENIED"), w)
  | c0 => sim_respond _ c0
  end.

(** A domain controller that serves the built-in domain only. *)
Definition sim_builtin_only : Sim :=
  mk_Sim [] 10 ["Builtin"] false false false false.

(** The object built over LDAPS for the computer [PC1$], with the options
    [-no-add] and [-delete] as given, and with hashes when asked. *)
Definition ldaps_self_with (noadd del : bool) (hs : option string) : Self :=
  mk_Self "alice" "pw" "corp.local" "" "" hs None false "corp.local" None (Some "PC1$")
    "Passw0rd!" "LDAPS" (Some 636%Z) "corp.local" noadd del None
    (Some "dc=corp,dc=local") (Some "CN=Computers,dc=corp,dc=local").
(** ** Generic facts about computations *)

Section Logic.
Context {W : Type}.
Variable respond : forall R : Type, call R -> W -> (exn + R) * W.
Variable Q : St W -> list event -> St W -> Prop.
Hypothesis Qseq : sequential Q.

Lemma sat_ret {A} (a : A) : sat Q (ret a).
Proof. intro s. apply Qseq. Qed.

Lemma sat_raise {A} (e : exn) : sat Q (@raise W A e).
Proof. intro s. apply Qseq. Qed.

Lemma sat_diverge {A} : sat Q (@diverge W A).
Proof. intro s. apply Qseq. Qed.

Lemma sat_get_me : sat Q (@get_me W).
Proof. intro s. apply Qseq. Qed.

Lemma sat_get_frame : sat Q (@get_frame W).
Proof. intro s. apply Qseq. Qed.

Lemma sat_is_debug : sat Q (@is_debug W).
Proof. intro s. apply Qseq. Qed.

Lemma sat_bind {A B} (m : M W A) (f : A -> M W B) :
  sat Q m -> (forall a, sat Q (f a)) -> sat Q (bind m f).
Proof.
  intros Hm Hf s. specialize (Hm s). unfold bind.
  destruct (m s) as [[[a|e|] s1] t1]; cbn in *; auto.
  specialize (Hf a s1). destruct (f a s1) as [[r s2] t2]; cbn in *.
  destruct Qseq as [_ Ht]. eapply Ht; eauto.
Qed.

Lemma sat_try_except {A} (m : M W A) (h : exn -> option (M W A)) :
  sat Q m -> (forall e k0, h e = Some k0 -> sat Q k0) -> sat Q (try_except m h).
Proof.
  intros Hm Hh s. specialize (Hm s). unfold try_except.
  destruct (m s) as [[[a|e|] s1] t1]; cbn in *; auto.
  destruct (h e) as [k0|] eqn:E; cbn; auto.
  specialize (Hh e k0 E s1). destruct (k0 s1) as [[r s2] t2]; cbn in *.
  destruct Qseq as [_ Ht]. eapply Ht; eauto.
Qed.

Lemma sat_try_finally {A} (m : M W A) (f : M W unit) :
  sat Q m -> sat Q f -> sat Q (try_finally m f).
Proof.
  intros Hm Hf s. specialize (Hm s). unfold try_finally.
  destruct Qseq as [_ Ht].
  destruct (m s) as [[[a|e|] s1] t1]; cbn in *; auto;
    specialize (Hf s1); destruct (f s1) as [[[u|e'|] s2] t2]; cbn in *;
    eapply Ht; eauto.
Qed.

Lemma sat_when (b : bool) (m : M W unit) : sat Q m -> sat Q (when b m).
Proof. intros Hm. destruct b; cbn; auto. apply sat_ret. Qed.

Lemma sat_for_each {A} (f : A -> M W unit) (l : list A) :
  (forall a, sat Q (f a)) -> sat Q (for_each f l).
Proof.
  intros Hf. induction l as [|a l IH]; cbn.
  - apply sat_ret.
  - apply sat_bind; auto.
Qed.

Lemma sat_index0 {A} (l : list A) : sat Q (@index0 W A l).
Proof. destruct l; cbn; [apply sat_raise | apply sat_ret]. Qed.

Lemma sat_unpack2 (l : list string) : sat Q (@unpack2 W l).
Proof.
  destruct l as [|a [|b [|c l]]]; cbn;
    first [apply sat_raise | apply sat_ret].
Qed.

Lemma sat_without_marker (n : option string) : sat Q (@without_marker W n).
Proof. destruct n; cbn; [apply sat_ret | apply sat_raise]. Qed.

Lemma sat_random_string (n : nat) (alphabet : string) :
  (forall seq, sat Q (choice seq)) -> sat Q (@random_string W n alphabet).
Proof.
  intros Hc. induction n as [|n IH]; cbn.
  - apply sat_ret.
  - apply sat_bind; auto. intros c. apply sat_bind; auto. intros r. apply sat_ret.
Qed.

Lemma sat_samr_find_unused dce dh :
  (forall seq, sat Q (choice seq)) ->
  (forall n, sat Q (assign_computerName n)) ->
  (forall names, sat Q (invoke respond (hSamrLookupNamesInDomain dce dh names))) ->
  forall fuel, sat Q (samr_find_unused respond fuel dce dh).
Proof.
  intros Hc Ha Hl. induction fuel as [|fuel IH]; cbn [samr_find_unused].
  - apply sat_diverge.
  - apply sat_bind.
    { unfold generateComputerName. apply sat_bind.
      - apply sat_random_string; auto.
      - intros r. apply sat_ret. }
    intros n. apply sat_bind; auto. intros _.
    apply sat_bind; [apply sat_get_me|]. intros x.
    apply sat_bind.
    { unfold samr_probe. apply sat_try_except.
      - apply sat_bind; auto. intros _. apply sat_ret.
      - intros e k0 H. destruct e; try discriminate.
        injection H as <-.
        destruct (error_code =? STATUS_NONE_MAPPED)%Z;
          [apply sat_ret | apply sat_raise]. }
    intros [|]; [apply sat_ret | exact IH].
Qed.

Lemma sat_ldaps_find_unused conn :
  (forall seq, sat Q (choice seq)) ->
  (forall n, sat Q (assign_computerName n)) ->
  (forall b f, sat Q (invoke respond (ldap_search conn b f SUBTREE []))) ->
  forall fuel, sat Q (ldaps_find_unused respond fuel conn).
Proof.
  intros Hc Ha Hl. induction fuel as [|fuel IH]; cbn [ldaps_find_unused].
  - apply sat_diverge.
  - apply sat_bind.
    { unfold generateComputerName. apply sat_bind.
      - apply sat_random_string; auto.
      - intros r. apply sat_ret. }
    intros n. apply sat_bind; auto. intros _.
    apply sat_bind; [apply sat_get_me|]. intros x.
    apply sat_bind.
    { unfold LDAPComputerExists, search. apply sat_bind; [apply sat_get_me|].
      intros y. apply sat_bind; auto. intros [b cs]. apply sat_ret. }
    intros [|]; cbn [negb]; [exact IH | apply sat_ret].
Qed.

End Logic.

(** ** The relations are sequential, and the primitive steps satisfy them *)

Section Primitives.
Context {W : Type}.
Variable respond : forall R : Type, call R -> W -> (exn + R) * W.

Lemma only_sequential (P : event -> Prop) : sequential (@only W P).
Proof.
  split; unfold only; intros.
  - constructor.
  - apply Forall_app; auto.
Qed.

Lemma same_me_sequential : sequential (@same_me W).
Proof. split; unfold same_me; intros; congruence. Qed.

Lemma same_but_name_sequential : sequential (@same_but_name W).
Proof. split; unfold same_but_name; intros; congruence. Qed.

Lemma only_emit (P : event -> Prop) e : P e -> sat (@only W P) (emit e).
Proof. intros H s. unfold only. cbn. auto. Qed.

Lemma only_log (P : event -> Prop) l msg : P (Log l msg) -> sat (@only W P) (log l msg).
Proof. apply only_emit. Qed.

Lemma only_invoke (P : event -> Prop) {R} (c : call R) :
  (forall r, P (Ev c r)) -> sat (only P) (invoke respond c).
Proof.
  intros H s. unfold invoke, only.
  destruct (respond R c (world s)) as [[e|r] w]; cbn; auto.
Qed.

Lemma only_put_me (P : event -> Prop) x : sat (@only W P) (put_me x).
Proof. intro s. constructor. Qed.

Lemma only_put_frame (P : event -> Prop) l : sat (@only W P) (put_frame l).
Proof. intro s. constructor. Qed.

Lemma only_choice (P : event -> Prop) seq : sat (@only W P) (choice seq).
Proof.
  intro s. unfold choice.
  destruct (get _ seq); constructor.
Qed.

Lemma same_me_emit e : sat (@same_me W) (emit e).
Proof. intro s. reflexivity. Qed.

Lemma same_me_invoke {R} (c : call R) : sat same_me (invoke respond c).
Proof.
  intro s. unfold invoke.
  destruct (respond R c (world s)) as [[e|r] w]; reflexivity.
Qed.

Lemma same_me_put_frame l : sat (@same_me W) (put_frame l).
Proof. intro s. reflexivity. Qed.

Lemma same_me_choice seq : sat (@same_me W) (choice seq).
Proof.
  intro s. unfold choice.
  destruct (get _ seq); reflexivity.
Qed.

Lemma same_but_name_emit e : sat (@same_but_name W) (emit e).
Proof. intro s. reflexivity. Qed.

Lemma same_but_name_invoke {R} (c : call R) : sat same_but_name (invoke respond c).
Proof.
  intro s. unfold invoke.
  destruct (respond R c (world s)) as [[e|r] w]; reflexivity.
Qed.

Lemma same_but_name_put_frame l : sat (@same_but_name W) (put_frame l).
Proof. intro s. reflexivity. Qed.

Lemma same_but_name_choice seq : sat (@same_but_name W) (choice seq).
Proof.
  intro s. unfold choice.
  destruct (get _ seq); reflexivity.
Qed.

Lemma same_but_name_assign n : sat (@same_but_name W) (assign_computerName n).
Proof. intro s. reflexivity. Qed.

End Primitives.

Create HintDb sat.
#[export] Hint Resolve only_sequential same_me_sequential same_but_name_sequential
  only_emit only_log only_invoke only_put_me only_put_frame only_choice
  same_me_emit same_me_invoke same_me_put_frame same_me_choice
  same_but_name_emit same_but_name_invoke same_but_name_put_frame
  same_but_name_choice same_but_name_assign : sat.

Lemma only_set_servHandle {W} (P : event -> Prop) h :
  sat (@only W P) (set_servHandle h).
Proof. intro s. constructor. Qed.

Lemma only_set_domainHandle {W} (P : event -> Prop) h :
  sat (@only W P) (set_domainHandle h).
Proof. intro s. constructor. Qed.

Lemma only_set_userHandle {W} (P : event -> Prop) h :
  sat (@only W P) (set_userHandle h).
Proof. intro s. constructor. Qed.

Lemma only_assign {W} (P : event -> Prop) n :
  sat (@only W P) (assign_computerName n).
Proof. intro s. constructor. Qed.

#[export] Hint Resolve only_set_servHandle only_set_domainHandle
  only_set_userHandle only_assign : sat.

(** One step of a proof that a computation satisfies a sequential relation:
    follow the structure of the computation, and open the definition of a
    method when nothing is known about it. *)
Ltac head_of t :=
  lazymatch t with
  | ?f _ => head_of f
  | _ => t
  end.

Ltac sat_step :=
  match goal with
  | |- sequential _ => solve [auto with sat]
  | |- forall _, _ => intro
  | H : ?h = Some ?k0 |- sat _ ?k0 =>
      try unfold log_exception in H;
      match type of H with
      | (if ?b then _ else _) = _ => destruct b; [|discriminate]
      | (match ?e with _ => _ end) = _ => destruct e; try discriminate
      end;
      injection H as <-
  | |- sat _ _ => solve [auto with sat]
  | |- sat _ (bind _ _) => apply sat_bind
  | |- sat _ (ret _) => apply sat_ret
  | |- sat _ (raise _) => apply sat_raise
  | |- sat _ diverge => apply sat_diverge
  | |- sat _ get_me => apply sat_get_me
  | |- sat _ get_frame => apply sat_get_frame
  | |- sat _ is_debug => apply sat_is_debug
  | |- sat _ (when _ _) => apply sat_when
  | |- sat _ (for_each _ _) => apply sat_for_each
  | |- sat _ (random_string _ _) => apply sat_random_string
  | |- sat _ (samr_find_unused _ _ _ _) => apply sat_samr_find_unused
  | |- sat _ (ldaps_find_unused _ _ _) => apply sat_ldaps_find_unused
  | |- sat _ (index0 _) => apply sat_index0
  | |- sat _ (unpack2 _) => apply sat_unpack2
  | |- sat _ (without_marker _) => apply sat_without_marker
  | |- sat _ (try_except _ _) => apply sat_try_except
  | |- sat _ (try_finally _ _) => apply sat_try_finally
  | |- sat _ (if ?b then _ else _) => destruct b
  | |- sat _ (match ?x with _ => _ end) => destruct x
  | |- sat _ ?m => let h := head_of m in progress (unfold h)
  end.

Ltac sat_auto := repeat sat_step.

(** ** Running a computer through its steps *)

Section Inversion.
Context {W : Type}.

Lemma bind_Ret {A B} (m : M W A) (f : A -> M W B) s b s' t :
  bind m f s = (Ret b, s', t) ->
  exists a s1 t1 t2,
    m s = (Ret a, s1, t1) /\ f a s1 = (Ret b, s', t2) /\ t = (t1 ++ t2)%list.
Proof.
  unfold bind. destruct (m s) as [[[a|e|] s1] t1]; try discriminate.
  destruct (f a s1) as [[r s2] t2] eqn:E. intros H. inversion H; subst.
  exists a, s1, t1, t2. auto.
Qed.

Lemma bind_get_me {B} (f : Self -> M W B) s : bind get_me f s = f (me s) s.
Proof. unfold bind, get_me. destruct (f (me s) s) as [[r s2] t2]. reflexivity. Qed.

Lemma bind_get_frame {B} (f : Locals -> M W B) s :
  bind get_frame f s = f (frame s) s.
Proof. unfold bind, get_frame. destruct (f (frame s) s) as [[r s2] t2]. reflexivity. Qed.

Lemma bind_is_debug {B} (f : bool -> M W B) s : bind is_debug f s = f (debug s) s.
Proof. unfold bind, is_debug. destruct (f (debug s) s) as [[r s2] t2]. reflexivity. Qed.

Lemma bind_ret {A B} (a : A) (f : A -> M W B) s : bind (ret a) f s = f a s.
Proof. unfold bind, ret. destruct (f a s) as [[r s2] t2]. reflexivity. Qed.

Lemma bind_raise {A B} (e : exn) (f : A -> M W B) s :
  bind (raise e) f s = (Raise e, s, []).
Proof. reflexivity. Qed.

(** The three components of a sequence. *)
Lemma trace_bind {A B} (m : M W A) (f : A -> M W B) s :
  trace_of (bind m f s) =
    (trace_of (m s) ++ match out_of (m s) with
                       | Ret a => trace_of (f a (state_of (m s)))
                       | _ => []
                       end)%list.
Proof.
  unfold bind, trace_of, out_of, state_of.
  destruct (m s) as [[[a|e|] s1] t1]; cbn; try (rewrite app_nil_r; reflexivity).
  destruct (f a s1) as [[r s2] t2]. reflexivity.
Qed.

Lemma out_bind {A B} (m : M W A) (f : A -> M W B) s :
  out_of (bind m f s) =
    match out_of (m s) with
    | Ret a => out_of (f a (state_of (m s)))
    | Raise e => Raise e
    | Loop => Loop
    end.
Proof.
  unfold bind, trace_of, out_of, state_of.
  destruct (m s) as [[[a|e|] s1] t1]; cbn; try reflexivity.
  destruct (f a s1) as [[r s2] t2]. reflexivity.
Qed.

Lemma bind_put_frame {B} l (f : unit -> M W B) s :
  bind (put_frame l) f s = f tt (set_frame s l).
Proof. unfold bind, put_frame. destruct (f tt _) as [[r s2] t2]. reflexivity. Qed.

Lemma bind_emit {B} e (f : unit -> M W B) s :
  bind (emit e) f s
  = (out_of (f tt s), state_of (f tt s), e :: trace_of (f tt s)).
Proof. unfold bind, emit. destruct (f tt s) as [[r s2] t2]. reflexivity. Qed.

Lemma try_finally_run {A} (m : M W A) (f : M W unit) s :
  try_finally m f s =
    match out_of (m s) with
    | Loop => (Loop, state_of (m s), trace_of (m s))
    | o =>
        (match out_of (f (state_of (m s))) with
         | Ret _ => o
         | Raise e => Raise e
         | Loop => Loop
         end,
         state_of (f (state_of (m s))),
         (trace_of (m s) ++ trace_of (f (state_of (m s))))%list)
    end.
Proof.
  unfold try_finally, out_of, state_of, trace_of.
  destruct (m s) as [[[a|e|] s1] t1]; cbn [fst snd]; try reflexivity;
    destruct (f s1) as [[[u|e'|] s2] t2]; reflexivity.
Qed.

(** A guarded block, by the way its body ends. *)
Lemma try_except_run {A} (m : M W A) (h : exn -> option (M W A)) s :
  try_except m h s =
    match out_of (m s) with
    | Raise e =>
        match h e with
        | Some k0 =>
            (out_of (k0 (state_of (m s))), state_of (k0 (state_of (m s))),
             (trace_of (m s) ++ trace_of (k0 (state_of (m s))))%list)
        | None => m s
        end
    | _ => m s
    end.
Proof.
  unfold try_except, out_of, state_of, trace_of.
  destruct (m s) as [[[a|e|] s1] t1]; cbn [fst snd]; try reflexivity.
  destruct (h e) as [k0|]; [|reflexivity].
  destruct (k0 s1) as [[r s2] t2]. reflexivity.
Qed.

Lemma run_eta {A} (r : outcome A * St W * list event) :
  r = (out_of r, state_of r, trace_of r).
Proof. destruct r as [[o s] t]. reflexivity. Qed.

End Inversion.

(** ** Facts about Python strings *)

Lemma last_char_app_marker (n : string) (c : ascii) :
  last_char (n ++ String c EmptyString) = Some c.
Proof.
  induction n as [|d n IH]; cbn; auto.
  rewrite IH. destruct (n ++ String c EmptyString) eqn:E; auto.
  destruct n; discriminate.
Qed.

Lemma drop_last_app_marker (n : string) (c : ascii) :
  drop_last (n ++ String c EmptyString) = n.
Proof.
  induction n as [|d n IH]; cbn; auto.
  rewrite IH. destruct (n ++ String c EmptyString) eqn:E; auto.
  destruct n; discriminate.
Qed.

(** ** Random strings *)

Section Random.
Context {W : Type}.

Lemma get_In (seq : string) (i : nat) (c : ascii) :
  String.get i seq = Some c -> In c (list_ascii_of_string seq).
Proof.
  revert i. induction seq as [|d seq IH]; intros i H; cbn in *; [discriminate|].
  destruct i as [|i]; [inversion H; auto | right; eauto].
Qed.

Lemma get_Some (seq : string) (i : nat) :
  (i < String.length seq)%nat -> exists c, String.get i seq = Some c.
Proof.
  revert i. induction seq as [|d seq IH]; intros i H; cbn in *; [lia|].
  destruct i as [|i]; [eauto | apply IH; lia].
Qed.

(** A string drawn from a non-empty alphabet is returned, has the length
    asked for and holds characters of the alphabet only; drawing it leaves no
    trace and touches neither the object nor the handles. *)
Lemma random_string_spec (n : nat) (alphabet : string) (s : St W) :
  (0 < String.length alphabet)%nat ->
  exists r s',
    random_string n alphabet s = (Ret r, s', [])
    /\ String.length r = n
    /\ Forall (fun c => In c (list_ascii_of_string alphabet)) (list_ascii_of_string r)
    /\ me s' = me s /\ frame s' = frame s /\ world s' = world s /\ debug s' = debug s.
Proof.
  intros Hlen. revert s. induction n as [|n IH]; intros s; cbn.
  - exists EmptyString, s. repeat split; auto.
  - unfold bind at 1. unfold choice.
    destruct (get_Some alphabet (Nat.modulo (rng s (rpos s)) (String.length alphabet)))
      as [c Hc].
    { apply Nat.mod_upper_bound. lia. }
    rewrite Hc.
    destruct (IH (mk_St (world s) (rng s) (S (rpos s)) (debug s) (me s) (frame s)))
      as (r & s' & E & Hl & Hall & Hme & Hfr & Hw & Hd).
    unfold bind. rewrite E. cbn.
    exists (String c r), s'. subst n.
    split; [reflexivity|]. split; [reflexivity|]. split; [|auto].
    cbn. constructor; auto. eapply get_In; eauto.
Qed.

End Random.

(** ** The constructor *)

Section Init.
Context {W : Type}.

(** The computer name of a constructed object, from the option given. *)
Lemma init_computer_name username password domain (o : Options) (s : St W) x :
  out_of (__init__ username password domain o s) = Ret x ->
  __computerName x =
    match computer_name o with
    | None => None
    | Some n => if endswith n "$" then Some n else Some (n ++ "$")
    end.
Proof.
  destruct (__init__ username password domain o s) as [[r s'] t] eqn:E.
  cbn. intros ->. unfold __init__ in E.
  apply bind_Ret in E. destruct E as ([lm0 nt0] & s1 & t1 & t2 & _ & E & _).
  destruct ((lm0 =? "") && (String.length nt0 =? 32)%nat);
    (destruct (negb ((method o =? "SAMR") || (method o =? "LDAPS"))); [discriminate|];
     destruct (k o && match dc_host o with None => true | Some _ => false end);
       [discriminate|];
     apply bind_Ret in E; destruct E as (u1 & s2 & t3 & t4 & _ & E & _);
     apply bind_Ret in E; destruct E as ([lm2 nt2] & s3 & t5 & t6 & _ & E & _);
     apply bind_Ret in E; destruct E as (cn & s4 & t7 & t8 & Hcn & E & _);
     apply bind_Ret in E; destruct E as (pw & s5 & t9 & t10 & _ & E & _);
     apply bind_Ret in E; destruct E as (tg & s6 & t11 & t12 & _ & E & _);
     apply bind_Ret in E; destruct E as (cg & s7 & t13 & t14 & _ & E & _);
     inversion E; subst; cbn;
     destruct (computer_name o) as [n|];
     [ unfold endswith; destruct (last_char n) as [c|]; [|discriminate];
       destruct (Ascii.eqb c "$"); inversion Hcn; reflexivity
     | destruct (no_add o); [discriminate|]; destruct (delete o); [discriminate|];
       inversion Hcn; reflexivity ]).
Qed.

Lemma last_char_nonempty (n : string) :
  n <> EmptyString -> exists c, last_char n = Some c.
Proof.
  induction n as [|d n IH]; [congruence|]. intros _. cbn.
  destruct n as [|e n]; [eauto|]. apply IH. discriminate.
Qed.

(** The constructor returns an object when a non-empty computer name is
    given, no hashes, one of the two methods, and a DC host if Kerberos is
    asked for. *)
Lemma init_returns username password domain (o : Options) (n : string) (s : St W) :
  computer_name o = Some n ->
  n <> EmptyString ->
  hashes o = None ->
  (method o =? "SAMR") || (method o =? "LDAPS") = true ->
  k o && match dc_host o with None => true | Some _ => false end = false ->
  exists x, out_of (__init__ username password domain o s) = Ret x.
Proof.
  intros Hn Hne Hh Hm Hk. unfold __init__. rewrite Hh, Hn, bind_ret.
  cbn beta iota zeta. rewrite Hm, Hk. cbn [negb].
  destruct (last_char_nonempty n Hne) as [c Hc]. rewrite Hc.
  change (("" =? "") && (String.length "" =? 32)%nat) with false.
  cbn beta iota zeta. unfold bind, when, log, emit, ret.
  destruct ((method o =? "LDAPS") && negb (contains "." domain));
    destruct (c =? "$")%char; destruct (computer_pass o);
    try match goal with
        | |- context [random_string ?m ?a ?s0] =>
            destruct (random_string_spec m a s0) as (r & s' & E & _);
            [cbn; lia | rewrite E]
        end;
    destruct (dc_host o); destruct (negb (contains "." domain));
    destruct (computer_group o); destruct (method o =? "LDAPS");
    destruct (baseDN o); cbn; eauto.
Qed.

(** With an empty computer name and the other options in order, the
    constructor raises the IndexError of [self.__computerName[-1]]. *)
Lemma init_empty_name username password domain (o : Options) (s : St W) :
  computer_name o = Some EmptyString ->
  hashes o = None ->
  (method o =? "SAMR") || (method o =? "LDAPS") = true ->
  k o && match dc_host o with None => true | Some _ => false end = false ->
  out_of (__init__ username password domain o s)
  = Raise (IndexError "string index out of range").
Proof.
  intros Hn Hh Hm Hk. unfold __init__. rewrite Hh, Hn, bind_ret.
  cbn beta iota zeta. rewrite Hm, Hk. cbn [negb].
  change (("" =? "") && (String.length "" =? 32)%nat) with false.
  cbn beta iota zeta. unfold bind, when, log, emit, ret, raise.
  destruct ((method o =? "LDAPS") && negb (contains "." domain)); reflexivity.
Qed.

(** C9 (as amended).  When the computer name given is not empty and lacks
    the trailing [$], the object constructed carries the name with one [$]
    appended, and constructing an object from a name already so completed
    leaves the name as it is.  Such an object is constructed whenever the
    other options are in order (no hashes, one of the two methods, a DC host
    if Kerberos is asked for).  With the empty name and the other options in
    order no object is constructed: the constructor raises IndexError. *)
Theorem init_appends_marker_once :
  forall username password domain (o : Options) (n : string) (s : St W),
    computer_name o = Some n ->
    endswith n "$" = false ->
    (forall x : Self,
        out_of (__init__ username password domain o s) = Ret x ->
        n <> EmptyString
        /\ __computerName x = Some (n ++ "$")
        /\ drop_last (n ++ "$") = n
        /\ (forall username2 password2 domain2 (o2 : Options) (s2 : St W) (x2 : Self),
              computer_name o2 = __computerName x ->
              out_of (__init__ username2 password2 domain2 o2 s2) = Ret x2 ->
              __computerName x2 = __computerName x))
    /\ (hashes o = None ->
        (method o =? "SAMR") || (method o =? "LDAPS") = true ->
        k o && match dc_host o with None => true | Some _ => false end = false ->
        (n <> EmptyString ->
         exists x, out_of (__init__ username password domain o s) = Ret x)
        /\ (n = EmptyString ->
            out_of (__init__ username password domain o s)
            = Raise (IndexError "string index out of range"))).
Proof.
  intros username password domain o n s Hn Hend. split.
  - intros x Hx. split.
    { intros ->.
      destruct (__init__ username password domain o s) as [[r s'] t] eqn:E.
      cbn in Hx. subst r. unfold __init__ in E. rewrite Hn in E.
      apply bind_Ret in E. destruct E as ([lm0 nt0] & s1 & t1 & t2 & _ & E & _).
      destruct ((lm0 =? "") && (String.length nt0 =? 32)%nat);
        (destruct (negb ((method o =? "SAMR") || (method o =? "LDAPS"))); [discriminate|];
         destruct (k o && match dc_host o with None => true | Some _ => false end);
           [discriminate|];
         apply bind_Ret in E; destruct E as (u1 & s2 & t3 & t4 & _ & E & _);
         apply bind_Ret in E; destruct E as ([lm2 nt2] & s3 & t5 & t6 & _ & E & _);
         apply bind_Ret in E; destruct E as (cn & s4 & t7 & t8 & Hcn & _);
         discriminate Hcn). }
    apply init_computer_name in Hx. rewrite Hn, Hend in Hx.
    split; [exact Hx|]. split; [apply drop_last_app_marker|].
    intros u2 p2 d2 o2 s2 x2 Ho2 Hx2.
    apply init_computer_name in Hx2. rewrite Ho2, Hx in Hx2.
    unfold endswith in Hx2. rewrite last_char_app_marker in Hx2.
    cbn in Hx2. rewrite Hx. exact Hx2.
  - intros Hh Hm Hk. split.
    + intros Hne. eapply init_returns; eauto.
    + intros ->. apply init_empty_name; auto.
Qed.

End Init.

Section InitErrors.
Context {W : Type}.
Variable respond : forall R : Type, call R -> W -> (exn + R) * W.

(** The constructor calls no collaborator. *)
Lemma init_calls_nothing username password domain (o : Options) :
  sat (only (fun e => is_call e = false))
      (@__init__ W username password domain o).
Proof. sat_auto. Qed.

(** Without a computer name, [-no-add] and [-delete] make the constructor
    raise a ValueError, whatever else was given. *)
Lemma init_missing_name username password domain (o : Options) (s : St W) :
  computer_name o = None ->
  no_add o = true \/ delete o = true ->
  exists msg s' t,
    __init__ username password domain o s = (Raise (ValueError msg), s', t).
Proof.
  intros Hn Hop. unfold __init__, bind, when, unpack2. rewrite Hn.
  destruct (hashes o) as [h|]; [destruct (split ":" h) as [|a [|b [|c l]]]|]; cbn;
    repeat match goal with
      | |- exists _ _ _, (Raise (ValueError _), _, _) = _ =>
          do 3 eexists; reflexivity
      | |- context [if ?b then _ else _] => destruct b eqn:?; cbn
      end.
  all: destruct Hop; congruence.
Qed.

(** C6.  When [-no-add] or [-delete] is given without a computer name, the
    constructor raises a ValueError, and the script ends without a single
    call to a collaborator: the engines are never entered. *)
Theorem missing_name_rejected_before_any_call :
  forall fuel username password domain (o : Options) (s : St W),
    computer_name o = None ->
    no_add o = true \/ delete o = true ->
    (exists msg,
        out_of (__init__ username password domain o s) = Raise (ValueError msg))
    /\ Forall (fun e => is_call e = false)
         (trace_of (main respond fuel username password domain o s)).
Proof.
  intros fuel username password domain o s Hn Hop.
  destruct (init_missing_name username password domain o s Hn Hop)
    as (msg & s' & t & E).
  split.
  - exists msg. rewrite E. reflexivity.
  - pose proof (init_calls_nothing username password domain o s) as Hc.
    rewrite E in Hc. unfold only in Hc. cbn in Hc.
    unfold main. destruct (domain =? "").
    + cbn. repeat constructor.
    + unfold try_except, bind. rewrite E. cbn.
      destruct (debug s'); cbn; apply Forall_app; split; auto;
        repeat constructor.
Qed.

End InitErrors.

(** ** Generated names and the probing loops *)

Section Names.
Context {W : Type}.
Variable respond : forall R : Type, call R -> W -> (exn + R) * W.

Lemma bind_invoke {R B} (c : call R) (f : R -> M W B) (s : St W) :
  bind (invoke respond c) f s =
    match respond R c (world s) with
    | (inl e, w) => (Raise e, set_world s w, [Ev c (inl e)])
    | (inr r, w) =>
        (out_of (f r (set_world s w)), state_of (f r (set_world s w)),
         Ev c (inr r) :: trace_of (f r (set_world s w)))
    end.
Proof.
  unfold bind, invoke.
  destruct (respond R c (world s)) as [[e|r] w]; [reflexivity|].
  destruct (f r (set_world s w)) as [[o s2] t2]. reflexivity.
Qed.

Lemma alphabet_upper_or_digit (c : ascii) :
  In c (list_ascii_of_string (ascii_uppercase ++ digits)) ->
  is_upper c || is_digit c = true.
Proof.
  cbn. intros H.
  repeat (destruct H as [<-|H]; [reflexivity|]). contradiction.
Qed.

(** [generateComputerName] always returns, and what it returns has the shape
    of a generated name. *)
Lemma generateComputerName_spec (s : St W) :
  exists n s',
    generateComputerName s = (Ret n, s', [])
    /\ desktop_pattern n = true
    /\ me s' = me s /\ frame s' = frame s /\ world s' = world s /\ debug s' = debug s.
Proof.
  destruct (random_string_spec 8 (ascii_uppercase ++ digits) s)
    as (r & s' & E & Hl & Hall & Hrest); [cbn; lia|].
  exists ("DESKTOP-" ++ (r ++ "$")), s'.
  unfold generateComputerName, bind. rewrite E. cbn [ret app].
  split; [reflexivity|]. split; [|exact Hrest].
  do 8 (destruct r as [|? r]; [cbn in Hl; discriminate Hl|]).
  destruct r as [|? r]; [|cbn in Hl; discriminate Hl].
  apply (Forall_impl _ alphabet_upper_or_digit) in Hall.
  cbn [list_ascii_of_string] in Hall.
  repeat match goal with
         | H : Forall _ (_ :: _) |- _ => inversion H; subst; clear H
         end.
  unfold desktop_pattern. cbn - [is_upper is_digit].
  repeat match goal with
         | H : _ || _ = true |- _ => rewrite H; clear H
         end.
  reflexivity.
Qed.

(** What one existence check does, from the answer of the environment to
    its search. *)
Lemma LDAPComputerExists_step (conn : obj) (name : option string) (s : St W) :
  let c := ldap_search conn (__baseDN (me s))
             ("(sAMAccountName=" ++ fmt name ++ ")") SUBTREE [] in
  LDAPComputerExists respond conn name s =
    match respond _ c (world s) with
    | (inl e, w) => (Raise e, set_world s w, [Ev c (inl e)])
    | (inr (b, cs), w) =>
        (Ret (List.length (entries cs) =? 1)%nat, set_world s w, [Ev c (inr (b, cs))])
    end.
Proof.
  cbn. unfold LDAPComputerExists, search, bind, get_me, invoke.
  destruct (respond _ _ (world s)) as [[e|[b cs]] w]; reflexivity.
Qed.

(** The loop of [run_ldaps] returns only after an existence check that
    answered "absent", made for the name it leaves in the object, and that
    name has the shape of a generated name. *)
Lemma ldaps_find_unused_spec (fuel : nat) (conn : obj) (s : St W) u s' t :
  ldaps_find_unused respond fuel conn s = (Ret u, s', t) ->
  exists n pre b cs,
    __computerName (me s') = Some n
    /\ desktop_pattern n = true
    /\ t = (pre ++ [Ev (ldap_search conn (__baseDN (me s))
                         ("(sAMAccountName=" ++ n ++ ")") SUBTREE [])
                      (inr (b, cs))])%list
    /\ (List.length (entries cs) =? 1)%nat = false
    /\ set_computerName (me s') None = set_computerName (me s) None
    /\ frame s' = frame s.
Proof.
  revert s t. induction fuel as [|fuel IH]; intros s t H; [discriminate|].
  cbn [ldaps_find_unused] in H.
  destruct (generateComputerName_spec s) as (n & s1 & E & Hpat & Hme & Hfr & Hw & Hd).
  apply bind_Ret in H. destruct H as (n0 & s1' & t1 & t2 & E1 & H & ->).
  rewrite E in E1. inversion E1; subst n0 s1' t1. clear E1.
  apply bind_Ret in H. destruct H as (u0 & s2 & t3 & t4 & E2 & H & ->).
  cbn in E2. inversion E2; subst s2 t3. clear E2.
  apply bind_Ret in H. destruct H as (x & s3 & t5 & t6 & E3 & H & ->).
  cbn in E3. inversion E3; subst x s3 t5. clear E3.
  apply bind_Ret in H. destruct H as (ex & s4 & t7 & t8 & E4 & H & ->).
  rewrite LDAPComputerExists_step in E4.
  cbn [me set_me world fmt __computerName __baseDN set_computerName] in E4.
  rewrite Hme in E4.
  destruct (respond _ _ (world s1)) as [[e|[b cs]] w] eqn:Er; [discriminate|].
  inversion E4; subst ex s4 t7. clear E4.
  destruct (List.length (entries cs) =? 1)%nat eqn:Elen; cbn [negb] in H.
  - apply IH in H.
    destruct H as (n' & pre & b' & cs' & Hn' & Hp' & Ht' & Hex' & Hme' & Hfr').
    cbn [me set_world set_me frame __baseDN set_computerName] in *.
    exists n', (Ev (ldap_search conn (__baseDN (me s))
                     ("(sAMAccountName=" ++ n ++ ")") SUBTREE [])
                  (inr (b, cs)) :: pre)%list, b', cs'.
    split; [exact Hn'|]. split; [exact Hp'|].
    split; [rewrite Ht'; reflexivity|].
    split; [exact Hex'|].
    split; [rewrite Hme'; reflexivity | congruence].
  - cbn in H. inversion H; subst s' t8.
    exists n, [], b, cs.
    cbn [me set_world set_me frame __computerName set_computerName].
    split; [reflexivity|]. split; [exact Hpat|].
    split; [reflexivity|]. split; [exact Elen|].
    split; [reflexivity | exact Hfr].
Qed.

(** What one probe of the SAMR loop does, from the answer to its lookup. *)
Lemma samr_probe_step (dce : obj) (dh : handle) (name : option string) (s : St W) :
  let c := hSamrLookupNamesInDomain dce dh [name] in
  samr_probe respond dce dh name s =
    match respond _ c (world s) with
    | (inr rids, w) => (Ret false, set_world s w, [Ev c (inr rids)])
    | (inl e, w) =>
        match e with
        | DCERPCSessionError code _ =>
            if (code =? STATUS_NONE_MAPPED)%Z
            then (Ret true, set_world s w, [Ev c (inl e)])
            else (Raise e, set_world s w, [Ev c (inl e)])
        | _ => (Raise e, set_world s w, [Ev c (inl e)])
        end
    end.
Proof.
  cbn. unfold samr_probe, try_except, bind, invoke.
  destruct (respond _ _ (world s)) as [[e|rids] w]; [|reflexivity].
  destruct e; try reflexivity.
  destruct (error_code =? STATUS_NONE_MAPPED)%Z; reflexivity.
Qed.

(** The loop of [doSAMRAdd] returns only after a lookup that answered
    STATUS_NONE_MAPPED, made for the name it leaves in the object, and that
    name has the shape of a generated name. *)
Lemma samr_find_unused_spec (fuel : nat) (dce : obj) (dh : handle) (s : St W) u s' t :
  samr_find_unused respond fuel dce dh s = (Ret u, s', t) ->
  exists n pre msg,
    __computerName (me s') = Some n
    /\ desktop_pattern n = true
    /\ t = (pre ++ [Ev (hSamrLookupNamesInDomain dce dh [Some n])
                      (inl (DCERPCSessionError STATUS_NONE_MAPPED msg))])%list
    /\ set_computerName (me s') None = set_computerName (me s) None
    /\ frame s' = frame s.
Proof.
  revert s t. induction fuel as [|fuel IH]; intros s t H; [discriminate|].
  cbn [samr_find_unused] in H.
  destruct (generateComputerName_spec s) as (n & s1 & E & Hpat & Hme & Hfr & Hw & Hd).
  apply bind_Ret in H. destruct H as (n0 & s1' & t1 & t2 & E1 & H & ->).
  rewrite E in E1. inversion E1; subst n0 s1' t1. clear E1.
  apply bind_Ret in H. destruct H as (u0 & s2 & t3 & t4 & E2 & H & ->).
  cbn in E2. inversion E2; subst s2 t3. clear E2.
  apply bind_Ret in H. destruct H as (x & s3 & t5 & t6 & E3 & H & ->).
  cbn in E3. inversion E3; subst x s3 t5. clear E3.
  apply bind_Ret in H. destruct H as (found & s4 & t7 & t8 & E4 & H & ->).
  rewrite samr_probe_step in E4.
  cbn [me set_me world __computerName set_computerName] in E4.
  destruct (respond _ _ (world s1)) as [[e|rids] w] eqn:Er.
  - destruct e; try discriminate.
    destruct (error_code =? STATUS_NONE_MAPPED)%Z eqn:Ecode; [|discriminate].
    apply Z.eqb_eq in Ecode. subst error_code.
    inversion E4; subst found s4 t7. clear E4.
    cbn in H. inversion H; subst s' t8.
    exists n, [], msg.
    cbn [me set_world set_me frame __computerName set_computerName].
    split; [reflexivity|]. split; [exact Hpat|].
    split; [reflexivity|]. split; [rewrite Hme; reflexivity | exact Hfr].
  - inversion E4; subst found s4 t7. clear E4.
    apply IH in H.
    destruct H as (n' & pre & msg & Hn' & Hp' & Ht' & Hme' & Hfr').
    cbn [me set_world set_me frame set_computerName] in *.
    exists n', (Ev (hSamrLookupNamesInDomain dce dh [Some n]) (inr rids) :: pre)%list, msg.
    split; [exact Hn'|]. split; [exact Hp'|].
    split; [rewrite Ht'; reflexivity|].
    split; [rewrite Hme'; rewrite Hme; reflexivity | congruence].
Qed.

(** C7.  The generator always returns a name of the shape [DESKTOP-],
    eight characters among [A-Z0-9], [$].  When the probing loop of either
    engine returns, the name it leaves in the object is such a name, and the
    last thing the loop did was to check that very name and be told it is
    absent: over LDAPS a search that did not find exactly one entry, over SAMR
    a lookup refused with STATUS_NONE_MAPPED. *)
Theorem generated_names_are_checked_absent :
  (forall s : St W,
      exists n s', generateComputerName s = (Ret n, s', []) /\ desktop_pattern n = true)
  /\ (forall fuel conn (s : St W) u s' t,
        ldaps_find_unused respond fuel conn s = (Ret u, s', t) ->
        exists n pre b cs,
          __computerName (me s') = Some n
          /\ desktop_pattern n = true
          /\ t = (pre ++ [Ev (ldap_search conn (__baseDN (me s))
                               ("(sAMAccountName=" ++ n ++ ")") SUBTREE [])
                            (inr (b, cs))])%list
          /\ (List.length (entries cs) =? 1)%nat = false)
  /\ (forall fuel dce dh (s : St W) u s' t,
        samr_find_unused respond fuel dce dh s = (Ret u, s', t) ->
        exists n pre msg,
          __computerName (me s') = Some n
          /\ desktop_pattern n = true
          /\ t = (pre ++ [Ev (hSamrLookupNamesInDomain dce dh [Some n])
                            (inl (DCERPCSessionError STATUS_NONE_MAPPED msg))])%list).
Proof.
  split; [|split].
  - intros s.
    destruct (generateComputerName_spec s) as (n & s' & E & Hp & _).
    exists n, s'. auto.
  - intros fuel conn s u s' t H.
    destruct (ldaps_find_unused_spec _ _ _ _ _ _ H)
      as (n & pre & b & cs & H1 & H2 & H3 & H4 & _).
    exists n, pre, b, cs. auto.
  - intros fuel dce dh s u s' t H.
    destruct (samr_find_unused_spec _ _ _ _ _ _ _ H)
      as (n & pre & msg & H1 & H2 & H3 & _).
    exists n, pre, msg. auto.
Qed.

End Names.

(** ** Selecting the domain *)

Section Domain.
Context {W : Type}.

Lemma for_each_log (l : list string) (s0 : St W) :
  for_each (fun d => log ERROR (" * " ++ d)) l s0
  = (Ret tt, s0, map (fun d => Log ERROR (" * " ++ d)) l).
Proof.
  revert s0. induction l as [|d l IH]; intros s0; cbn; [reflexivity|].
  unfold bind. cbn. rewrite IH. reflexivity.
Qed.

(** What [doSAMRAdd] does with the enumerated domains: with at most one
    domain besides the built-in one it takes the first; with more, it takes
    the domain whose lower-cased name is the configured NetBIOS name as
    written, when there is exactly one, and raises otherwise. *)
Lemma samr_select_domain_spec (domains : list string) (s : St W) :
  let candidates := filter (fun x => negb (lower x =? "builtin")) domains in
  let named := filter (fun d => lower d =? __domainNetbios (me s)) domains in
  (Nat.ltb 1 (List.length candidates) = true ->
   (forall d, named = [d] ->
              samr_select_domain domains s = (Ret d, s, []))
   /\ (List.length named <> 1%nat ->
       out_of (samr_select_domain domains s) = Raise (Exception "")
       /\ Forall (fun d => In (Log ERROR (" * " ++ d))
                             (trace_of (samr_select_domain domains s))) domains))
  /\ (Nat.ltb 1 (List.length candidates) = false ->
      samr_select_domain domains s = index0 candidates s).
Proof.
  cbn zeta. unfold samr_select_domain. cbn zeta.
  destruct (Nat.ltb 1 _) eqn:Hc; split; try discriminate; intros _; [|reflexivity].
  rewrite !bind_get_me.
  split.
  - intros d Hd. rewrite Hd. reflexivity.
  - intros Hn.
    destruct (List.length (filter _ domains) =? 1)%nat eqn:E.
    { apply Nat.eqb_eq in E. contradiction. }
    cbn [negb]. unfold bind. cbn [log emit]. rewrite for_each_log. cbn.
    split; [reflexivity|].
    apply Forall_forall. intros d Hd. right. right.
    apply in_or_app. left. apply in_map_iff. eauto.
Qed.

End Domain.

(** C5 (the code departs from the claim).  The server enumerates Builtin,
    CORP and OTHER, and the NetBIOS name configured is CORP: it is the name
    of exactly one enumerated domain, and still the selection raises, after
    logging that CORP is not one of the domains and listing CORP among them.
    The enumerated name is lower-cased before the comparison and the
    configured one is not. *)
Theorem select_domain_rejects_exact_name :
  let s := ready sim_two_domains
             (samr_self "alice" (Some "PC1$") "CORP" false false) in
  __domainNetbios (me s) = "CORP"
  /\ filter (String.eqb "CORP") ["Builtin"; "CORP"; "OTHER"] = ["CORP"]
  /\ samr_select_domain ["Builtin"; "CORP"; "OTHER"] s
     = (Raise (Exception ""), s,
        [Log CRITICAL "This server provides multiple domains and 'CORP' isn't one of them.";
         Log CRITICAL "Available domain(s):";
         Log ERROR " * Builtin"; Log ERROR " * CORP"; Log ERROR " * OTHER";
         Log CRITICAL
           "Consider using -domain-netbios argument to specify which one you meant."]).
Proof. cbn zeta. repeat split; vm_compute; reflexivity. Qed.

(** With the name given in lower case the same server has CORP selected. *)
Lemma select_domain_accepts_lowercase_name :
  let s := ready sim_two_domains
             (samr_self "alice" (Some "PC1$") "corp" false false) in
  samr_select_domain ["Builtin"; "CORP"; "OTHER"] s = (Ret "CORP", s, []).
Proof. vm_compute. reflexivity. Qed.

(** ** The handles and the [finally] block of [doSAMRAdd] *)

Section Handles.
Context {W : Type}.
Variable respond : forall R : Type, call R -> W -> (exn + R) * W.

Lemma held_from_app l t1 t2 :
  held_from l (t1 ++ t2) = held_from (held_from l t1) t2.
Proof. unfold held_from. apply fold_left_app. Qed.

Lemma tracks_handles_sequential : sequential (@tracks_handles W).
Proof.
  split; unfold tracks_handles; intros.
  - reflexivity.
  - rewrite held_from_app. congruence.
Qed.

Lemma tracks_emit_log l msg : sat (@tracks_handles W) (emit (Log l msg)).
Proof. intro s. reflexivity. Qed.

Lemma tracks_emit_traceback e : sat (@tracks_handles W) (emit (Traceback e)).
Proof. intro s. reflexivity. Qed.

Lemma tracks_put_me x : sat (@tracks_handles W) (put_me x).
Proof. intro s. reflexivity. Qed.

Lemma tracks_assign n : sat (@tracks_handles W) (assign_computerName n).
Proof. intro s. reflexivity. Qed.

Lemma tracks_choice seq : sat (@tracks_handles W) (choice seq).
Proof. intro s. unfold choice. destruct (get _ seq); reflexivity. Qed.

(** A call that returns no handle and deletes nothing leaves the handles
    as they are. *)
Lemma tracks_invoke {R} (c : call R) :
  (forall l r, held_step l (Ev c r) = l) -> sat tracks_handles (invoke respond c).
Proof.
  intros H s. unfold invoke, tracks_handles.
  destruct (respond R c (world s)) as [[e|r] w]; cbn -[held_step]; rewrite H;
    reflexivity.
Qed.

Lemma bind_set_servHandle {B} x (f : unit -> M W B) s :
  bind (set_servHandle x) f s
  = f tt (set_frame s (mk_Locals x (domainHandle (frame s)) (userHandle (frame s)))).
Proof.
  unfold set_servHandle. unfold bind, get_frame, put_frame.
  destruct (f tt _) as [[r s2] t2]. reflexivity.
Qed.

Lemma bind_set_domainHandle {B} x (f : unit -> M W B) s :
  bind (set_domainHandle x) f s
  = f tt (set_frame s (mk_Locals (servHandle (frame s)) x (userHandle (frame s)))).
Proof.
  unfold set_domainHandle. unfold bind, get_frame, put_frame.
  destruct (f tt _) as [[r s2] t2]. reflexivity.
Qed.

Lemma bind_set_userHandle {B} x (f : unit -> M W B) s :
  bind (set_userHandle x) f s
  = f tt (set_frame s (mk_Locals (servHandle (frame s)) (domainHandle (frame s)) x)).
Proof.
  unfold set_userHandle. unfold bind, get_frame, put_frame.
  destruct (f tt _) as [[r s2] t2]. reflexivity.
Qed.

(** A sequence that starts with a call, by the answer to the call. *)
Lemma sat_invoke_bind (Q : St W -> list event -> St W -> Prop)
  {R B} (c : call R) (k0 : R -> M W B) :
  (forall s e w, Q s [Ev c (inl e)] (set_world s w)) ->
  (forall s r w,
      Q s (Ev c (inr r) :: trace_of (k0 r (set_world s w)))
        (state_of (k0 r (set_world s w)))) ->
  sat Q (bind (invoke respond c) k0).
Proof.
  intros He Hr s. unfold bind, invoke.
  destruct (respond R c (world s)) as [[e|r] w]; [apply He|].
  specialize (Hr s r w).
  destruct (k0 r (set_world s w)) as [[o s2] t2]. exact Hr.
Qed.

(** A handle is stored as soon as the call that returns it has returned. *)
Lemma tracks_connect dce name acc {B} (k0 : handle -> M W B) :
  (forall h, sat tracks_handles (k0 h)) ->
  sat tracks_handles
    (h <- invoke respond (hSamrConnect5 dce name acc) ;;
     set_servHandle (Some h) ;; k0 h).
Proof.
  intros Hk. apply sat_invoke_bind; [reflexivity|]. intros s h w.
  rewrite bind_set_servHandle.
  apply (Hk h (set_frame (set_world s w) (mk_Locals (Some h) (domainHandle (frame s)) (userHandle (frame s))))).
Qed.

Lemma tracks_open_domain dce sh acc sd {B} (k0 : handle -> M W B) :
  (forall h, sat tracks_handles (k0 h)) ->
  sat tracks_handles
    (h <- invoke respond (hSamrOpenDomain dce sh acc sd) ;;
     set_domainHandle (Some h) ;; k0 h).
Proof.
  intros Hk. apply sat_invoke_bind; [reflexivity|]. intros s h w.
  rewrite bind_set_domainHandle.
  apply (Hk h (set_frame (set_world s w) (mk_Locals (servHandle (frame s)) (Some h) (userHandle (frame s))))).
Qed.

Lemma tracks_open_user dce dh acc rid {B} (k0 : handle -> M W B) :
  (forall h, sat tracks_handles (k0 h)) ->
  sat tracks_handles
    (h <- invoke respond (hSamrOpenUser dce dh acc rid) ;;
     set_userHandle (Some h) ;; k0 h).
Proof.
  intros Hk. apply sat_invoke_bind; [reflexivity|]. intros s h w.
  rewrite bind_set_userHandle.
  apply (Hk h (set_frame (set_world s w) (mk_Locals (servHandle (frame s)) (domainHandle (frame s)) (Some h)))).
Qed.

Lemma tracks_create_user dce dh name ty acc {B} (k0 : handle -> M W B) :
  (forall h, sat tracks_handles (k0 h)) ->
  sat tracks_handles
    (h <- invoke respond (hSamrCreateUser2InDomain dce dh name ty acc) ;;
     set_userHandle (Some h) ;; k0 h).
Proof.
  intros Hk. apply sat_invoke_bind; [reflexivity|]. intros s h w.
  rewrite bind_set_userHandle.
  apply (Hk h (set_frame (set_world s w) (mk_Locals (servHandle (frame s)) (domainHandle (frame s)) (Some h)))).
Qed.

(** The user handle is dropped as soon as the delete has returned. *)
Lemma tracks_delete_user dce h l msg :
  sat tracks_handles
    (invoke respond (hSamrDeleteUser dce h) ;; log l msg ;; set_userHandle None).
Proof.
  apply sat_invoke_bind; reflexivity.
Qed.

End Handles.

#[export] Hint Resolve tracks_handles_sequential tracks_emit_log
  tracks_emit_traceback tracks_put_me tracks_assign tracks_choice : sat.
#[export] Hint Extern 3 (sat tracks_handles (invoke _ _)) =>
  (apply tracks_invoke; intros ? [?|?]; reflexivity) : sat.

Ltac tracks_step :=
  first
    [ apply tracks_connect | apply tracks_open_domain | apply tracks_open_user
    | apply tracks_create_user | apply tracks_delete_user | sat_step ].

Section Teardown.
Context {W : Type}.
Variable respond : forall R : Type, call R -> W -> (exn + R) * W.

(** The guarded body of [doSAMRAdd] keeps the handle variables as the trace
    says, and calls neither close-handle nor disconnect. *)
Lemma samr_body_tracks fuel dce :
  sat tracks_handles (try_except (samr_body respond fuel dce) (@log_exception W)).
Proof. repeat tracks_step. Qed.

Lemma samr_body_no_teardown fuel dce :
  sat (only (fun e => is_teardown e = false))
      (try_except (samr_body respond fuel dce) (@log_exception W)).
Proof. sat_auto. Qed.

(** When no close-handle call raises, the [finally] block closes the
    handles held, user, domain, server, and disconnects. *)
Lemma samr_teardown_complete dce (s : St W) :
  existsb is_failed_close (trace_of (samr_teardown respond dce s)) = false ->
  exists rd, trace_of (samr_teardown respond dce s) = teardown_trace dce (frame s) rd.
Proof.
  unfold samr_teardown. rewrite bind_get_frame.
  unfold teardown_trace, handles_of.
  destruct (frame s) as [[sh|] [dh|] [uh|]];
    cbn [userHandle domainHandle servHandle];
    unfold bind, invoke, ret; cbn;
    repeat (match goal with
            | |- context [respond ?R ?c ?w] =>
                destruct (respond R c w) as [[?|[]] ?]
            end; cbn);
    intros H; try discriminate H; eexists; reflexivity.
Qed.

(** Whatever its calls answer, the [finally] block makes only teardown
    calls, and closes the handles held in order, up to the first close that
    raises. *)
Lemma samr_teardown_in_order dce (s : St W) :
  Forall (fun e => is_teardown e = true) (trace_of (samr_teardown respond dce s))
  /\ exists n,
      closed_handles (trace_of (samr_teardown respond dce s))
      = firstn n (handles_of (frame s)).
Proof.
  unfold samr_teardown. rewrite bind_get_frame. unfold handles_of.
  destruct (frame s) as [[sh|] [dh|] [uh|]];
    cbn [userHandle domainHandle servHandle];
    unfold bind, invoke, ret; cbn;
    repeat (match goal with
            | |- context [respond ?R ?c ?w] =>
                destruct (respond R c w) as [[?|[]] ?]
            end; cbn);
    (split; [repeat constructor|]);
    first [ exists 0%nat; reflexivity | exists 1%nat; reflexivity
          | exists 2%nat; reflexivity | exists 3%nat; reflexivity ].
Qed.

(** The [finally] block returns, or raises the error of its last call. *)
Lemma samr_teardown_escapes dce (s : St W) :
  escapes_from_unguarded (samr_teardown respond dce s).
Proof.
  unfold samr_teardown. rewrite bind_get_frame. intros e.
  destruct (frame s) as [[sh|] [dh|] [uh|]];
    cbn [userHandle domainHandle servHandle];
    unfold bind, invoke, ret; cbn;
    repeat (match goal with
            | |- context [respond ?R ?c ?w] =>
                destruct (respond R c w) as [[?|[]] ?]
            end; cbn);
    intros H He; try discriminate H; injection H as ->;
    match goal with
    | |- exists pre ev, ?t = _ /\ _ =>
        exists (removelast t), (last t (Log INFO "")); cbn; auto
    end.
Qed.

(** A close-handle call that raises ends the [finally] block there: the
    handles before it were closed, the ones after it are not, the transport
    is not disconnected, and the error leaves the block. *)
Lemma samr_teardown_cut_short dce (s : St W) :
  existsb is_failed_close (trace_of (samr_teardown respond dce s)) = true ->
  exists n h e,
    nth_error (handles_of (frame s)) n = Some h
    /\ trace_of (samr_teardown respond dce s)
       = (map (fun h0 => Ev (hSamrCloseHandle dce h0) (inr tt))
            (firstn n (handles_of (frame s)))
          ++ [Ev (hSamrCloseHandle dce h) (inl e)])%list
    /\ out_of (samr_teardown respond dce s) = Raise e.
Proof.
  unfold samr_teardown. rewrite bind_get_frame. unfold handles_of.
  destruct (frame s) as [[sh|] [dh|] [uh|]];
    cbn [userHandle domainHandle servHandle];
    unfold bind, invoke, ret; cbn;
    repeat (match goal with
            | |- context [respond ?R ?c ?w] =>
                destruct (respond R c w) as [[?|[]] ?]
            end; cbn);
    intros H; try discriminate H;
    first [ exists 0%nat; do 2 eexists; repeat split; reflexivity
          | exists 1%nat; do 2 eexists; repeat split; reflexivity
          | exists 2%nat; do 2 eexists; repeat split; reflexivity ].
Qed.

(** [doSAMRAdd], step by step: the DCE/RPC object, the guarded body, the
    [finally] block. *)
Lemma doSAMRAdd_run fuel t (s : St W) :
  doSAMRAdd respond fuel t s =
    match respond _ (get_dce_rpc t) (world s) with
    | (inl e, w) => (Raise e, set_world s w, [Ev (get_dce_rpc t) (inl e)])
    | (inr dce, w) =>
        let g := try_except (samr_body respond fuel dce) log_exception
                   (set_frame (set_world s w) (mk_Locals None None None)) in
        let f := samr_teardown respond dce (state_of g) in
        match out_of g with
        | Loop => (Loop, state_of g, Ev (get_dce_rpc t) (inr dce) :: trace_of g)
        | o =>
            (match out_of f with
             | Ret _ => o
             | Raise e => Raise e
             | Loop => Loop
             end,
             state_of f,
             Ev (get_dce_rpc t) (inr dce) :: (trace_of g ++ trace_of f)%list)
        end
    end.
Proof.
  unfold doSAMRAdd. rewrite bind_invoke.
  destruct (respond _ (get_dce_rpc t) (world s)) as [[e|dce] w]; [reflexivity|].
  rewrite bind_put_frame, try_finally_run. cbn zeta.
  destruct (out_of (try_except _ _ _)); reflexivity.
Qed.

(** C1 (as amended).  Once [doSAMRAdd] has its DCE/RPC object, every run
    that ends is the guarded body followed by the [finally] block.  The body
    never closes a handle nor disconnects.  The [finally] block makes only
    teardown calls, and closes the handles held at that time in the order
    user, domain, server.  When no close raises, it closes all of them and
    then disconnects.  When a close raises, the block ends at that call: the
    handles before it were closed, the handles after it are not, the
    transport is not disconnected, and the error leaves [doSAMRAdd]. *)
Theorem teardown_follows_guarded_body :
  forall fuel t (s : St W) dce w,
    respond _ (get_dce_rpc t) (world s) = (inr dce, w) ->
    out_of (doSAMRAdd respond fuel t s) <> Loop ->
    exists body td,
      trace_of (doSAMRAdd respond fuel t s)
      = Ev (get_dce_rpc t) (inr dce) :: (body ++ td)%list
      /\ Forall (fun e => is_teardown e = false) body
      /\ Forall (fun e => is_teardown e = true) td
      /\ (exists n, closed_handles td = firstn n (handles_of (held body)))
      /\ (existsb is_failed_close td = false ->
          exists rd, td = teardown_trace dce (held body) rd)
      /\ (existsb is_failed_close td = true ->
          exists n h e,
            nth_error (handles_of (held body)) n = Some h
            /\ td = (map (fun h0 => Ev (hSamrCloseHandle dce h0) (inr tt))
                       (firstn n (handles_of (held body)))
                     ++ [Ev (hSamrCloseHandle dce h) (inl e)])%list
            /\ out_of (doSAMRAdd respond fuel t s) = Raise e).
Proof.
  intros fuel t s dce w Hdce. rewrite doSAMRAdd_run, Hdce. cbn zeta.
  set (s0 := set_frame (set_world s w) (mk_Locals None None None)).
  pose proof (samr_body_tracks fuel dce s0) as Htr.
  pose proof (samr_body_no_teardown fuel dce s0) as Hno.
  unfold tracks_handles in Htr. unfold only in Hno.
  destruct (try_except _ _ s0) as [[o s1] t1].
  cbn [out_of state_of trace_of fst snd] in *.
  change (frame s0) with (mk_Locals None None None) in Htr.
  fold (held t1) in Htr.
  destruct (samr_teardown_in_order dce s1) as [Hall Hord].
  rewrite Htr in Hord.
  pose proof (samr_teardown_complete dce s1) as Hfull.
  pose proof (samr_teardown_cut_short dce s1) as Hcut.
  rewrite Htr in Hfull, Hcut.
  destruct (samr_teardown respond dce s1) as [[ofin sf] tf].
  cbn [out_of state_of trace_of fst snd] in *.
  destruct o as [a|e0|]; cbn [trace_of out_of fst snd]; intros Hloop;
    try contradiction;
    (exists t1, tf; split; [reflexivity|]; split; [exact Hno|];
     split; [exact Hall|]; split; [exact Hord|]; split; [exact Hfull|];
     intros Hc; destruct (Hcut Hc) as (n & h & e & Hn & Htd & Ho);
     exists n, h, e; split; [exact Hn|]; split; [exact Htd|];
     rewrite Ho; reflexivity).
Qed.

End Teardown.

(** ** Which errors the run routines catch *)

Section Errors.
Context {W : Type}.
Variable respond : forall R : Type, call R -> W -> (exn + R) * W.

(** What [except Exception as e] does with the way its body ended. *)
Lemma guarded_run (m : M W unit) (s : St W) :
  try_except m log_exception s =
    match out_of (m s) with
    | Raise e =>
        if is_Exception e then
          (Ret tt, state_of (m s),
           (trace_of (m s)
            ++ (if debug (state_of (m s)) then [Traceback e] else [])
            ++ [Log CRITICAL (str_exn e)])%list)
        else m s
    | _ => m s
    end.
Proof.
  rewrite try_except_run. destruct (out_of (m s)) as [a|e|]; try reflexivity.
  unfold log_exception. destruct (is_Exception e); [|reflexivity].
  rewrite bind_is_debug. destruct (debug (state_of (m s))); reflexivity.
Qed.

(** No [Exception] leaves a guarded block. *)
Lemma guarded_no_exception (m : M W unit) (s : St W) e :
  out_of (try_except m log_exception s) = Raise e -> is_Exception e = false.
Proof.
  rewrite guarded_run. destruct (out_of (m s)) as [a|e0|] eqn:E.
  - rewrite E. discriminate.
  - destruct (is_Exception e0) eqn:Ee; [discriminate|].
    rewrite E. intros H. injection H as <-. exact Ee.
  - rewrite E. discriminate.
Qed.

Lemma escapes_bind {A B} (m : M W A) (f : A -> M W B) (s : St W) :
  escapes_from_unguarded (m s) ->
  (forall a s1, escapes_from_unguarded (f a s1)) ->
  escapes_from_unguarded (bind m f s).
Proof.
  intros Hm Hf e. rewrite out_bind, trace_bind.
  destruct (out_of (m s)) as [a|e0|] eqn:E.
  - intros Ho He. destruct (Hf a (state_of (m s)) e Ho He) as (pre & ev & Ht & Hr & Hu).
    exists (trace_of (m s) ++ pre)%list, ev. rewrite Ht, app_assoc. auto.
  - intros Ho He. injection Ho as ->. rewrite app_nil_r. apply Hm; auto.
  - discriminate.
Qed.

Lemma escapes_invoke {R} (c : call R) (s : St W) :
  (forall r, is_unguarded (Ev c r) = true) ->
  escapes_from_unguarded (invoke respond c s).
Proof.
  intros Hc e. unfold invoke.
  destruct (respond R c (world s)) as [[e0|r] w]; cbn; [|discriminate].
  intros H He. injection H as ->. exists [], (Ev c (inl e)). auto.
Qed.

Lemma escapes_never {A} (r : outcome A * St W * list event) :
  (forall e, out_of r <> Raise e) -> escapes_from_unguarded r.
Proof. intros H e Ho. destruct (H e Ho). Qed.

(** An [Exception] leaves [doSAMRAdd] only from [get_dce_rpc] or from a call
    of the [finally] block. *)
Lemma doSAMRAdd_escapes fuel t (s : St W) :
  escapes_from_unguarded (doSAMRAdd respond fuel t s).
Proof.
  rewrite doSAMRAdd_run.
  destruct (respond _ (get_dce_rpc t) (world s)) as [[e|dce] w].
  - intros e0 H He. injection H as ->. exists [], (Ev (get_dce_rpc t) (inl e0)). auto.
  - cbn zeta.
    set (g := try_except _ _ _).
    pose proof (guarded_no_exception (samr_body respond fuel dce)
                  (set_frame (set_world s w) (mk_Locals None None None))) as Hg.
    fold g in Hg.
    pose proof (samr_teardown_escapes respond dce (state_of g)) as Hf.
    assert (Hcase : forall o : outcome unit,
               (forall e, o = Raise e -> is_Exception e = false) ->
               escapes_from_unguarded
                 (match out_of (samr_teardown respond dce (state_of g)) with
                  | Ret _ => o
                  | Raise e => Raise e
                  | Loop => Loop
                  end,
                  state_of (samr_teardown respond dce (state_of g)),
                  Ev (get_dce_rpc t) (inr dce)
                  :: (trace_of g ++ trace_of (samr_teardown respond dce (state_of g)))%list)).
    { intros o Ho e. cbn [out_of trace_of fst snd].
      destruct (out_of (samr_teardown respond dce (state_of g))) as [u|e'|] eqn:E.
      - intros H He. rewrite (Ho e H) in He. discriminate.
      - intros H He. injection H as ->.
        destruct (Hf e E He) as (pre & ev & Ht & Hr & Hu).
        exists (Ev (get_dce_rpc t) (inr dce) :: trace_of g ++ pre)%list, ev.
        rewrite Ht. cbn. rewrite app_assoc. auto.
      - discriminate. }
    destruct (out_of g) as [a|e|] eqn:E.
    + apply Hcase. intros e H. discriminate.
    + apply Hcase. intros e0 H. injection H as <-. apply Hg. reflexivity.
    + intros e H. discriminate.
Qed.

(** The same for [run_samr], whose set-up calls are outside any [try]. *)
Lemma run_samr_escapes fuel (s : St W) :
  escapes_from_unguarded (run_samr respond fuel s).
Proof.
  unfold run_samr. rewrite bind_get_me.
  apply escapes_bind; [apply escapes_invoke; reflexivity|]. intros sb s1.
  apply escapes_bind; [apply escapes_invoke; reflexivity|]. intros tr s2.
  apply escapes_bind; [apply escapes_invoke; reflexivity|]. intros _ s3.
  apply escapes_bind.
  { destruct (__targetIp (me s)).
    - apply escapes_bind; [apply escapes_invoke; reflexivity|]. intros _ s4.
      apply escapes_invoke; reflexivity.
    - apply escapes_never. discriminate. }
  intros _ s4.
  apply escapes_bind; [apply escapes_invoke; reflexivity|]. intros has s5.
  apply escapes_bind.
  { destruct has; cbn [when].
    - apply escapes_invoke; reflexivity.
    - apply escapes_never. discriminate. }
  intros _ s6.
  apply escapes_bind; [apply escapes_invoke; reflexivity|]. intros _ s7.
  apply doSAMRAdd_escapes.
Qed.

(** The guarded block of [doSAMRAdd] makes none of the calls of the set-up
    or of the teardown. *)
Lemma samr_body_guarded_calls fuel dce :
  sat (only (fun e => is_unguarded e = false))
      (try_except (samr_body respond fuel dce) (@log_exception W)).
Proof. sat_auto. Qed.

Lemma leaves_bind {A B} (m : M W A) (f : A -> M W B) (s : St W) :
  unguarded_errors_leave (m s) ->
  (forall a s1, unguarded_errors_leave (f a s1)) ->
  unguarded_errors_leave (bind m f s).
Proof.
  intros Hm Hf pre ev post e. rewrite out_bind, trace_bind.
  destruct (out_of (m s)) as [a|e0|] eqn:E.
  - intros Ht Hu Hr. apply app_eq_app in Ht.
    destruct Ht as [l [[Hpre Hl]|[Hl Hpost]]].
    + destruct l as [|x l].
      * rewrite app_nil_l in Hl. rewrite app_nil_r in Hpre.
        apply (Hf a (state_of (m s)) [] ev post e); auto.
      * cbn in Hl. injection Hl as <- ->.
        destruct (Hm pre ev l e Hpre Hu Hr) as [_ Ho]. rewrite E in Ho. discriminate.
    + destruct (Hf a (state_of (m s)) l ev post e); auto.
  - rewrite app_nil_r. intros Ht Hu Hr.
    destruct (Hm pre ev post e Ht Hu Hr) as [Hp Ho]. split; [exact Hp|].
    rewrite E in Ho. injection Ho as ->. reflexivity.
  - rewrite app_nil_r. intros Ht Hu Hr.
    destruct (Hm pre ev post e Ht Hu Hr) as [_ Ho]. rewrite E in Ho. discriminate.
Qed.

Lemma leaves_invoke {R} (c : call R) (s : St W) :
  unguarded_errors_leave (invoke respond c s).
Proof.
  intros pre ev post e. unfold invoke.
  destruct (respond R c (world s)) as [[e0|r] w]; cbn;
    intros Ht Hu Hr;
    (destruct pre as [|x pre];
     [ injection Ht as <- <-; cbn in Hr; try discriminate Hr;
       injection Hr as ->; auto
     | destruct pre; discriminate Ht ]).
Qed.

Lemma leaves_quiet {A} (r : outcome A * St W * list event) :
  Forall (fun e => is_unguarded e = false) (trace_of r) ->
  unguarded_errors_leave r.
Proof.
  intros H pre ev post e Ht Hu _. rewrite Ht in H.
  apply Forall_app in H. destruct H as [_ H]. inversion H; subst. congruence.
Qed.

(** The [finally] block: a call of it that raises is its last, and its
    error leaves the block. *)
Lemma samr_teardown_leaves dce (s : St W) :
  unguarded_errors_leave (samr_teardown respond dce s).
Proof.
  unfold samr_teardown. rewrite bind_get_frame.
  repeat (apply leaves_bind;
          [ match goal with
            | |- context [match ?x with Some _ => _ | None => _ end] =>
                destruct x; [apply leaves_invoke | apply leaves_quiet; constructor]
            end
          | intros _ ? ]).
  apply leaves_invoke.
Qed.

(** The same for [doSAMRAdd]: [get_dce_rpc], the guarded block, the
    [finally] block. *)
Lemma doSAMRAdd_leaves fuel t (s : St W) :
  unguarded_errors_leave (doSAMRAdd respond fuel t s).
Proof.
  rewrite doSAMRAdd_run.
  destruct (respond _ (get_dce_rpc t) (world s)) as [[e|dce] w] eqn:Hd.
  - intros pre ev post e0 Ht Hu Hr. cbn in Ht.
    destruct pre as [|x pre]; [|destruct pre; discriminate Ht].
    injection Ht as <- <-. cbn in Hr. injection Hr as ->. auto.
  - cbn zeta.
    set (s0 := set_frame (set_world s w) (mk_Locals None None None)).
    pose proof (samr_body_guarded_calls fuel dce s0) as Hg. unfold only in Hg.
    set (g := try_except _ _ s0) in *.
    pose proof (samr_teardown_leaves dce (state_of g)) as Hf.
    assert (Hcase : forall (o : outcome unit) pre ev post e,
               (Ev (get_dce_rpc t) (inr dce)
                :: trace_of g ++ trace_of (samr_teardown respond dce (state_of g)))%list
               = (pre ++ ev :: post)%list ->
               is_unguarded ev = true ->
               raise_of ev = Some e ->
               post = []
               /\ match out_of (samr_teardown respond dce (state_of g)) with
                  | Ret _ => o
                  | Raise e' => Raise e'
                  | Loop => Loop
                  end = Raise e).
    { intros o pre ev post e Ht Hu Hr.
      destruct pre as [|x pre]; cbn in Ht.
      { injection Ht as <- _. discriminate Hr. }
      injection Ht as _ Ht. apply app_eq_app in Ht.
      destruct Ht as [l [[Hpre Hl]|[Hl Hpost]]].
      - destruct l as [|y l].
        + rewrite app_nil_l in Hl.
          destruct (Hf [] ev post e (eq_sym Hl) Hu Hr) as [Hp Ho].
          rewrite Ho. auto.
        + cbn in Hl. injection Hl as <- ->. rewrite Hpre in Hg.
          apply Forall_app in Hg. destruct Hg as [_ Hg]. inversion Hg; subst. congruence.
      - destruct (Hf l ev post e Hpost Hu Hr) as [Hp Ho]. rewrite Ho. auto. }
    destruct (out_of g) as [a|e|] eqn:E.
    + intros pre ev post e0. cbn [trace_of out_of fst snd]. apply Hcase.
    + intros pre ev post e0. cbn [trace_of out_of fst snd]. apply Hcase.
    + intros pre ev post e0 Ht Hu Hr. cbn [trace_of out_of fst snd] in *.
      destruct pre as [|x pre]; cbn in Ht.
      { injection Ht as <- _. discriminate Hr. }
      injection Ht as _ Ht. rewrite Ht in Hg.
      apply Forall_app in Hg. destruct Hg as [_ Hg]. inversion Hg; subst. congruence.
Qed.

(** And for [run_samr]. *)
Lemma run_samr_leaves fuel (s : St W) :
  unguarded_errors_leave (run_samr respond fuel s).
Proof.
  unfold run_samr. rewrite bind_get_me.
  apply leaves_bind; [apply leaves_invoke|]. intros sb s1.
  apply leaves_bind; [apply leaves_invoke|]. intros tr s2.
  apply leaves_bind; [apply leaves_invoke|]. intros _ s3.
  apply leaves_bind.
  { destruct (__targetIp (me s)).
    - apply leaves_bind; [apply leaves_invoke|]. intros _ s4. apply leaves_invoke.
    - apply leaves_quiet. constructor. }
  intros _ s4.
  apply leaves_bind; [apply leaves_invoke|]. intros has s5.
  apply leaves_bind.
  { destruct has; cbn [when].
    - apply leaves_invoke.
    - apply leaves_quiet. constructor. }
  intros _ s6.
  apply leaves_bind; [apply leaves_invoke|]. intros _ s7.
  apply doSAMRAdd_leaves.
Qed.

(** C4 (as amended).  No [Exception] leaves [run_ldaps]: one raised in its
    body is caught and logged at critical level.  The same holds for the
    guarded block of [doSAMRAdd], which makes none of the calls of the set-up
    or of the teardown.  An [Exception] leaves [run_samr] exactly when a call
    made outside the guarded block raises it: one that leaves was raised by
    the last call made, a call of the set-up of the transport or of the
    teardown; and whenever such a call raises, it is the last call made and
    its error leaves [run_samr]. *)
Theorem exceptions_caught_in_guarded_blocks :
  (forall fuel (s : St W) e,
      out_of (run_ldaps respond fuel s) = Raise e -> is_Exception e = false)
  /\ (forall fuel (s : St W) e s1 t1,
        ldaps_body respond fuel s = (Raise e, s1, t1) ->
        is_Exception e = true ->
        run_ldaps respond fuel s
        = (Ret tt, s1,
           (t1 ++ (if debug s1 then [Traceback e] else [])
               ++ [Log CRITICAL (str_exn e)])%list))
  /\ (forall fuel dce (s : St W) e s1 t1,
        samr_body respond fuel dce s = (Raise e, s1, t1) ->
        is_Exception e = true ->
        try_except (samr_body respond fuel dce) log_exception s
        = (Ret tt, s1,
           (t1 ++ (if debug s1 then [Traceback e] else [])
               ++ [Log CRITICAL (str_exn e)])%list))
  /\ (forall fuel (s : St W), escapes_from_unguarded (run_samr respond fuel s))
  /\ (forall fuel dce (s : St W),
        Forall (fun e => is_unguarded e = false)
          (trace_of (try_except (samr_body respond fuel dce) log_exception s)))
  /\ (forall fuel (s : St W), unguarded_errors_leave (run_samr respond fuel s)).
Proof.
  split; [|split; [|split; [|split; [|split]]]].
  - intros fuel s e. unfold run_ldaps. apply guarded_no_exception.
  - intros fuel s e s1 t1 H He. unfold run_ldaps.
    rewrite guarded_run, H. cbn [out_of state_of trace_of fst snd].
    rewrite He. reflexivity.
  - intros fuel dce s e s1 t1 H He.
    rewrite guarded_run, H. cbn [out_of state_of trace_of fst snd].
    rewrite He. reflexivity.
  - apply run_samr_escapes.
  - intros fuel dce s. apply (samr_body_guarded_calls fuel dce s).
  - apply run_samr_leaves.
Qed.

End Errors.

(** ** What the engines change in the object *)

Section Frame.
Context {W : Type}.
Variable respond : forall R : Type, call R -> W -> (exn + R) * W.

Lemma keeps_named_sequential : sequential (@keeps_named W).
Proof.
  split; unfold keeps_named; intros.
  - reflexivity.
  - rewrite H0; [auto|]. rewrite H; auto.
Qed.

Lemma keeps_named_emit e : sat (@keeps_named W) (emit e).
Proof. intros s H. reflexivity. Qed.

Lemma keeps_named_invoke {R} (c : call R) : sat keeps_named (invoke respond c).
Proof.
  intros s H. unfold invoke.
  destruct (respond R c (world s)) as [[e|r] w]; reflexivity.
Qed.

Lemma keeps_named_put_frame l : sat (@keeps_named W) (put_frame l).
Proof. intros s H. reflexivity. Qed.

Lemma keeps_named_choice seq : sat (@keeps_named W) (choice seq).
Proof. intros s H. unfold choice. destruct (get _ seq); reflexivity. Qed.

Hint Resolve keeps_named_sequential keeps_named_emit keeps_named_invoke
  keeps_named_put_frame keeps_named_choice : sat.

(** With a computer name in the object, the create blocks check that name
    and draw no other. *)
Lemma keeps_named_ldaps_create fuel conn :
  sat keeps_named (ldaps_create respond fuel conn).
Proof.
  intros s Hname.
  destruct (__computerName (me s)) as [n|] eqn:E; [|contradiction].
  unfold ldaps_create. rewrite bind_get_me, E.
  match goal with
  | |- me (state_of (?m s)) = me s =>
      assert (Hm : sat same_me m) by sat_auto; apply Hm
  end.
Qed.

Lemma keeps_named_samr_create fuel dce dh :
  sat keeps_named (samr_create respond fuel dce dh).
Proof.
  intros s Hname.
  destruct (__computerName (me s)) as [n|] eqn:E; [|contradiction].
  unfold samr_create. rewrite bind_get_me, E.
  match goal with
  | |- me (state_of (?m s)) = me s =>
      assert (Hm : sat same_me m) by sat_auto; apply Hm
  end.
Qed.

Hint Resolve keeps_named_ldaps_create keeps_named_samr_create : sat.


End Frame.

(** ** Creating an account that is already there *)

Section Exists.
Context {W : Type}.
Variable respond : forall R : Type, call R -> W -> (exn + R) * W.

Lemma first_reply_app {A} (f : event -> option A) (t1 t2 : list event) :
  first_reply f (t1 ++ t2) =
    match first_reply f t1 with
    | Some x => Some x
    | None => first_reply f t2
    end.
Proof.
  induction t1 as [|e t1 IH]; cbn; [reflexivity|].
  destruct (f e); auto.
Qed.

Lemma first_reply_none {A} (f : event -> option A) (t : list event) :
  Forall (fun e => f e = None) t -> first_reply f t = None.
Proof.
  induction 1 as [|e t He _ IH]; cbn; [reflexivity|].
  rewrite He. exact IH.
Qed.

Lemma bind_of_Ret {A B} (m : M W A) (f : A -> M W B) s a s1 t1 :
  m s = (Ret a, s1, t1) ->
  bind m f s = (out_of (f a s1), state_of (f a s1), (t1 ++ trace_of (f a s1))%list).
Proof.
  intros E. unfold bind. rewrite E. destruct (f a s1) as [[r s2] t2]. reflexivity.
Qed.

Lemma bind_of_Loop {A B} (m : M W A) (f : A -> M W B) s s1 t1 :
  m s = (Loop, s1, t1) -> bind m f s = (Loop, s1, t1).
Proof. intros E. unfold bind. rewrite E. reflexivity. Qed.

Lemma bind_of_Raise {A B} (m : M W A) (f : A -> M W B) s e s1 t1 :
  m s = (Raise e, s1, t1) -> bind m f s = (Raise e, s1, t1).
Proof. intros E. unfold bind. rewrite E. reflexivity. Qed.

(** What a guarded block adds to the trace of its body is log lines. *)
Lemma guarded_trace (m : M W unit) (s : St W) :
  exists logs,
    trace_of (try_except m log_exception s) = (trace_of (m s) ++ logs)%list
    /\ Forall (fun e => is_call e = false) logs.
Proof.
  rewrite guarded_run. destruct (out_of (m s)) as [a|e|].
  - exists []. rewrite app_nil_r. auto.
  - destruct (is_Exception e).
    + eexists. split; [reflexivity|].
      destruct (debug _); repeat constructor.
    + exists []. rewrite app_nil_r. auto.
  - exists []. rewrite app_nil_r. auto.
Qed.

Lemma quiet_ldap_search e : quiet_ldap e = true -> search_reply e = None.
Proof. unfold quiet_ldap. destruct (search_reply e); [discriminate | reflexivity]. Qed.

Lemma quiet_ldap_add e : quiet_ldap e = true -> is_ldap_add e = false.
Proof.
  unfold quiet_ldap. destruct (search_reply e); [discriminate|].
  destruct (is_ldap_add e); [discriminate | reflexivity].
Qed.

Lemma quiet_samr_lookup e : quiet_samr e = true -> lookup_reply e = None.
Proof. unfold quiet_samr. destruct (lookup_reply e); [discriminate | reflexivity]. Qed.

Lemma quiet_samr_create e : quiet_samr e = true -> is_create_user e = false.
Proof.
  unfold quiet_samr. destruct (lookup_reply e); [discriminate|].
  destruct (is_create_user e); [discriminate | reflexivity].
Qed.

Lemma log_no_search e : is_call e = false -> search_reply e = None.
Proof. destruct e; [discriminate | reflexivity..]. Qed.

Lemma log_no_lookup e : is_call e = false -> lookup_reply e = None.
Proof. destruct e; [discriminate | reflexivity..]. Qed.

(** Opening the LDAPS session searches nothing, adds nothing, and leaves the
    object as it is. *)
Lemma ldaps_session_quiet :
  sat (only (fun e => quiet_ldap e = true)) (ldaps_session respond).
Proof. sat_auto. Qed.

Lemma ldaps_session_same_me : sat same_me (ldaps_session respond).
Proof. sat_auto. Qed.

(** Opening the server and the domain looks no name up, creates no user, and
    leaves the object as it is. *)
Lemma samr_open_quiet dce :
  sat (only (fun e => quiet_samr e = true)) (samr_open respond dce).
Proof. sat_auto. Qed.

Lemma samr_open_same_me dce : sat same_me (samr_open respond dce).
Proof. sat_auto. Qed.

Lemma samr_teardown_quiet dce :
  sat (only (fun e => quiet_samr e = true)) (samr_teardown respond dce).
Proof. sat_auto. Qed.

(** The create block of [run_ldaps], when the object has a computer name:
    it begins with the existence check, and stops there when the check
    raises or finds the account. *)
Lemma ldaps_create_named fuel conn (s : St W) n :
  __computerName (me s) = Some n ->
  let c := ldap_search conn (__baseDN (me s))
             ("(sAMAccountName=" ++ n ++ ")") SUBTREE [] in
  match respond _ c (world s) with
  | (inl e, w) =>
      ldaps_create respond fuel conn s = (Raise e, set_world s w, [Ev c (inl e)])
  | (inr (b, cs), w) =>
      if (List.length (entries cs) =? 1)%nat then
        ldaps_create respond fuel conn s
        = (Raise (Exception (already_exists n)), set_world s w, [Ev c (inr (b, cs))])
      else
        exists rest,
          trace_of (ldaps_create respond fuel conn s) = Ev c (inr (b, cs)) :: rest
  end.
Proof.
  intros E. cbn zeta. unfold ldaps_create. rewrite bind_get_me, E.
  pose proof (LDAPComputerExists_step respond conn (Some n) s) as Hstep.
  cbn zeta in Hstep. cbn [fmt] in Hstep.
  destruct (respond _ _ (world s)) as [[e|[b cs]] w].
  - erewrite bind_of_Raise; [reflexivity|].
    erewrite bind_of_Raise; [reflexivity|]. exact Hstep.
  - destruct (List.length (entries cs) =? 1)%nat.
    + erewrite bind_of_Raise; [reflexivity|].
      erewrite bind_of_Ret; [|exact Hstep]. reflexivity.
    + erewrite bind_of_Ret.
      2:{ erewrite bind_of_Ret; [|exact Hstep]. reflexivity. }
      cbn [trace_of snd app]. eexists. reflexivity.
Qed.

(** The create block of [doSAMRAdd], when the object has a computer name:
    it begins with the lookup of the name, and stops there when the lookup
    returns, or raises anything but STATUS_NONE_MAPPED. *)
Lemma samr_create_named fuel dce dh (s : St W) n :
  __computerName (me s) = Some n ->
  let c := hSamrLookupNamesInDomain dce dh [Some n] in
  match respond _ c (world s) with
  | (inr rids, w) =>
      samr_create respond fuel dce dh s
      = (Raise (Exception (already_exists n)), set_world s w, [Ev c (inr rids)])
  | (inl e, w) =>
      exists rest,
        trace_of (samr_create respond fuel dce dh s) = Ev c (inl e) :: rest
  end.
Proof.
  intros E. cbn zeta. unfold samr_create. rewrite bind_get_me, E.
  match goal with
  | |- context [bind (try_except ?m ?h) ?f s] =>
      assert (Hchk :
        try_except m h s =
          match respond _ (hSamrLookupNamesInDomain dce dh [Some n]) (world s) with
          | (inr rids, w) =>
              (Raise (Exception (already_exists n)), set_world s w,
               [Ev (hSamrLookupNamesInDomain dce dh [Some n]) (inr rids)])
          | (inl e, w) =>
              match e with
              | DCERPCSessionError code _ =>
                  if negb (code =? STATUS_NONE_MAPPED)%Z
                  then (Raise e, set_world s w,
                        [Ev (hSamrLookupNamesInDomain dce dh [Some n]) (inl e)])
                  else (Ret tt, set_world s w,
                        [Ev (hSamrLookupNamesInDomain dce dh [Some n]) (inl e)])
              | _ => (Raise e, set_world s w,
                      [Ev (hSamrLookupNamesInDomain dce dh [Some n]) (inl e)])
              end
          end)
  end.
  { unfold try_except, bind, invoke.
    destruct (respond _ _ (world s)) as [[e|rids] w]; [|reflexivity].
    destruct e; try reflexivity.
    destruct (error_code =? STATUS_NONE_MAPPED)%Z; reflexivity. }
  destruct (respond _ _ (world s)) as [[e|rids] w].
  - destruct e;
      try (erewrite bind_of_Raise; [|exact Hchk]; eexists; reflexivity).
    destruct (error_code =? STATUS_NONE_MAPPED)%Z; cbn [negb] in Hchk.
    + erewrite bind_of_Ret; [|exact Hchk]. eexists; reflexivity.
    + erewrite bind_of_Raise; [|exact Hchk]. eexists; reflexivity.
  - erewrite bind_of_Raise; [reflexivity | exact Hchk].
Qed.

(** Over LDAPS: when the first search of a create run for a given name, its
    existence check, finds exactly one entry, the run ends having logged that
    the account exists, and has made no add. *)
Lemma run_ldaps_existing_account fuel (s : St W) n b cs :
  __noAdd (me s) = false ->
  __delete (me s) = false ->
  __computerName (me s) = Some n ->
  first_reply search_reply (trace_of (run_ldaps respond fuel s)) = Some (inr (b, cs)) ->
  List.length (entries cs) = 1%nat ->
  out_of (run_ldaps respond fuel s) = Ret tt
  /\ Forall (fun e => is_ldap_add e = false) (trace_of (run_ldaps respond fuel s))
  /\ In (Log CRITICAL (already_exists n)) (trace_of (run_ldaps respond fuel s)).
Proof.
  intros Hna Hdel Hn Hfirst Hlen. unfold run_ldaps in *.
  destruct (guarded_trace (ldaps_body respond fuel) s) as (logs & Htr & Hlogs).
  rewrite Htr, first_reply_app in Hfirst. clear Htr.
  assert (Hl : first_reply search_reply logs = None).
  { apply first_reply_none. eapply Forall_impl; [|exact Hlogs]. apply log_no_search. }
  rewrite Hl in Hfirst. clear Hl Hlogs logs.
  pose proof (ldaps_session_quiet s) as Hq.
  pose proof (ldaps_session_same_me s) as Hme.
  unfold only in Hq. unfold same_me in Hme.
  destruct (ldaps_session respond s) as [[o s1] t1] eqn:Es.
  cbn [trace_of state_of fst snd] in Hq, Hme.
  assert (Ht1 : first_reply search_reply t1 = None).
  { apply first_reply_none. eapply Forall_impl; [|exact Hq]. apply quiet_ldap_search. }
  assert (Ha1 : Forall (fun e => is_ldap_add e = false) t1).
  { eapply Forall_impl; [|exact Hq]. apply quiet_ldap_add. }
  destruct o as [conn|e|].
  - assert (Hbody : ldaps_body respond fuel s
                    = (out_of (ldaps_create respond fuel conn s1),
                       state_of (ldaps_create respond fuel conn s1),
                       (t1 ++ trace_of (ldaps_create respond fuel conn s1))%list)).
    { unfold ldaps_body. erewrite bind_of_Ret; [|exact Es].
      rewrite bind_get_me, Hme, Hna, Hdel. reflexivity. }
    rewrite Hbody in Hfirst. cbn [trace_of snd] in Hfirst.
    rewrite first_reply_app, Ht1 in Hfirst.
    rewrite <- Hme in Hn.
    pose proof (ldaps_create_named fuel conn s1 n Hn) as Hc. cbn zeta in Hc.
    destruct (respond _ _ (world s1)) as [[e|[b0 cs0]] w].
    + rewrite Hc in Hfirst. discriminate Hfirst.
    + destruct (List.length (entries cs0) =? 1)%nat eqn:El.
      * rewrite guarded_run, Hbody, Hc.
        cbn [out_of state_of trace_of fst snd is_Exception str_exn].
        split; [reflexivity|]. split.
        -- apply Forall_app. split.
           ++ apply Forall_app. split; [exact Ha1 | repeat constructor].
           ++ destruct (debug _); repeat constructor.
        -- apply in_or_app. right.
           apply in_or_app. right. left. reflexivity.
      * destruct Hc as [rest Hc]. rewrite Hc in Hfirst.
        cbn in Hfirst. injection Hfirst as <- <-.
        rewrite Hlen in El. discriminate El.
  - assert (Hbody : ldaps_body respond fuel s = (Raise e, s1, t1)).
    { unfold ldaps_body. erewrite bind_of_Raise; [reflexivity | exact Es]. }
    rewrite Hbody in Hfirst. cbn [trace_of snd] in Hfirst.
    rewrite Ht1 in Hfirst. discriminate Hfirst.
  - assert (Hbody : ldaps_body respond fuel s = (Loop, s1, t1)).
    { unfold ldaps_body. erewrite bind_of_Loop; [reflexivity | exact Es]. }
    rewrite Hbody in Hfirst. cbn [trace_of snd] in Hfirst.
    rewrite Ht1 in Hfirst. discriminate Hfirst.
Qed.

(** The trace of [doSAMRAdd] once it has its DCE/RPC object: the guarded
    body, then what the [finally] block did. *)
Lemma doSAMRAdd_trace fuel t (s : St W) dce w :
  respond _ (get_dce_rpc t) (world s) = (inr dce, w) ->
  exists td,
    trace_of (doSAMRAdd respond fuel t s)
    = Ev (get_dce_rpc t) (inr dce)
      :: (trace_of (try_except (samr_body respond fuel dce) log_exception
                      (set_frame (set_world s w) (mk_Locals None None None)))
          ++ td)%list
    /\ Forall (fun e => quiet_samr e = true) td.
Proof.
  intros Hd. rewrite doSAMRAdd_run, Hd. cbn zeta.
  set (g := try_except _ _ _).
  pose proof (samr_teardown_quiet dce (state_of g)) as Hq. unfold only in Hq.
  destruct (out_of g).
  - eexists. split; [reflexivity | exact Hq].
  - eexists. split; [reflexivity | exact Hq].
  - exists []. rewrite app_nil_r. split; [reflexivity | constructor].
Qed.

(** Over SAMR: when the first name lookup of a create run for a given name
    returns, the run logs that the account exists and calls no create-user. *)
Lemma doSAMRAdd_existing_account fuel t (s : St W) n rids :
  __noAdd (me s) = false ->
  __delete (me s) = false ->
  __computerName (me s) = Some n ->
  first_reply lookup_reply (trace_of (doSAMRAdd respond fuel t s)) = Some (inr rids) ->
  Forall (fun e => is_create_user e = false) (trace_of (doSAMRAdd respond fuel t s))
  /\ In (Log CRITICAL (already_exists n)) (trace_of (doSAMRAdd respond fuel t s)).
Proof.
  intros Hna Hdel Hn Hfirst.
  destruct (respond _ (get_dce_rpc t) (world s)) as [[e|dce] w] eqn:Hd.
  { rewrite doSAMRAdd_run, Hd in Hfirst. discriminate Hfirst. }
  destruct (doSAMRAdd_trace fuel t s dce w Hd) as (td & Htrace & Htd).
  rewrite Htrace in *. clear Htrace.
  set (s0 := set_frame (set_world s w) (mk_Locals None None None)) in *.
  assert (Htd1 : first_reply lookup_reply td = None).
  { apply first_reply_none. eapply Forall_impl; [|exact Htd]. apply quiet_samr_lookup. }
  assert (Htd2 : Forall (fun e => is_create_user e = false) td).
  { eapply Forall_impl; [|exact Htd]. apply quiet_samr_create. }
  destruct (guarded_trace (samr_body respond fuel dce) s0) as (logs & Htr & Hlogs).
  assert (Hl : first_reply lookup_reply logs = None).
  { apply first_reply_none. eapply Forall_impl; [|exact Hlogs]. apply log_no_lookup. }
  cbn [first_reply lookup_reply] in Hfirst.
  rewrite Htr, !first_reply_app, Hl, Htd1 in Hfirst. clear Htr.
  pose proof (samr_open_quiet dce s0) as Hq.
  pose proof (samr_open_same_me dce s0) as Hme.
  unfold only in Hq. unfold same_me in Hme.
  destruct (samr_open respond dce s0) as [[o s1] t1] eqn:Eo.
  cbn [trace_of state_of fst snd] in Hq, Hme.
  change (me s0) with (me s) in Hme.
  assert (Ht1 : first_reply lookup_reply t1 = None).
  { apply first_reply_none. eapply Forall_impl; [|exact Hq]. apply quiet_samr_lookup. }
  assert (Hc1 : Forall (fun e => is_create_user e = false) t1).
  { eapply Forall_impl; [|exact Hq]. apply quiet_samr_create. }
  destruct o as [[dh sel]|e|].
  - set (K := bind (samr_create respond fuel dce dh)
                (fun uh => samr_apply respond dce dh uh)).
    assert (Hbody : samr_body respond fuel dce s0
                    = (out_of (K s1), state_of (K s1), (t1 ++ trace_of (K s1))%list)).
    { unfold samr_body. erewrite bind_of_Ret; [|exact Eo].
      cbn beta iota. rewrite bind_get_me, Hme, Hna, Hdel. reflexivity. }
    rewrite Hbody in Hfirst. cbn [trace_of snd] in Hfirst.
    rewrite first_reply_app, Ht1 in Hfirst.
    rewrite <- Hme in Hn.
    pose proof (samr_create_named fuel dce dh s1 n Hn) as Hc. cbn zeta in Hc.
    destruct (respond _ _ (world s1)) as [[e|rids0] w1].
    + destruct Hc as [rest Hc]. unfold K in Hfirst.
      rewrite trace_bind, Hc in Hfirst. discriminate Hfirst.
    + assert (HK : K s1 = (Raise (Exception (already_exists n)), set_world s1 w1,
                           [Ev (hSamrLookupNamesInDomain dce dh [Some n]) (inr rids0)])).
      { unfold K. erewrite bind_of_Raise; [reflexivity | exact Hc]. }
      rewrite guarded_run, Hbody, HK.
      cbn [out_of state_of trace_of fst snd is_Exception str_exn].
      split.
      * constructor; [reflexivity|].
        apply Forall_app. split; [|exact Htd2].
        apply Forall_app. split.
        -- apply Forall_app. split; [exact Hc1 | repeat constructor].
        -- destruct (debug _); repeat constructor.
      * right. apply in_or_app. left.
        apply in_or_app. right.
        apply in_or_app. right. left. reflexivity.
  - assert (Hbody : samr_body respond fuel dce s0 = (Raise e, s1, t1)).
    { unfold samr_body. erewrite bind_of_Raise; [reflexivity | exact Eo]. }
    rewrite Hbody in Hfirst. cbn [trace_of snd] in Hfirst.
    rewrite Ht1 in Hfirst. discriminate Hfirst.
  - assert (Hbody : samr_body respond fuel dce s0 = (Loop, s1, t1)).
    { unfold samr_body. erewrite bind_of_Loop; [reflexivity | exact Eo]. }
    rewrite Hbody in Hfirst. cbn [trace_of snd] in Hfirst.
    rewrite Ht1 in Hfirst. discriminate Hfirst.
Qed.

(** C8.  In a create run for a given computer name, when the account is
    found to exist, over LDAPS because the existence check finds exactly one
    entry, over SAMR because the name lookup returns, the engine logs that
    the account already exists and makes no add and no create-user call. *)
Theorem existing_account_is_not_created :
  forall fuel (s : St W) n,
    __noAdd (me s) = false ->
    __delete (me s) = false ->
    __computerName (me s) = Some n ->
    (forall b cs,
        first_reply search_reply (trace_of (run_ldaps respond fuel s))
        = Some (inr (b, cs)) ->
        List.length (entries cs) = 1%nat ->
        out_of (run_ldaps respond fuel s) = Ret tt
        /\ Forall (fun e => is_ldap_add e = false) (trace_of (run_ldaps respond fuel s))
        /\ In (Log CRITICAL (already_exists n)) (trace_of (run_ldaps respond fuel s)))
    /\ (forall t rids,
          first_reply lookup_reply (trace_of (doSAMRAdd respond fuel t s))
          = Some (inr rids) ->
          Forall (fun e => is_create_user e = false)
            (trace_of (doSAMRAdd respond fuel t s))
          /\ In (Log CRITICAL (already_exists n))
               (trace_of (doSAMRAdd respond fuel t s))).
Proof.
  intros fuel s n Hna Hdel Hn. split.
  - intros b cs. apply run_ldaps_existing_account; assumption.
  - intros t rids. apply doSAMRAdd_existing_account; assumption.
Qed.

End Exists.

(** ** The machine quota and the fallback *)

Section Quota.
Context {W : Type}.
Variable respond : forall R : Type, call R -> W -> (exn + R) * W.

Lemma quiet_add_reply e : quiet_add e = true -> add_reply e = None.
Proof. unfold quiet_add. destruct (add_reply e); [discriminate | reflexivity]. Qed.

Lemma quiet_add_attempt e : quiet_add e = true -> is_bypass_attempt e = false.
Proof.
  unfold quiet_add. destruct (add_reply e); [discriminate|].
  destruct (is_bypass_attempt e); [discriminate | reflexivity].
Qed.

Lemma bypass_attempts_app t1 t2 :
  bypass_attempts (t1 ++ t2) = (bypass_attempts t1 + bypass_attempts t2)%nat.
Proof. unfold bypass_attempts. rewrite filter_app, length_app. reflexivity. Qed.

Lemma bypass_attempts_none t :
  Forall (fun e => is_bypass_attempt e = false) t -> bypass_attempts t = 0%nat.
Proof.
  unfold bypass_attempts. induction 1 as [|e t He _ IH]; cbn; [reflexivity|].
  rewrite He. exact IH.
Qed.

Lemma bypass_attempts_quiet t :
  Forall (fun e => quiet_add e = true) t -> bypass_attempts t = 0%nat.
Proof.
  intros H. apply bypass_attempts_none.
  eapply Forall_impl; [|exact H]. apply quiet_add_attempt.
Qed.

Lemma bypass_attempts_logs t :
  Forall (fun e => is_call e = false) t -> bypass_attempts t = 0%nat.
Proof.
  intros H. apply bypass_attempts_none.
  eapply Forall_impl; [|exact H]. intros e He. destruct e; [discriminate|reflexivity..].
Qed.

(** One call of the fallback is one attempt. *)
Lemma bypass_attempted_once conn ucd (s : St W) :
  bypass_attempts (trace_of (bypass_with_msExchStorageGroup respond conn ucd s)) = 1%nat.
Proof.
  unfold bypass_with_msExchStorageGroup, log. rewrite bind_emit.
  cbn [trace_of snd]. rewrite bind_invoke.
  destruct (respond _ _ (world s)) as [[e|ctx] w]; [reflexivity|].
  cbn [trace_of snd].
  match goal with
  | |- bypass_attempts (_ :: _ :: trace_of (?k0 _)) = _ =>
      assert (Hk : sat (only (fun e => is_bypass_attempt e = false)) k0) by sat_auto
  end.
  specialize (Hk (set_world s w)). unfold only in Hk.
  apply bypass_attempts_none in Hk.
  unfold bypass_attempts in *. cbn [filter is_bypass_attempt List.length].
  rewrite Hk. reflexivity.
Qed.

(** The refused add of the computer entry (lines 307-320), when the result
    is "unwilling to perform" and the message starts with a hexadecimal
    number: with the number 0x216D the fallback is called if and only if the
    user name ends in [$]; with any other number the result is raised as it
    is. *)
Lemma ldaps_add_refused_unwilling conn ucd cs (s : St W) code :
  result (conn_result cs) = RESULT_UNWILLING_TO_PERFORM ->
  sub_code cs = Some code ->
  (code = 0x216D%Z ->
   bypass_attempts (trace_of (ldaps_add_refused respond conn ucd cs s))
   = (if endswith (__username (me s)) "$" then 1 else 0)%nat
   /\ In (Log CRITICAL ("User " ++ __username (me s) ++ " machine quota exceeded!"))
        (trace_of (ldaps_add_refused respond conn ucd cs s)))
  /\ (code <> 0x216D%Z ->
      ldaps_add_refused respond conn ucd cs s
      = (Raise (Exception (result_str (conn_result cs))), s, [])).
Proof.
  intros Hres Hcode. unfold sub_code in Hcode.
  unfold ldaps_add_refused. rewrite bind_get_me, Hres, Hcode.
  cbn [Z.eqb RESULT_UNWILLING_TO_PERFORM Pos.eqb].
  split.
  - intros ->. cbn [Z.eqb Pos.eqb]. unfold log. rewrite bind_emit.
    cbn [trace_of snd]. split; [|left; reflexivity].
    destruct (endswith (__username (me s)) "$").
    + rewrite bind_emit. cbn [trace_of snd]. rewrite trace_bind.
      match goal with
      | |- bypass_attempts (?a :: ?b :: ?t) = _ =>
          change (bypass_attempts (a :: b :: t)) with (bypass_attempts t)
      end.
      rewrite bypass_attempts_app, bypass_attempted_once.
      destruct (out_of _); reflexivity.
    + reflexivity.
  - intros Hne. destruct (code =? 0x216D)%Z eqn:E; [|reflexivity].
    apply Z.eqb_eq in E. contradiction.
Qed.

Lemma ldaps_session_no_add :
  sat (only (fun e => quiet_add e = true)) (ldaps_session respond).
Proof. sat_auto. Qed.

Lemma ldaps_existing_no_add conn :
  sat (only (fun e => quiet_add e = true)) (ldaps_existing respond conn).
Proof. sat_auto. Qed.

(** The create block of [run_ldaps] either makes no add, or makes the add
    of the computer entry after events that are no adds, and goes on by the
    answer: the error is raised, a refusal is handled by lines 307-320, a
    success is logged. *)
Lemma ldaps_create_shape fuel conn (s : St W) :
  Forall (fun e => quiet_add e = true) (trace_of (ldaps_create respond fuel conn s))
  \/ exists pre dn ucd (r : exn + bool * conn_state) s3 msg,
      Forall (fun e => quiet_add e = true) pre
      /\ set_computerName (me s3) None = set_computerName (me s) None
      /\ ldaps_create respond fuel conn s =
         match r with
         | inl e =>
             (Raise e, s3,
              (pre ++ [Ev (ldap_add conn dn computer_classes (computer_attrs ucd) None)
                         (inl e)])%list)
         | inr (res, cs) =>
             if res then
               (Ret tt, s3,
                (pre ++ [Ev (ldap_add conn dn computer_classes (computer_attrs ucd) None)
                           (inr (res, cs)); Log INFO msg])%list)
             else
               (out_of (ldaps_add_refused respond conn ucd cs s3),
                state_of (ldaps_add_refused respond conn ucd cs s3),
                (pre ++ Ev (ldap_add conn dn computer_classes (computer_attrs ucd) None)
                          (inr (res, cs))
                     :: trace_of (ldaps_add_refused respond conn ucd cs s3))%list)
         end.
Proof.
  unfold ldaps_create. rewrite bind_get_me.
  match goal with
  | |- context [bind ?pre0 ?tail0 s] =>
      assert (Hq : sat (only (fun e => quiet_add e = true)) pre0)
        by (destruct (__computerName (me s)); sat_auto);
      assert (Hn : sat same_but_name pre0)
        by (destruct (__computerName (me s)); sat_auto);
      specialize (Hq s); specialize (Hn s);
      destruct (pre0 s) as [[o s2] t2] eqn:Epre
  end.
  unfold only in Hq. unfold same_but_name in Hn.
  cbn [trace_of state_of fst snd] in Hq, Hn.
  destruct o as [u|e|].
  - erewrite bind_of_Ret; [|exact Epre]. rewrite bind_get_me.
    destruct (__computerName (me s2)) as [nm|] eqn:Enm; cbn [without_marker].
    + rewrite bind_ret. cbn zeta. rewrite bind_invoke.
      match goal with
      | |- context [respond _ (ldap_add conn ?dn0 _ (computer_attrs ?ucd0) None) _] =>
          set (dn := dn0); set (ucd := ucd0)
      end.
      destruct (respond _ _ (world s2)) as [[e|[res cs]] w] eqn:Er.
      * right. exists t2, dn, ucd, (inl e), (set_world s2 w), EmptyString.
        split; [exact Hq|]. split; [exact Hn|]. reflexivity.
      * right.
        exists t2, dn, ucd, (inr (res, cs)), (set_world s2 w),
          ("Successfully added machine account " ++ nm ++ " with password "
           ++ __computerPassword (me s2) ++ ".").
        split; [exact Hq|]. split; [exact Hn|].
        destruct res; cbn [negb]; reflexivity.
    + left. rewrite bind_raise. cbn [trace_of snd]. rewrite app_nil_r. exact Hq.
  - left. erewrite bind_of_Raise; [|exact Epre]. exact Hq.
  - left. erewrite bind_of_Loop; [|exact Epre]. exact Hq.
Qed.

Lemma same_but_name_username (x y : Self) :
  set_computerName x None = set_computerName y None -> __username x = __username y.
Proof. intros H. apply (f_equal __username) in H. exact H. Qed.

(** C2.  In a run over LDAPS, when the first add, the add of the computer
    entry, is refused with the result "unwilling to perform" and a message
    whose leading hexadecimal number is read as [code]: with [code] 0x216D
    the quota is reported at critical level and the fallback is attempted
    once if the user name ends in [$] and not at all otherwise; with any
    other [code] the fallback is not attempted, and the result is raised as a
    plain error, which the run logs at critical level. *)
Theorem quota_fallback_only_for_machine_accounts :
  forall fuel (s : St W) cs code,
    first_reply add_reply (trace_of (run_ldaps respond fuel s)) = Some (inr (false, cs)) ->
    result (conn_result cs) = RESULT_UNWILLING_TO_PERFORM ->
    sub_code cs = Some code ->
    (code = 0x216D%Z ->
     bypass_attempts (trace_of (run_ldaps respond fuel s))
     = (if endswith (__username (me s)) "$" then 1 else 0)%nat
     /\ In (Log CRITICAL ("User " ++ __username (me s) ++ " machine quota exceeded!"))
          (trace_of (run_ldaps respond fuel s)))
    /\ (code <> 0x216D%Z ->
        bypass_attempts (trace_of (run_ldaps respond fuel s)) = 0%nat
        /\ out_of (run_ldaps respond fuel s) = Ret tt
        /\ In (Log CRITICAL (result_str (conn_result cs)))
             (trace_of (run_ldaps respond fuel s))).
Proof.
  intros fuel s cs code Hfirst Hres Hcode. unfold run_ldaps in *.
  destruct (guarded_trace (ldaps_body respond fuel) s) as (logs & Htr & Hlogs).
  assert (Hl : first_reply add_reply logs = None).
  { apply first_reply_none. eapply Forall_impl; [|exact Hlogs].
    intros e He. destruct e; [discriminate|reflexivity..]. }
  pose proof (bypass_attempts_logs logs Hlogs) as Hl0.
  rewrite Htr, first_reply_app, Hl in Hfirst.
  pose proof (ldaps_session_no_add s) as Hq.
  pose proof (ldaps_session_same_me respond s) as Hme.
  unfold only in Hq. unfold same_me in Hme.
  destruct (ldaps_session respond s) as [[o s1] t1] eqn:Es.
  cbn [trace_of state_of fst snd] in Hq, Hme.
  assert (Ht1 : first_reply add_reply t1 = None).
  { apply first_reply_none. eapply Forall_impl; [|exact Hq]. apply quiet_add_reply. }
  pose proof (bypass_attempts_quiet t1 Hq) as Ht0.
  destruct o as [conn|e|].
  2:{ assert (Hbody : ldaps_body respond fuel s = (Raise e, s1, t1)).
      { unfold ldaps_body. erewrite bind_of_Raise; [reflexivity | exact Es]. }
      rewrite Hbody in Hfirst. cbn [trace_of snd] in Hfirst.
      rewrite Ht1 in Hfirst. discriminate Hfirst. }
  2:{ assert (Hbody : ldaps_body respond fuel s = (Loop, s1, t1)).
      { unfold ldaps_body. erewrite bind_of_Loop; [reflexivity | exact Es]. }
      rewrite Hbody in Hfirst. cbn [trace_of snd] in Hfirst.
      rewrite Ht1 in Hfirst. discriminate Hfirst. }
  destruct (__noAdd (me s) || __delete (me s)) eqn:Hflags.
  { assert (Hbody : ldaps_body respond fuel s
                    = (out_of (ldaps_existing respond conn s1),
                       state_of (ldaps_existing respond conn s1),
                       (t1 ++ trace_of (ldaps_existing respond conn s1))%list)).
    { unfold ldaps_body. erewrite bind_of_Ret; [|exact Es].
      rewrite bind_get_me, Hme, Hflags. reflexivity. }
    rewrite Hbody in Hfirst. cbn [trace_of snd] in Hfirst.
    rewrite first_reply_app, Ht1 in Hfirst.
    pose proof (ldaps_existing_no_add conn s1) as He. unfold only in He.
    rewrite first_reply_none in Hfirst; [discriminate Hfirst|].
    eapply Forall_impl; [|exact He]. apply quiet_add_reply. }
  assert (Hbody : ldaps_body respond fuel s
                  = (out_of (ldaps_create respond fuel conn s1),
                     state_of (ldaps_create respond fuel conn s1),
                     (t1 ++ trace_of (ldaps_create respond fuel conn s1))%list)).
  { unfold ldaps_body. erewrite bind_of_Ret; [|exact Es].
    rewrite bind_get_me, Hme, Hflags. reflexivity. }
  rewrite Hbody in Hfirst. cbn [trace_of snd] in Hfirst.
  rewrite first_reply_app, Ht1 in Hfirst.
  destruct (ldaps_create_shape fuel conn s1)
    as [Hnone | (pre & dn & ucd & r & s3 & msg & Hpre & Hname & Hc)].
  { rewrite first_reply_none in Hfirst; [discriminate Hfirst|].
    eapply Forall_impl; [|exact Hnone]. apply quiet_add_reply. }
  assert (Hp1 : first_reply add_reply pre = None).
  { apply first_reply_none. eapply Forall_impl; [|exact Hpre]. apply quiet_add_reply. }
  pose proof (bypass_attempts_quiet pre Hpre) as Hp0.
  assert (Huser : __username (me s3) = __username (me s)).
  { rewrite <- Hme. apply same_but_name_username. exact Hname. }
  destruct r as [e|[res cs0]].
  { rewrite Hc in Hfirst. cbn [trace_of snd] in Hfirst.
    rewrite first_reply_app, Hp1 in Hfirst. discriminate Hfirst. }
  destruct res.
  { rewrite Hc in Hfirst. cbn [trace_of snd] in Hfirst.
    rewrite first_reply_app, Hp1 in Hfirst. discriminate Hfirst. }
  rewrite Hc in Hfirst. cbn [trace_of snd] in Hfirst.
  rewrite first_reply_app, Hp1 in Hfirst. cbn in Hfirst.
  injection Hfirst as ->.
  destruct (ldaps_add_refused_unwilling conn ucd cs s3 code Hres Hcode) as [Hq1 Hq2].
  rewrite Huser in Hq1.
  split.
  - intros Hcd. destruct (Hq1 Hcd) as [Hcount Hin].
    rewrite Htr, Hbody, Hc. cbn [trace_of snd].
    split.
    + rewrite !bypass_attempts_app, Ht0, Hp0, Hl0.
      change (bypass_attempts (?a :: ?t)) with (bypass_attempts t).
      rewrite Hcount. lia.
    + apply in_or_app. left. apply in_or_app. right.
      apply in_or_app. right. right. exact Hin.
  - intros Hcd. specialize (Hq2 Hcd).
    rewrite Hq2 in Hc. cbn [out_of state_of trace_of fst snd] in Hc.
    rewrite guarded_run, Hbody, Hc.
    cbn [out_of state_of trace_of fst snd is_Exception str_exn].
    split; [|split; [reflexivity|]].
    + rewrite !bypass_attempts_app, Ht0, Hp0.
      destruct (debug _); reflexivity.
    + apply in_or_app. right. apply in_or_app. right. left. reflexivity.
Qed.

End Quota.

(** ** The handles of a successful create over SAMR *)

Section Create.
Context {W : Type}.
Variable respond : forall R : Type, call R -> W -> (exn + R) * W.

Lemma same_frame_sequential : sequential (@same_frame W).
Proof. split; unfold same_frame; intros; congruence. Qed.

Lemma same_frame_emit e : sat (@same_frame W) (emit e).
Proof. intro s. reflexivity. Qed.

Lemma same_frame_invoke {R} (c : call R) : sat same_frame (invoke respond c).
Proof.
  intro s. unfold invoke.
  destruct (respond R c (world s)) as [[e|r] w]; reflexivity.
Qed.

Lemma same_frame_put_me x : sat (@same_frame W) (put_me x).
Proof. intro s. reflexivity. Qed.

Lemma same_frame_choice seq : sat (@same_frame W) (choice seq).
Proof. intro s. unfold choice. destruct (get _ seq); reflexivity. Qed.

Hint Resolve same_frame_sequential same_frame_emit same_frame_invoke
  same_frame_put_me same_frame_choice : sat.

Lemma bind_invoke_Ret {R B} (c : call R) (f : R -> M W B) (s : St W) b s1 t :
  bind (invoke respond c) f s = (Ret b, s1, t) ->
  exists r w t',
    respond R c (world s) = (inr r, w)
    /\ f r (set_world s w) = (Ret b, s1, t')
    /\ t = Ev c (inr r) :: t'.
Proof.
  rewrite bind_invoke. destruct (respond R c (world s)) as [[e|r] w]; [discriminate|].
  intros H. exists r, w, (trace_of (f r (set_world s w))).
  split; [reflexivity|]. inversion H. split; [|reflexivity].
  rewrite (run_eta (f r (set_world s w))) at 1. reflexivity.
Qed.

Lemma bind_emit_Ret {B} e (f : unit -> M W B) (s : St W) b s1 t :
  bind (emit e) f s = (Ret b, s1, t) ->
  exists t', f tt s = (Ret b, s1, t') /\ t = e :: t'.
Proof.
  rewrite bind_emit. intros H. exists (trace_of (f tt s)).
  inversion H. split; [|reflexivity].
  rewrite (run_eta (f tt s)) at 1. reflexivity.
Qed.

(** When the selection of the domain returns, it has logged nothing and
    changed nothing. *)
Lemma samr_select_domain_Ret domains (s : St W) d s1 t :
  samr_select_domain domains s = (Ret d, s1, t) -> s1 = s /\ t = [].
Proof.
  unfold samr_select_domain.
  destruct (Nat.ltb 1 _).
  - rewrite bind_get_me.
    destruct (negb _).
    + unfold bind. cbn [log emit]. rewrite for_each_log. cbn. discriminate.
    + destruct (filter _ domains); cbn; intros H; inversion H; auto.
  - destruct (filter _ domains); cbn; intros H; inversion H; auto.
Qed.

(** When the opening of the server and of the domain returns, both handles
    are stored, and the domain handle returned is the one stored. *)
Lemma samr_open_Ret dce (s : St W) dh sel s1 t :
  samr_open respond dce s = (Ret (dh, sel), s1, t) ->
  exists sh,
    frame s1 = mk_Locals (Some sh) (Some dh) (userHandle (frame s))
    /\ me s1 = me s.
Proof.
  unfold samr_open. intros H.
  apply bind_invoke_Ret in H. destruct H as (u1 & w1 & t1 & _ & H & _).
  apply bind_invoke_Ret in H. destruct H as (u2 & w2 & t2 & _ & H & _).
  rewrite bind_get_me in H.
  apply bind_invoke_Ret in H. destruct H as (sh & w3 & t3 & _ & H & _).
  rewrite bind_set_servHandle in H.
  apply bind_invoke_Ret in H. destruct H as (domains & w4 & t4 & _ & H & _).
  apply bind_Ret in H. destruct H as (sel0 & s5 & t5 & t6 & Hsel & H & _).
  apply samr_select_domain_Ret in Hsel. destruct Hsel as [-> _].
  apply bind_invoke_Ret in H. destruct H as (sd & w6 & t7 & _ & H & _).
  rewrite bind_is_debug in H.
  assert (Hrest : exists t8,
             (domainHandle0 <- invoke respond (hSamrOpenDomain dce sh
                                 [DOMAIN_LOOKUP; DOMAIN_CREATE_USER] sd) ;;
              set_domainHandle (Some domainHandle0) ;;
              ret (domainHandle0, sel0))
               (set_world (set_world (set_frame (set_world (set_world (set_world s w1) w2) w3)
                  (mk_Locals (Some sh)
                     (domainHandle (frame (set_world (set_world (set_world s w1) w2) w3)))
                     (userHandle (frame (set_world (set_world (set_world s w1) w2) w3)))))
                  w4) w6)
             = (Ret (dh, sel), s1, t8)).
  { destruct (debug _); cbn [when] in H.
    - unfold log in H. apply bind_emit_Ret in H. destruct H as (t8 & H & _). eauto.
    - rewrite bind_ret in H. eauto. }
  destruct Hrest as (t8 & Hrest). clear H.
  apply bind_invoke_Ret in Hrest. destruct Hrest as (dh0 & w7 & t9 & _ & H & _).
  rewrite bind_set_domainHandle in H. cbn in H. inversion H; subst.
  exists sh. split; reflexivity.
Qed.

(** When the create block returns a handle, it is the handle create-user
    returned, and it is stored as the user handle. *)
Lemma samr_create_Ret fuel dce dh (s : St W) hc s1 t :
  samr_create respond fuel dce dh s = (Ret hc, s1, t) ->
  exists pre name,
    t = (pre ++ [Ev (hSamrCreateUser2InDomain dce dh name
                       USER_WORKSTATION_TRUST_ACCOUNT USER_FORCE_PASSWORD_CHANGE)
                    (inr hc)])%list
    /\ frame s1 = mk_Locals (servHandle (frame s)) (domainHandle (frame s)) (Some hc)
    /\ __noAdd (me s1) = __noAdd (me s)
    /\ __delete (me s1) = __delete (me s).
Proof.
  unfold samr_create. rewrite bind_get_me. intros H.
  apply bind_Ret in H. destruct H as (u & s2 & t2 & t3 & Hpre & H & ->).
  assert (Hfr : frame s2 = frame s).
  { match type of Hpre with
    | ?pre0 s = _ =>
        assert (Hq : sat same_frame pre0)
          by (destruct (__computerName (me s)); sat_auto);
        specialize (Hq s); rewrite Hpre in Hq; exact Hq
    end. }
  assert (Hme : set_computerName (me s2) None = set_computerName (me s) None).
  { match type of Hpre with
    | ?pre0 s = _ =>
        assert (Hq : sat same_but_name pre0)
          by (destruct (__computerName (me s)); sat_auto);
        specialize (Hq s); rewrite Hpre in Hq; exact Hq
    end. }
  rewrite bind_get_me in H.
  apply bind_invoke_Ret in H. destruct H as (h & w & t4 & _ & H & ->).
  rewrite bind_set_userHandle in H. cbn in H. inversion H; subst.
  exists t2, (__computerName (me s2)).
  split; [reflexivity|]. cbn. rewrite Hfr.
  split; [reflexivity|].
  split; [apply (f_equal __noAdd) in Hme | apply (f_equal __delete) in Hme]; exact Hme.
Qed.

(** When lines 429-446 return for a create, the password was set through
    the handle given, the account re-opened with MAXIMUM_ALLOWED, its
    account control set through the new handle, and the new handle stored. *)
Lemma samr_apply_Ret dce dh hc (s : St W) u s1 t :
  __noAdd (me s) = false ->
  __delete (me s) = false ->
  samr_apply respond dce dh hc s = (Ret u, s1, t) ->
  exists rids rid ho msg,
    t = [Ev (hSamrSetPasswordInternal4New dce hc (__computerPassword (me s))) (inr tt);
         Ev (hSamrLookupNamesInDomain dce dh [__computerName (me s)]) (inr rids);
         Ev (hSamrOpenUser dce dh MAXIMUM_ALLOWED rid) (inr ho);
         Ev (hSamrSetInformationUser2 dce ho USER_WORKSTATION_TRUST_ACCOUNT) (inr tt);
         Log INFO msg]
    /\ frame s1 = mk_Locals (servHandle (frame s)) (domainHandle (frame s)) (Some ho).
Proof.
  intros Hna Hdel. unfold samr_apply. rewrite bind_get_me, Hdel, Hna. intros H.
  apply bind_invoke_Ret in H. destruct H as ([] & w1 & t1 & _ & H & ->).
  apply bind_invoke_Ret in H. destruct H as (rids & w2 & t2 & _ & H & ->).
  destruct rids as [|rid rids]; [discriminate H|]. cbn [index0] in H.
  rewrite bind_ret in H.
  apply bind_invoke_Ret in H. destruct H as (ho & w3 & t3 & _ & H & ->).
  rewrite bind_set_userHandle in H.
  apply bind_invoke_Ret in H. destruct H as ([] & w4 & t4 & _ & H & ->).
  cbn in H. inversion H; subst.
  do 4 eexists. split; reflexivity.
Qed.

(** The [finally] block closes no handle but those held. *)
Lemma samr_teardown_closes_held dce (s : St W) e h :
  In e (trace_of (samr_teardown respond dce s)) ->
  closed_handle e = Some h ->
  In h (handles_of (frame s)).
Proof.
  unfold samr_teardown. rewrite bind_get_frame. unfold handles_of.
  destruct (frame s) as [[sh|] [dh|] [uh|]];
    cbn [userHandle domainHandle servHandle];
    unfold bind, invoke, ret; cbn;
    repeat (match goal with
            | |- context [respond ?R ?c ?w] =>
                destruct (respond R c w) as [[?|[]] ?]
            end; cbn);
    intros Hin Hc;
    repeat (destruct Hin as [<-|Hin]; [cbn in Hc; try discriminate Hc;
                                       injection Hc as <-; auto|]);
    contradiction.
Qed.

(** C10.  In a create run of [doSAMRAdd] whose guarded body returns, the
    handle [hc] returned by create-user is the one given to the password-set
    call; the user is then re-opened with MAXIMUM_ALLOWED, and the handle
    [ho] of that call replaces [hc] in the user-handle variable.  The body
    closes nothing, and every handle the [finally] block closes is [ho], the
    domain handle or the server handle: [hc] is given to close-handle only
    if it equals one of these. *)
Theorem create_handle_is_replaced_not_closed :
  forall fuel t (s : St W) dce w s1 body,
    __noAdd (me s) = false ->
    __delete (me s) = false ->
    respond _ (get_dce_rpc t) (world s) = (inr dce, w) ->
    samr_body respond fuel dce (set_frame (set_world s w) (mk_Locals None None None))
    = (Ret tt, s1, body) ->
    exists sh dh hc ho pre name pw rids rid msg td,
      body = (pre ++
              [Ev (hSamrCreateUser2InDomain dce dh name
                     USER_WORKSTATION_TRUST_ACCOUNT USER_FORCE_PASSWORD_CHANGE)
                  (inr hc);
               Ev (hSamrSetPasswordInternal4New dce hc pw) (inr tt);
               Ev (hSamrLookupNamesInDomain dce dh [name]) (inr rids);
               Ev (hSamrOpenUser dce dh MAXIMUM_ALLOWED rid) (inr ho);
               Ev (hSamrSetInformationUser2 dce ho USER_WORKSTATION_TRUST_ACCOUNT)
                  (inr tt);
               Log INFO msg])%list
      /\ frame s1 = mk_Locals (Some sh) (Some dh) (Some ho)
      /\ trace_of (doSAMRAdd respond fuel t s)
         = Ev (get_dce_rpc t) (inr dce) :: (body ++ td)%list
      /\ Forall (fun e => closed_handle e = None) body
      /\ Forall (fun e => forall h, closed_handle e = Some h ->
                                   h = ho \/ h = dh \/ h = sh) td.
Proof.
  intros fuel t s dce w s1 body Hna Hdel Hd Hbody.
  set (s0 := set_frame (set_world s w) (mk_Locals None None None)) in *.
  pose proof (samr_body_no_teardown respond fuel dce s0) as Hno.
  unfold only in Hno. rewrite guarded_run, Hbody in Hno.
  cbn [out_of trace_of fst snd] in Hno.
  assert (Htrace : trace_of (doSAMRAdd respond fuel t s)
                   = Ev (get_dce_rpc t) (inr dce)
                     :: (body ++ trace_of (samr_teardown respond dce s1))%list).
  { rewrite doSAMRAdd_run, Hd. cbn zeta. fold s0.
    rewrite guarded_run, Hbody. reflexivity. }
  unfold samr_body in Hbody.
  apply bind_Ret in Hbody.
  destruct Hbody as ([dh sel] & s2 & t1 & t2 & Hopen & Hrest & ->).
  destruct (samr_open_Ret dce s0 dh sel s2 t1 Hopen) as (sh & Hfr2 & Hme2).
  change (me s0) with (me s) in Hme2.
  rewrite bind_get_me, Hme2, Hna, Hdel in Hrest. cbn [orb] in Hrest.
  apply bind_Ret in Hrest.
  destruct Hrest as (hc & s3 & t3 & t4 & Hcreate & Happly & ->).
  destruct (samr_create_Ret fuel dce dh s2 hc s3 t3 Hcreate)
    as (pre & name & -> & Hfr3 & Hna3 & Hdel3).
  rewrite Hme2 in Hna3, Hdel3. rewrite Hna in Hna3. rewrite Hdel in Hdel3.
  destruct (samr_apply_Ret dce dh hc s3 tt s1 t4 Hna3 Hdel3 Happly)
    as (rids & rid & ho & msg & -> & Hfr1).
  rewrite Hfr3, Hfr2 in Hfr1. cbn in Hfr1.
  assert (Hname : __computerName (me s3) = name).
  { unfold samr_create in Hcreate. rewrite bind_get_me in Hcreate.
    apply bind_Ret in Hcreate.
    destruct Hcreate as (u & s4 & t5 & t6 & _ & Hc & E).
    rewrite bind_get_me in Hc.
    apply bind_invoke_Ret in Hc. destruct Hc as (h & w4 & t7 & _ & Hc & ->).
    rewrite bind_set_userHandle in Hc. cbn in Hc. inversion Hc; subst.
    apply app_inj_tail in E. destruct E as [_ E].
    inversion E. reflexivity. }
  exists sh, dh, hc, ho, (t1 ++ pre)%list, name, (__computerPassword (me s3)),
    rids, rid, msg, (trace_of (samr_teardown respond dce s1)).
  split.
  { rewrite Hname. rewrite <- !app_assoc. reflexivity. }
  split; [exact Hfr1|].
  split.
  { rewrite Htrace. reflexivity. }
  split.
  { eapply Forall_impl; [|exact Hno].
    intros e He. destruct e as [R c r| | |]; try reflexivity.
    destruct c; try reflexivity; discriminate He. }
  apply Forall_forall. intros e Hin h Hc.
  pose proof (samr_teardown_closes_held dce s1 e h Hin Hc) as Hh.
  rewrite Hfr1 in Hh. cbn in Hh.
  destruct Hh as [<-|[<-|[<-|[]]]]; auto.
Qed.

End Create.

(** ** The object the constructor builds *)

Section StringFacts.

Lemma append_nil_r (a : string) : a ++ "" = a.
Proof. induction a as [|c a IH]; cbn; [reflexivity | rewrite IH; reflexivity]. Qed.

Lemma append_assoc (a b c : string) : (a ++ b) ++ c = a ++ b ++ c.
Proof. induction a as [|x a IH]; cbn; [reflexivity | rewrite IH; reflexivity]. Qed.

(** The loop of lines 126-127 writes each label with [dc=] before it and a
    comma after it. *)
Lemma fold_dc (l : list string) (acc : string) :
  l <> [] ->
  fold_left (fun acc i => acc ++ "dc=" ++ i ++ ",") l acc
  = acc ++ join "," (map (append "dc=") l) ++ ",".
Proof.
  revert acc. induction l as [|a l IH]; intros acc Hl; [contradiction|].
  destruct l as [|b l].
  - cbn. reflexivity.
  - change (fold_left (fun acc i => acc ++ "dc=" ++ i ++ ",") (b :: l)
              (acc ++ "dc=" ++ a ++ ",")
            = acc ++ join "," (map (append "dc=") (a :: b :: l)) ++ ",").
    rewrite IH by discriminate.
    change (join "," (map (append "dc=") (a :: b :: l)))
      with (("dc=" ++ a) ++ "," ++ join "," (map (append "dc=") (b :: l))).
    rewrite !append_assoc. reflexivity.
Qed.

Lemma split_not_nil (c : ascii) (s : string) : split c s <> [].
Proof.
  destruct s as [|d s]; cbn; [discriminate|].
  destruct (Ascii.eqb d c); [discriminate|].
  destruct (split c s); discriminate.
Qed.

Lemma base_dn_of_labels (d : string) :
  drop_last (fold_left (fun acc i => acc ++ "dc=" ++ i ++ ",") (split "." d) "")
  = join "," (map (append "dc=") (split "." d)).
Proof.
  rewrite fold_dc by apply split_not_nil. cbn [append].
  apply drop_last_app_marker.
Qed.

End StringFacts.

Section Object.
Context {W : Type}.

Lemma unpack2_Ret (l : list string) a b (s0 s2 : St W) t0 :
  unpack2 l s0 = (Ret (a, b), s2, t0) -> l = [a; b].
Proof.
  destruct l as [|a0 [|b0 [|c0 l]]]; try discriminate.
  cbn. intros H. injection H as <- <- _ _. reflexivity.
Qed.

Lemma init_Ret u p d (o : Options) (s : St W) x :
  out_of (__init__ u p d o s) = Ret x ->
  exists lm nt,
    match hashes o with
    | None => lm = EmptyString /\ nt = EmptyString
    | Some h => split ":" h = [lm; nt]
    end
    /\ (method o =? "SAMR") || (method o =? "LDAPS") = true
    /\ k o && match dc_host o with None => true | Some _ => false end = false
    /\ match computer_pass o with
       | Some q => __computerPassword x = q
       | None => exists s0 : St W,
           out_of (random_string 32 (ascii_letters ++ digits) s0)
           = Ret (__computerPassword x)
       end
    /\ x = {| __username := u; __password := p; __domain := d;
              __lmhash := lm; __nthash := nt;
              __hashes :=
                if (lm =? "") && (String.length nt =? 32)%nat
                then Some (join ":" ["aad3b435b51404eeaad3b435b51404ee"; nt])
                else hashes o;
              __aesKey := aesKey o; __doKerberos := k o;
              __target := match dc_host o with Some t => t | None => d end;
              __kdcHost := match dc_ip o with Some ip => Some ip | None => dc_host o end;
              __computerName := __computerName x;
              __computerPassword := __computerPassword x; __method := method o;
              __port :=
                match port o with
                | Some q => Some q
                | None => if method o =? "SAMR" then Some 445%Z
                          else if method o =? "LDAPS" then Some 636%Z else None
                end;
              __domainNetbios :=
                match domain_netbios o with None => d | Some n => n end;
              __noAdd := no_add o; __delete := delete o; __targetIp := dc_ip o;
              __baseDN := init_baseDN d o;
              __computerGroup :=
                match computer_group o with
                | Some g => Some g
                | None =>
                    if method o =? "LDAPS"
                    then option_map (append "CN=Computers,") (init_baseDN d o)
                    else None
                end |}.
Proof.
  destruct (__init__ u p d o s) as [[r s'] t] eqn:E.
  cbn. intros ->. unfold __init__ in E.
  apply bind_Ret in E. destruct E as ([lm0 nt0] & s1 & t1 & t2 & Hh0 & E & _).
  destruct (negb ((method o =? "SAMR") || (method o =? "LDAPS"))) eqn:Hm.
  { destruct ((lm0 =? "") && (String.length nt0 =? 32)%nat); discriminate. }
  destruct (k o && match dc_host o with None => true | Some _ => false end) eqn:Hk.
  { destruct ((lm0 =? "") && (String.length nt0 =? 32)%nat); discriminate. }
  apply negb_false_iff in Hm.
  assert (Hlm : exists lm nt,
             match hashes o with
             | None => lm = EmptyString /\ nt = EmptyString
             | Some h => split ":" h = [lm; nt]
             end
             /\ (lm0, nt0) = (lm, nt)).
  { destruct (hashes o) as [h|].
    - apply unpack2_Ret in Hh0. eauto.
    - injection Hh0 as <- <- _ _. eauto. }
  destruct Hlm as (lm & nt & Hsplit & Heq). injection Heq as -> ->.
  exists lm, nt. split; [exact Hsplit|]. split; [exact Hm|]. split; [reflexivity|].
  destruct ((lm =? "") && (String.length nt =? 32)%nat) eqn:Hc;
    (apply bind_Ret in E; destruct E as (u1 & s2 & t3 & t4 & _ & E & _);
     apply bind_Ret in E; destruct E as ([lm2 nt2] & s3 & t5 & t6 & Hh2 & E & _);
     apply bind_Ret in E; destruct E as (cn & s4 & t7 & t8 & Hcn & E & _);
     apply bind_Ret in E; destruct E as (pw & s5 & t9 & t10 & Hpw & E & _);
     apply bind_Ret in E; destruct E as (tg & s6 & t11 & t12 & Htg & E & _);
     apply bind_Ret in E; destruct E as (cg & s7 & t13 & t14 & Hcg & E & _);
     injection E as <- _ _; cbn [__computerPassword __computerName];
     assert (Hlm2 : (lm2, nt2) = (lm, nt));
     [ destruct (hashes o) as [h|];
       [ apply unpack2_Ret in Hh2; rewrite Hsplit in Hh2; injection Hh2 as <- <-;
         reflexivity
       | destruct Hsplit as [-> ->]; try discriminate Hc;
         injection Hh2 as <- <- _ _; reflexivity ]
     | injection Hlm2 as -> -> ];
     assert (Htg' : tg = match dc_host o with Some t => t | None => d end);
     [ destruct (dc_host o);
       [ injection Htg as <- _ _; reflexivity
       | unfold bind, when in Htg; destruct (negb (contains "." d));
         cbn in Htg; injection Htg as <- _ _; reflexivity ]
     | subst tg ];
     assert (Hcg' : cg = match computer_group o with
                         | Some g => Some g
                         | None =>
                             if method o =? "LDAPS"
                             then option_map (append "CN=Computers,") (init_baseDN d o)
                             else None
                         end);
     [ unfold init_baseDN; destruct (computer_group o);
       [ injection Hcg as <- _ _; reflexivity
       | destruct (method o =? "LDAPS");
         [ destruct (baseDN o); injection Hcg as <- _ _; reflexivity
         | injection Hcg as <- _ _; reflexivity ] ]
     | subst cg ];
     split;
     [ destruct (computer_pass o);
       [ injection Hpw as <- _ _; reflexivity
       | exists s4; exact (f_equal out_of Hpw) ]
     | reflexivity ]).
Qed.

(** X1.  The port of a constructed object is the one given; when none is
    given it is 445 over SAMR and 636 over LDAPS.  It is never left
    undefined. *)
Theorem init_port_default :
  forall u p d (o : Options) (s : St W) (x : Self),
    out_of (__init__ u p d o s) = Ret x ->
    __port x = Some (match port o with
                     | Some q => q
                     | None => if method o =? "SAMR" then 445%Z else 636%Z
                     end).
Proof.
  intros u p d o s x Hx.
  destruct (init_Ret u p d o s x Hx) as (lm & nt & _ & Hm & _ & _ & ->).
  cbn [__port]. destruct (port o); [reflexivity|].
  destruct (method o =? "SAMR"); [reflexivity|].
  cbn [orb] in Hm. rewrite Hm. reflexivity.
Qed.

(** X2.  Over LDAPS a constructed object always has a base DN and a
    computer group: those given, or else the labels of the domain each
    written [dc=label] and joined by commas, and [CN=Computers,] followed by
    the base DN.  Over SAMR both are left as given. *)
Theorem init_base_dn_and_group :
  forall u p d (o : Options) (s : St W) (x : Self),
    out_of (__init__ u p d o s) = Ret x ->
    (method o = "LDAPS" ->
     let base := match baseDN o with
                 | Some b => b
                 | None => join "," (map (append "dc=") (split "." d))
                 end in
     __baseDN x = Some base
     /\ __computerGroup x = Some (match computer_group o with
                                  | Some g => g
                                  | None => "CN=Computers," ++ base
                                  end))
    /\ (method o = "SAMR" ->
        __baseDN x = baseDN o /\ __computerGroup x = computer_group o).
Proof.
  intros u p d o s x Hx.
  destruct (init_Ret u p d o s x Hx) as (lm & nt & _ & _ & _ & _ & ->).
  cbn [__baseDN __computerGroup]. unfold init_baseDN. split.
  - intros ->. cbn zeta. cbn [String.eqb Ascii.eqb Bool.eqb].
    rewrite base_dn_of_labels.
    destruct (baseDN o), (computer_group o); split; reflexivity.
  - intros ->. cbn [String.eqb Ascii.eqb Bool.eqb].
    destruct (baseDN o), (computer_group o); split; reflexivity.
Qed.

(** X3.  With [-hashes LM:NT] the object keeps the two halves as they were
    given.  When the LM half is empty and the NT half has 32 characters, the
    pair used to authenticate over LDAPS gets the empty-password LM hash in
    front, while the LM hash attribute itself stays empty. *)
Theorem init_hashes_split :
  forall u p d (o : Options) (s : St W) (x : Self) (h : string),
    out_of (__init__ u p d o s) = Ret x ->
    hashes o = Some h ->
    exists lm nt,
      split ":" h = [lm; nt]
      /\ __lmhash x = lm
      /\ __nthash x = nt
      /\ __hashes x
         = Some (if (lm =? "") && (String.length nt =? 32)%nat
                 then "aad3b435b51404eeaad3b435b51404ee:" ++ nt
                 else h).
Proof.
  intros u p d o s x h Hx Hh.
  destruct (init_Ret u p d o s x Hx) as (lm & nt & Hs & _ & _ & _ & ->).
  rewrite Hh in Hs. exists lm, nt. cbn [__lmhash __nthash __hashes].
  repeat split; auto.
  destruct ((lm =? "") && (String.length nt =? 32)%nat); [reflexivity|].
  exact Hh.
Qed.

(** X4.  The computer password of a constructed object is the one given;
    when none is given it has 32 characters, each an ASCII letter or a
    digit. *)
Theorem init_computer_password :
  forall u p d (o : Options) (s : St W) (x : Self),
    out_of (__init__ u p d o s) = Ret x ->
    match computer_pass o with
    | Some q => __computerPassword x = q
    | None =>
        String.length (__computerPassword x) = 32%nat
        /\ Forall (fun c => In c (list_ascii_of_string (ascii_letters ++ digits)))
             (list_ascii_of_string (__computerPassword x))
    end.
Proof.
  intros u p d o s x Hx.
  destruct (init_Ret u p d o s x Hx) as (lm & nt & _ & _ & _ & Hpw & _).
  destruct (computer_pass o); [exact Hpw|].
  destruct Hpw as [s0 Hs0].
  destruct (random_string_spec 32 (ascii_letters ++ digits) s0)
    as (r & s' & E & Hl & Hall & _); [cbn; lia|].
  rewrite E in Hs0. injection Hs0 as <-. auto.
Qed.

End Object.

Section Script.
Context {W : Type}.
Variable respond : forall R : Type, call R -> W -> (exn + R) * W.

(** X5.  An unsupported method, Kerberos without [-dc-host], or hashes that
    do not split at the colon into exactly two parts: the constructor raises
    a ValueError whatever the other options are (a missing or an empty
    computer name included), before it has logged a line, drawn a password
    or called a collaborator. *)
Theorem bad_options_rejected_before_any_call :
  forall u p d (o : Options) (s : St W),
    (method o <> "SAMR" /\ method o <> "LDAPS")
    \/ (k o = true /\ dc_host o = None)
    \/ (exists h, hashes o = Some h /\ List.length (split ":" h) <> 2%nat) ->
    exists msg, __init__ u p d o s = (Raise (ValueError msg), s, []).
Proof.
  intros u p d o s Hbad.
  assert (Hfirst :
    (exists msg,
        match hashes o with
        | Some h => unpack2 (split ":" h)
        | None => ret (EmptyString, EmptyString)
        end s = (Raise (ValueError msg), s, []))
    \/ (exists lm nt,
           match hashes o with
           | Some h => unpack2 (split ":" h)
           | None => ret (EmptyString, EmptyString)
           end s = (Ret (lm, nt), s, [])
           /\ forall h, hashes o = Some h -> List.length (split ":" h) = 2%nat)).
  { destruct (hashes o) as [h|].
    - destruct (split ":" h) as [|a [|b [|c l]]] eqn:Hs; cbn.
      + left. eexists. reflexivity.
      + left. eexists. reflexivity.
      + right. exists a, b. split; [reflexivity|]. intros h0 H. injection H as <-.
        rewrite Hs. reflexivity.
      + left. eexists. reflexivity.
    - right. exists EmptyString, EmptyString. split; [reflexivity | discriminate]. }
  unfold __init__.
  destruct Hfirst as [[msg E]|(lm & nt & E & Hlen)].
  { eexists. erewrite bind_of_Raise; [reflexivity | exact E]. }
  erewrite bind_of_Ret; [|exact E].
  destruct (negb ((method o =? "SAMR") || (method o =? "LDAPS"))) eqn:Hm.
  { destruct ((lm =? "") && (String.length nt =? 32)%nat); eexists; reflexivity. }
  destruct (k o && match dc_host o with None => true | Some _ => false end) eqn:Hk.
  { destruct ((lm =? "") && (String.length nt =? 32)%nat); eexists; reflexivity. }
  exfalso. destruct Hbad as [[H1 H2]|[[H1 H2]|(h0 & H1 & H2)]].
  - apply negb_false_iff, orb_true_iff in Hm.
    destruct Hm as [H|H]; apply String.eqb_eq in H; contradiction.
  - rewrite H1, H2 in Hk. discriminate.
  - apply H2, Hlen, H1.
Qed.

(** What the script's last lines do with the way the construction and the
    run ended. *)
Lemma main_run fuel u p d (o : Options) (s : St W) :
  d <> EmptyString ->
  main respond fuel u p d o s =
    match out_of (main_body respond fuel u p d o s) with
    | Raise e =>
        if is_Exception e then
          (Ret tt, state_of (main_body respond fuel u p d o s),
           (trace_of (main_body respond fuel u p d o s)
            ++ (if debug (state_of (main_body respond fuel u p d o s))
                then [Traceback e] else [])
            ++ [Stdout (str_exn e)])%list)
        else main_body respond fuel u p d o s
    | _ => main_body respond fuel u p d o s
    end.
Proof.
  intros Hd. unfold main. destruct (String.eqb_spec d ""); [contradiction|].
  rewrite try_except_run. fold (main_body respond fuel u p d o).
  destruct (out_of (main_body respond fuel u p d o s)) as [a|e|]; try reflexivity.
  destruct (is_Exception e); [|reflexivity].
  rewrite bind_is_debug.
  destruct (debug (state_of (main_body respond fuel u p d o s))); reflexivity.
Qed.

(** X6.  Lines 532-543, the end of the script, given the identity and the
    options that the lines before have parsed.  Nothing of class
    [Exception] leaves these lines: without a domain they log one critical
    line and exit with status 1, and otherwise an [Exception] raised by the
    constructor or by the run, the ones [run_samr] lets through included, is
    printed, after a traceback at debug level only, and the lines end
    normally. *)
Theorem main_prints_every_exception :
  forall fuel u p d (o : Options) (s : St W),
    (forall e, out_of (main respond fuel u p d o s) = Raise e -> is_Exception e = false)
    /\ (d = EmptyString ->
        main respond fuel u p d o s
        = (Raise (SystemExit 1), s, [Log CRITICAL "Domain should be specified!"]))
    /\ (forall e s1 t1,
          d <> EmptyString ->
          main_body respond fuel u p d o s = (Raise e, s1, t1) ->
          is_Exception e = true ->
          main respond fuel u p d o s
          = (Ret tt, s1,
             (t1 ++ (if debug s1 then [Traceback e] else [])
                 ++ [Stdout (str_exn e)])%list)).
Proof.
  intros fuel u p d o s. split; [|split].
  - intros e. destruct (String.eqb_spec d "") as [->|Hd].
    + cbn. intros H. injection H as <-. reflexivity.
    + rewrite main_run by exact Hd.
      destruct (out_of (main_body respond fuel u p d o s)) as [a|e0|] eqn:E.
      * rewrite E. discriminate.
      * destruct (is_Exception e0) eqn:Ee; [discriminate|].
        rewrite E. intros H. injection H as <-. exact Ee.
      * rewrite E. discriminate.
  - intros ->. reflexivity.
  - intros e s1 t1 Hd E He. rewrite main_run by exact Hd.
    rewrite E. cbn [out_of state_of trace_of fst snd]. rewrite He. reflexivity.
Qed.

End Script.

(** ** What a run never does, by the options given *)

Section Guards.
Context {W : Type}.
Variable respond : forall R : Type, call R -> W -> (exn + R) * W.
Variable J : Self -> Prop.
Variable P : event -> Prop.
Hypothesis Jname : forall x n, J (set_computerName x n) = J x.

Lemma guards_sequential : sequential (@guards W J P).
Proof.
  split; unfold guards.
  - intros s H. split; [constructor | exact H].
  - intros s t1 s1 t2 s2 H1 H2 H. destruct (H1 H) as [Ha Hb].
    destruct (H2 Hb) as [Hc Hd]. split; [apply Forall_app; auto | exact Hd].
Qed.

Lemma guards_emit e : P e -> sat (@guards W J P) (emit e).
Proof. intros He s H. cbn. auto. Qed.

Lemma guards_log l msg : P (Log l msg) -> sat (@guards W J P) (log l msg).
Proof. apply guards_emit. Qed.

Lemma guards_invoke {R} (c : call R) :
  (forall r, P (Ev c r)) -> sat (guards J P) (invoke respond c).
Proof.
  intros Hc s H. unfold invoke.
  destruct (respond R c (world s)) as [[e|r] w]; cbn; auto.
Qed.

Lemma guards_put_frame l : sat (@guards W J P) (put_frame l).
Proof. intros s H. cbn. auto. Qed.

Lemma guards_set_servHandle h : sat (@guards W J P) (set_servHandle h).
Proof. intros s H. cbn. auto. Qed.

Lemma guards_set_domainHandle h : sat (@guards W J P) (set_domainHandle h).
Proof. intros s H. cbn. auto. Qed.

Lemma guards_set_userHandle h : sat (@guards W J P) (set_userHandle h).
Proof. intros s H. cbn. auto. Qed.

Lemma guards_choice seq : sat (@guards W J P) (choice seq).
Proof. intros s H. unfold choice. destruct (get _ seq); cbn; auto. Qed.

Lemma guards_assign n : sat (@guards W J P) (assign_computerName n).
Proof. intros s H. cbn. rewrite Jname. auto. Qed.

(** What the object holds is known to what follows the reading of it. *)
Lemma guards_get_me_bind {B} (f : Self -> M W B) :
  (forall x, J x -> sat (guards J P) (f x)) -> sat (guards J P) (bind get_me f).
Proof. intros H s HJ. rewrite bind_get_me. exact (H (me s) HJ s HJ). Qed.

End Guards.

#[export] Hint Resolve guards_sequential guards_emit guards_log guards_invoke
  guards_put_frame guards_set_servHandle guards_set_domainHandle
  guards_set_userHandle guards_choice guards_assign : sat.

(** A step that keeps what is known of the object, or else a step of
    [sat_step]. *)
Ltac guards_step :=
  match goal with
  | |- sat (guards _ _) (bind get_me _) =>
      let x := fresh "x" in
      let Hx := fresh "Hx" in
      apply guards_get_me_bind; intros x Hx; cbv beta in Hx
  | H : ?b = _ |- sat _ (if ?b then _ else _) => rewrite H
  | H : ?b = _ |- sat _ (if negb ?b then _ else _) => rewrite H; cbn [negb]
  | _ => sat_step
  end.

Ltac guards_auto := repeat guards_step.

Section Safety.
Context {W : Type}.
Variable respond : forall R : Type, call R -> W -> (exn + R) * W.

(** X7.  A run without [-delete] never calls [ldapConn.delete] nor
    [hSamrDeleteUser], whatever the servers answer. *)
Theorem run_deletes_only_when_asked :
  forall fuel (s : St W),
    __delete (me s) = false ->
    Forall (fun e => is_delete_call e = false) (trace_of (run respond fuel s)).
Proof.
  intros fuel s H.
  assert (Hr : sat (guards (fun x => __delete x = false)
                      (fun e => is_delete_call e = false)) (run respond fuel))
    by guards_auto.
  exact (proj1 (Hr s H)).
Qed.

(** X8.  A run with [-no-add] or [-delete] never adds an entry nor creates a
    user: it only works on an account that is there. *)
Theorem run_creates_only_when_asked :
  forall fuel (s : St W),
    __noAdd (me s) || __delete (me s) = true ->
    Forall (fun e => is_create_call e = false) (trace_of (run respond fuel s)).
Proof.
  intros fuel s H.
  assert (Hr : sat (guards (fun x => __noAdd x || __delete x = true)
                      (fun e => is_create_call e = false)) (run respond fuel))
    by guards_auto.
  exact (proj1 (Hr s H)).
Qed.

(** X9.  A run with [-delete] never sets a password, also when [-no-add] is
    given with it. *)
Theorem run_with_delete_sets_no_password :
  forall fuel (s : St W),
    __delete (me s) = true ->
    Forall (fun e => is_password_call e = false) (trace_of (run respond fuel s)).
Proof.
  intros fuel s H.
  assert (Hr : sat (guards (fun x => __delete x = true)
                      (fun e => is_password_call e = false)) (run respond fuel))
    by guards_auto.
  exact (proj1 (Hr s H)).
Qed.

(** X10.  The method chosen decides which libraries are called.  A run over
    SAMR makes no call to [ldap3] and none to [ldap3_kerberos_login]; a run
    over LDAPS makes no call to [epm], [transport] or [samr], nor to a
    transport or DCE/RPC object; and with any other method [run] does
    nothing at all. *)
Theorem run_keeps_to_its_method :
  forall fuel (s : St W),
    (__method (me s) = "SAMR" ->
     Forall (fun e => is_ldap_call e || is_kerberos_login_call e = false)
       (trace_of (run respond fuel s)))
    /\ (__method (me s) = "LDAPS" ->
        Forall (fun e => is_rpc_call e = false) (trace_of (run respond fuel s)))
    /\ (__method (me s) <> "SAMR" -> __method (me s) <> "LDAPS" ->
        run respond fuel s = (Ret tt, s, [])).
Proof.
  intros fuel s. unfold run. rewrite bind_get_me. repeat split.
  - intros ->. cbn [String.eqb Ascii.eqb Bool.eqb].
    assert (Hr : sat (only (fun e => is_ldap_call e || is_kerberos_login_call e = false))
                   (run_samr respond fuel))
      by sat_auto.
    apply Hr.
  - intros ->. cbn [String.eqb Ascii.eqb Bool.eqb].
    assert (Hr : sat (only (fun e => is_rpc_call e = false)) (run_ldaps respond fuel))
      by sat_auto.
    apply Hr.
  - intros H1 H2.
    destruct (String.eqb_spec (__method (me s)) "SAMR"); [contradiction|].
    destruct (String.eqb_spec (__method (me s)) "LDAPS"); [contradiction|].
    reflexivity.
Qed.

End Safety.

(** ** The LDAPS engine, step by step *)

(** Finding a line in a trace made of appended pieces. *)
Ltac find_in n :=
  lazymatch n with
  | O => fail
  | S ?k =>
      first [ left; reflexivity
            | solve [apply in_or_app; left; find_in k]
            | solve [apply in_or_app; right; find_in k]
            | solve [right; find_in k]
            | solve [destruct (debug _); find_in k] ]
  end.

Section Ldaps.
Context {W : Type}.
Variable respond : forall R : Type, call R -> W -> (exn + R) * W.

Lemma existsb_Forall_false {A} (f : A -> bool) (l : list A) :
  Forall (fun a => f a = false) l -> existsb f l = false.
Proof.
  induction 1 as [|a l Ha _ IH]; cbn; [reflexivity|]. rewrite Ha. exact IH.
Qed.

(** A guarded block ends in the state its body ended in. *)
Lemma guarded_state (m : M W unit) (s : St W) :
  state_of (try_except m log_exception s) = state_of (m s).
Proof.
  rewrite guarded_run. destruct (out_of (m s)) as [a|e|]; try reflexivity.
  destruct (is_Exception e); reflexivity.
Qed.

(** The body of [run_ldaps] opens the session, which leaves the object as it
    is, and goes on, by the options, with the account that is there or with
    the creation of one. *)
Lemma ldaps_body_cases fuel (s : St W) :
  exists o s1 t1,
    ldaps_session respond s = (o, s1, t1)
    /\ me s1 = me s
    /\ Forall (fun e => is_session_call e = true) t1
    /\ match o with
       | Ret conn =>
           let K := if __noAdd (me s) || __delete (me s)
                    then ldaps_existing respond conn
                    else ldaps_create respond fuel conn in
           ldaps_body respond fuel s
           = (out_of (K s1), state_of (K s1), (t1 ++ trace_of (K s1))%list)
       | Raise e => ldaps_body respond fuel s = (Raise e, s1, t1)
       | Loop => ldaps_body respond fuel s = (Loop, s1, t1)
       end.
Proof.
  assert (Hq : sat (only (fun e => is_session_call e = true)) (ldaps_session respond))
    by sat_auto.
  pose proof (ldaps_session_same_me respond s) as Hme.
  specialize (Hq s). unfold only in Hq. unfold same_me in Hme.
  destruct (ldaps_session respond s) as [[o s1] t1] eqn:Es.
  cbn [trace_of state_of fst snd] in Hq, Hme.
  exists o, s1, t1. split; [reflexivity|]. split; [exact Hme|]. split; [exact Hq|].
  unfold ldaps_body. destruct o as [conn|e|].
  - erewrite bind_of_Ret; [|exact Es]. rewrite bind_get_me, Hme.
    cbn zeta. destruct (__noAdd (me s) || __delete (me s)); reflexivity.
  - erewrite bind_of_Raise; [reflexivity | exact Es].
  - erewrite bind_of_Loop; [reflexivity | exact Es].
Qed.

Lemma same_but_name_fields (x y : Self) :
  set_computerName x None = set_computerName y None ->
  __domain x = __domain y /\ __computerPassword x = __computerPassword y
  /\ __computerGroup x = __computerGroup y /\ __baseDN x = __baseDN y.
Proof.
  intros H. repeat split.
  - apply (f_equal __domain) in H. exact H.
  - apply (f_equal __computerPassword) in H. exact H.
  - apply (f_equal __computerGroup) in H. exact H.
  - apply (f_equal __baseDN) in H. exact H.
Qed.

Lemma Forall_app_l {A} (P : A -> Prop) (l1 l2 : list A) :
  Forall P (l1 ++ l2) -> Forall P l1.
Proof. intros H. apply Forall_app in H. tauto. Qed.

Lemma ldaps_create_entry fuel conn (s : St W) :
  let r := ldaps_create respond fuel conn s in
  Forall (fun e => is_ldap_add e = false) (trace_of r)
  \/ exists pre n b cs rep rest,
      trace_of r
      = (pre ++ Ev (ldap_search conn (__baseDN (me s))
                     ("(sAMAccountName=" ++ n ++ ")") SUBTREE []) (inr (b, cs))
             :: Ev (ldap_add conn (computer_dn (me s) n) computer_classes
                      (computer_attrs (computer_entry (me s) n)) None) rep
             :: rest)%list
      /\ Forall (fun e => is_ldap_add e = false) pre
      /\ (List.length (entries cs) =? 1)%nat = false
      /\ __computerName (me (state_of r)) = Some n.
Proof.
  cbn zeta. unfold ldaps_create. rewrite bind_get_me.
  match goal with
  | |- context [bind ?pre0 ?tail0 s] =>
      set (chk := pre0); set (tl := tail0);
      assert (Hq : sat (only (fun e => is_ldap_add e = false)) chk)
        by (unfold chk; destruct (__computerName (me s)); sat_auto);
      assert (Htl : forall u, sat same_me (tl u))
        by (unfold tl; sat_auto);
      assert (Hchk : forall u s2 t2,
                 chk s = (Ret u, s2, t2) ->
                 exists n pre b cs,
                   __computerName (me s2) = Some n
                   /\ t2 = (pre ++ [Ev (ldap_search conn (__baseDN (me s))
                                         ("(sAMAccountName=" ++ n ++ ")") SUBTREE [])
                                      (inr (b, cs))])%list
                   /\ (List.length (entries cs) =? 1)%nat = false
                   /\ set_computerName (me s2) None = set_computerName (me s) None)
  end.
  { intros u s2 t2 E. unfold chk in E.
    destruct (__computerName (me s)) as [n|] eqn:En.
    - pose proof (LDAPComputerExists_step respond conn (Some n) s) as Hstep.
      cbn zeta in Hstep. cbn [fmt] in Hstep.
      destruct (respond _ _ (world s)) as [[e|[b cs]] w].
      + erewrite bind_of_Raise in E; [discriminate E | exact Hstep].
      + erewrite bind_of_Ret in E; [|exact Hstep].
        destruct (List.length (entries cs) =? 1)%nat eqn:El; [discriminate E|].
        cbn in E. injection E as _ <- <-.
        exists n, [], b, cs. cbn [me set_world]. auto.
    - destruct (ldaps_find_unused_spec respond fuel conn s u s2 t2 E)
        as (n & pre & b & cs & Hn & _ & Ht & Hl & Hsame & _).
      exists n, pre, b, cs. auto. }
  specialize (Hq s). unfold only in Hq.
  destruct (chk s) as [[[u|e|] s2] t2] eqn:Ec; cbn [trace_of snd] in Hq.
  2:{ left. erewrite bind_of_Raise; [|exact Ec]. exact Hq. }
  2:{ left. erewrite bind_of_Loop; [|exact Ec]. exact Hq. }
  destruct (Hchk u s2 t2 eq_refl) as (n & pre & b & cs & Hn & Ht & Hl & Hsame).
  destruct (same_but_name_fields _ _ Hsame) as (Hd & Hp & Hg & Hb).
  right. erewrite bind_of_Ret; [|exact Ec].
  cbn [trace_of state_of fst snd].
  specialize (Htl u s2). unfold same_me in Htl.
  exists pre, n, b, cs.
  unfold tl in *. rewrite bind_get_me in *. rewrite Hn in *.
  cbn [without_marker] in *. rewrite bind_ret in *. cbn zeta in *.
  rewrite Hd, Hp, Hg in Htl. rewrite Hd, Hp, Hg.
  change ("CN=" ++ drop_last n ++ "," ++ fmt (__computerGroup (me s)))
    with (computer_dn (me s) n) in *.
  match goal with
  | |- context [computer_attrs ?u0] =>
      change u0 with (computer_entry (me s) n) in *
  end.
  rewrite bind_invoke in *.
  destruct (respond _ _ (world s2)) as [[e|[res cs0]] w].
  - exists (inl e), []. cbn [trace_of state_of fst snd] in *.
    rewrite Ht, <- app_assoc. cbn [app].
    split; [reflexivity|]. split; [eapply Forall_app_l; rewrite <- Ht; exact Hq|].
    split; [exact Hl|]. exact Hn.
  - eexists (inr (res, cs0)), _. cbn [trace_of state_of fst snd] in *.
    rewrite Ht, <- app_assoc. cbn [app].
    split; [reflexivity|]. split; [eapply Forall_app_l; rewrite <- Ht; exact Hq|].
    split; [exact Hl|]. rewrite Htl. exact Hn.
Qed.

Lemma session_call_no_add e : is_session_call e = true -> is_ldap_add e = false.
Proof. destruct e as [R c r| | |]; [destruct c|..]; cbn; congruence. Qed.

Lemma log_no_add e : is_call e = false -> is_ldap_add e = false.
Proof. destruct e; [discriminate | reflexivity..]. Qed.

(** X11.  Whenever a run over LDAPS adds an entry, the first entry it adds
    is the computer entry: its [sAMAccountName] is the computer name the
    object ends with, its DN is [CN=] the name without the final character,
    in the computer group, it carries the four default SPNs, the DNS host
    name, the account control 0x1000 and the quoted password in UTF-16; and
    the call just before the add was the search for that very name, which
    did not find exactly one entry. *)
Theorem ldaps_adds_the_entry_it_checked :
  forall fuel (s : St W),
    existsb is_ldap_add (trace_of (run_ldaps respond fuel s)) = true ->
    exists pre conn n b cs rep rest,
      trace_of (run_ldaps respond fuel s)
      = (pre ++ Ev (ldap_search conn (__baseDN (me s))
                     ("(sAMAccountName=" ++ n ++ ")") SUBTREE []) (inr (b, cs))
             :: Ev (ldap_add conn (computer_dn (me s) n) computer_classes
                      (computer_attrs (computer_entry (me s) n)) None) rep
             :: rest)%list
      /\ Forall (fun e => is_ldap_add e = false) pre
      /\ List.length (entries cs) <> 1%nat
      /\ __computerName (me (state_of (run_ldaps respond fuel s))) = Some n.
Proof.
  intros fuel s Hadd. unfold run_ldaps in *.
  destruct (guarded_trace (ldaps_body respond fuel) s) as (logs & Htr & Hlogs).
  rewrite guarded_state. rewrite Htr in *. clear Htr.
  assert (Hl : Forall (fun e => is_ldap_add e = false) logs).
  { eapply Forall_impl; [|exact Hlogs]. apply log_no_add. }
  destruct (ldaps_body_cases fuel s) as (o & s1 & t1 & Es & Hme & Ht1 & Hb).
  assert (Ha1 : Forall (fun e => is_ldap_add e = false) t1).
  { eapply Forall_impl; [|exact Ht1]. apply session_call_no_add. }
  destruct o as [conn|e|].
  2,3: rewrite Hb in Hadd; cbn [trace_of snd] in Hadd;
    rewrite existsb_Forall_false in Hadd;
    [discriminate Hadd | apply Forall_app; auto].
  cbn zeta in Hb. rewrite Hb in *. cbn [trace_of state_of fst snd] in *.
  destruct (__noAdd (me s) || __delete (me s)).
  { assert (He : sat (only (fun e => is_ldap_add e = false))
                   (ldaps_existing respond conn)) by sat_auto.
    specialize (He s1). unfold only in He.
    rewrite existsb_Forall_false in Hadd; [discriminate Hadd|].
    repeat (apply Forall_app; split); auto. }
  destruct (ldaps_create_entry fuel conn s1)
    as [Hnone | (pre & n & b & cs & rep & rest & Ht & Hpre & Hlen & Hn)].
  { rewrite existsb_Forall_false in Hadd; [discriminate Hadd|].
    repeat (apply Forall_app; split); auto. }
  rewrite Hme in Ht.
  exists (t1 ++ pre)%list, conn, n, b, cs, rep, (rest ++ logs)%list.
  split; [|split; [|split]].
  - rewrite Ht, <- !app_assoc. reflexivity.
  - apply Forall_app; auto.
  - apply Nat.eqb_neq. exact Hlen.
  - exact Hn.
Qed.

(** When the first add of a run was refused, the rest of the run is what
    lines 307-320 make of the refusal. *)
Lemma run_ldaps_refused fuel (s : St W) cs :
  first_reply add_reply (trace_of (run_ldaps respond fuel s)) = Some (inr (false, cs)) ->
  exists t0 conn ucd s3,
    bypass_attempts t0 = 0%nat
    /\ __username (me s3) = __username (me s)
    /\ ldaps_body respond fuel s
       = (out_of (ldaps_add_refused respond conn ucd cs s3),
          state_of (ldaps_add_refused respond conn ucd cs s3),
          (t0 ++ trace_of (ldaps_add_refused respond conn ucd cs s3))%list).
Proof.
  intros Hfirst. unfold run_ldaps in *.
  destruct (guarded_trace (ldaps_body respond fuel) s) as (logs & Htr & Hlogs).
  assert (Hl : first_reply add_reply logs = None).
  { apply first_reply_none. eapply Forall_impl; [|exact Hlogs].
    intros e He. destruct e; [discriminate|reflexivity..]. }
  rewrite Htr, first_reply_app, Hl in Hfirst. clear Htr Hl Hlogs logs.
  destruct (ldaps_body_cases fuel s) as (o & s1 & t1 & Es & Hme & Ht1 & Hb).
  assert (Hq : Forall (fun e => quiet_add e = true) t1).
  { eapply Forall_impl; [|exact Ht1].
    intros e He. destruct e as [R c r| | |]; [destruct c|..]; cbn in *; congruence. }
  assert (Hf1 : first_reply add_reply t1 = None).
  { apply first_reply_none. eapply Forall_impl; [|exact Hq]. apply quiet_add_reply. }
  destruct o as [conn|e|].
  2,3: rewrite Hb in Hfirst; cbn [trace_of snd] in Hfirst;
    rewrite Hf1 in Hfirst; discriminate Hfirst.
  cbn zeta in Hb. rewrite Hb in Hfirst. cbn [trace_of snd] in Hfirst.
  rewrite first_reply_app, Hf1 in Hfirst.
  destruct (__noAdd (me s) || __delete (me s)).
  { pose proof (ldaps_existing_no_add respond conn s1) as He. unfold only in He.
    rewrite first_reply_none in Hfirst; [discriminate Hfirst|].
    eapply Forall_impl; [|exact He]. apply quiet_add_reply. }
  destruct (ldaps_create_shape respond fuel conn s1)
    as [Hnone | (pre & dn & ucd & r & s3 & msg & Hpre & Hname & Hc)].
  { rewrite first_reply_none in Hfirst; [discriminate Hfirst|].
    eapply Forall_impl; [|exact Hnone]. apply quiet_add_reply. }
  assert (Hp1 : first_reply add_reply pre = None).
  { apply first_reply_none. eapply Forall_impl; [|exact Hpre]. apply quiet_add_reply. }
  rewrite Hc in Hfirst.
  destruct r as [e|[[|] cs0]]; cbn [trace_of snd] in Hfirst;
    rewrite first_reply_app, Hp1 in Hfirst; try discriminate Hfirst.
  cbn in Hfirst. injection Hfirst as ->.
  exists (t1 ++ pre ++ [Ev (ldap_add conn dn computer_classes (computer_attrs ucd) None)
                          (inr (false, cs))])%list, conn, ucd, s3.
  split; [|split].
  - rewrite !bypass_attempts_app, (bypass_attempts_quiet t1 Hq),
      (bypass_attempts_quiet pre Hpre). reflexivity.
  - rewrite <- Hme. apply same_but_name_username. exact Hname.
  - rewrite Hb, Hc. cbn [out_of state_of trace_of fst snd].
    rewrite <- !app_assoc. reflexivity.
Qed.

(** X12.  When the add of the computer entry is refused for another reason
    than "unwilling to perform", the fallback is not attempted and the run
    ends having logged one critical line after the add: that the user has no
    right to create a machine account when the result is "insufficient
    access rights", and the result as it is otherwise. *)
Theorem refused_add_is_reported :
  forall fuel (s : St W) cs,
    first_reply add_reply (trace_of (run_ldaps respond fuel s)) = Some (inr (false, cs)) ->
    result (conn_result cs) <> RESULT_UNWILLING_TO_PERFORM ->
    out_of (run_ldaps respond fuel s) = Ret tt
    /\ bypass_attempts (trace_of (run_ldaps respond fuel s)) = 0%nat
    /\ exists pre,
        trace_of (run_ldaps respond fuel s)
        = (pre ++ [Log CRITICAL
                     (if (result (conn_result cs) =? RESULT_INSUFFICIENT_ACCESS_RIGHTS)%Z
                      then "User " ++ __username (me s)
                           ++ " doesn't have right to create a machine account!"
                      else result_str (conn_result cs))])%list.
Proof.
  intros fuel s cs Hfirst Hres.
  destruct (run_ldaps_refused fuel s cs Hfirst)
    as (t0 & conn & ucd & s3 & Hb0 & Huser & Hbody).
  assert (Href : ldaps_add_refused respond conn ucd cs s3
                 = (Raise (Exception
                      (if (result (conn_result cs) =? RESULT_INSUFFICIENT_ACCESS_RIGHTS)%Z
                       then "User " ++ __username (me s)
                            ++ " doesn't have right to create a machine account!"
                       else result_str (conn_result cs))), s3, [])).
  { unfold ldaps_add_refused. rewrite bind_get_me, Huser.
    destruct (Z.eqb_spec (result (conn_result cs)) RESULT_UNWILLING_TO_PERFORM);
      [contradiction|].
    destruct (result (conn_result cs) =? RESULT_INSUFFICIENT_ACCESS_RIGHTS)%Z;
      reflexivity. }
  rewrite Href in Hbody. cbn [out_of state_of trace_of fst snd] in Hbody.
  unfold run_ldaps. rewrite guarded_run, Hbody.
  cbn [out_of state_of trace_of fst snd is_Exception str_exn].
  split; [reflexivity|]. split.
  - rewrite !bypass_attempts_app, Hb0. destruct (debug s3); reflexivity.
  - eexists. rewrite !app_assoc. reflexivity.
Qed.

(** X13.  When the add is refused as "unwilling to perform" and the message
    does not begin with a hexadecimal number, the error of [int()] is caught
    like any other: the fallback is not attempted, and the run ends with a
    critical line. *)
Theorem unreadable_sub_code_is_reported :
  forall fuel (s : St W) cs,
    first_reply add_reply (trace_of (run_ldaps respond fuel s)) = Some (inr (false, cs)) ->
    result (conn_result cs) = RESULT_UNWILLING_TO_PERFORM ->
    sub_code cs = None ->
    out_of (run_ldaps respond fuel s) = Ret tt
    /\ bypass_attempts (trace_of (run_ldaps respond fuel s)) = 0%nat
    /\ exists pre msg,
        trace_of (run_ldaps respond fuel s) = (pre ++ [Log CRITICAL msg])%list.
Proof.
  intros fuel s cs Hfirst Hres Hcode.
  destruct (run_ldaps_refused fuel s cs Hfirst)
    as (t0 & conn & ucd & s3 & Hb0 & Huser & Hbody).
  assert (Href : exists msg,
             ldaps_add_refused respond conn ucd cs s3 = (Raise (ValueError msg), s3, [])).
  { unfold ldaps_add_refused. rewrite bind_get_me, Hres.
    unfold sub_code in Hcode. rewrite Hcode. eexists. reflexivity. }
  destruct Href as [msg Href].
  rewrite Href in Hbody. cbn [out_of state_of trace_of fst snd] in Hbody.
  unfold run_ldaps. rewrite guarded_run, Hbody.
  cbn [out_of state_of trace_of fst snd is_Exception str_exn].
  split; [reflexivity|]. split.
  - rewrite !bypass_attempts_app, Hb0. destruct (debug s3); reflexivity.
  - eexists. exists msg. rewrite !app_assoc. reflexivity.
Qed.

Lemma LDAPGetComputer_step (conn : obj) (name : option string) (s : St W) :
  let c := ldap_search conn (__baseDN (me s))
             ("(sAMAccountName=" ++ fmt name ++ ")") SUBTREE [] in
  LDAPGetComputer respond conn name s =
    match respond _ c (world s) with
    | (inl e, w) => (Raise e, set_world s w, [Ev c (inl e)])
    | (inr (b, cs), w) =>
        match entries cs with
        | e0 :: _ => (Ret e0, set_world s w, [Ev c (inr (b, cs))])
        | [] => (Raise (IndexError "list index out of range"), set_world s w,
                 [Ev c (inr (b, cs))])
        end
    end.
Proof.
  cbn. unfold LDAPGetComputer, search, bind, get_me, invoke.
  destruct (respond _ _ (world s)) as [[e|[b cs]] w]; [reflexivity|].
  destruct (entries cs); reflexivity.
Qed.

Lemma ldaps_existing_not_found conn (s : St W) b cs w :
  respond _ (ldap_search conn (__baseDN (me s))
               ("(sAMAccountName=" ++ fmt (__computerName (me s)) ++ ")") SUBTREE [])
    (world s) = (inr (b, cs), w) ->
  List.length (entries cs) <> 1%nat ->
  ldaps_existing respond conn s
  = (Raise (Exception ("Account " ++ fmt (__computerName (me s)) ++ " not found in "
                       ++ fmt (__baseDN (me s)) ++ "!")),
     set_world s w,
     [Ev (ldap_search conn (__baseDN (me s))
            ("(sAMAccountName=" ++ fmt (__computerName (me s)) ++ ")") SUBTREE [])
         (inr (b, cs))]).
Proof.
  intros Hr Hlen. unfold ldaps_existing. rewrite bind_get_me.
  pose proof (LDAPComputerExists_step respond conn (__computerName (me s)) s) as Hstep.
  cbn zeta in Hstep. rewrite Hr in Hstep.
  erewrite bind_of_Ret; [|exact Hstep].
  apply Nat.eqb_neq in Hlen. rewrite Hlen. reflexivity.
Qed.

Lemma invoke_tagged {R A} (c : call R) (tag : A) (s : St W) :
  (r <- invoke respond c ;; ret (r, tag)) s =
    match respond R c (world s) with
    | (inl e, w) => (Raise e, set_world s w, [Ev c (inl e)])
    | (inr r, w) => (Ret (r, tag), set_world s w, [Ev c (inr r)])
    end.
Proof.
  unfold bind, invoke, ret.
  destruct (respond R c (world s)) as [[e|r] w]; reflexivity.
Qed.

Lemma ldaps_existing_deleted conn (s : St W) cs :
  __delete (me s) = true ->
  first_reply delete_reply (trace_of (ldaps_existing respond conn s))
  = Some (inr (true, cs)) ->
  exists pre s',
    ldaps_existing respond conn s
    = (Ret tt, s',
       (pre ++ [Log INFO
                  (if __noAdd (me s)
                   then "Succesfully set password of " ++ fmt (__computerName (me s))
                        ++ " to " ++ __computerPassword (me s) ++ "."
                   else "Succesfully deleted " ++ fmt (__computerName (me s)) ++ ".")])%list).
Proof.
  intros Hdel. unfold ldaps_existing. rewrite bind_get_me.
  pose proof (LDAPComputerExists_step respond conn (__computerName (me s)) s) as H1.
  cbn zeta in H1.
  destruct (respond _ _ (world s)) as [[e|[b1 cs1]] w1].
  { erewrite bind_of_Raise; [|exact H1]. discriminate. }
  erewrite bind_of_Ret; [|exact H1]. cbn [out_of state_of trace_of fst snd].
  destruct (List.length (entries cs1) =? 1)%nat; cbn [negb]; [|discriminate].
  pose proof (LDAPGetComputer_step conn (__computerName (me s)) (set_world s w1)) as H2.
  cbn zeta in H2. cbn [me world set_world] in H2.
  destruct (respond _ _ w1) as [[e|[b2 cs2]] w2].
  { erewrite bind_of_Raise; [|exact H2]. discriminate. }
  destruct (entries cs2) as [|e0 es].
  { erewrite bind_of_Raise; [|exact H2]. discriminate. }
  erewrite bind_of_Ret; [|exact H2]. cbn [out_of state_of trace_of fst snd].
  rewrite Hdel.
  pose proof (invoke_tagged (ldap_delete conn (entry_dn e0)) "delete"
                (set_world (set_world s w1) w2)) as H3.
  cbn [world set_world] in H3.
  destruct (respond _ _ w2) as [[e|[[|] cs3]] w3].
  - erewrite bind_of_Raise; [|exact H3]. discriminate.
  - erewrite bind_of_Ret; [|exact H3]. cbn [out_of state_of trace_of fst snd negb].
    intros _. destruct (__noAdd (me s)); cbn; eexists [_; _; _], _; reflexivity.
  - erewrite bind_of_Ret; [|exact H3]. cbn [out_of state_of trace_of fst snd negb].
    destruct (result (conn_result cs3) =? RESULT_INSUFFICIENT_ACCESS_RIGHTS)%Z;
      discriminate.
Qed.

Lemma session_call_no_search e : is_session_call e = true -> search_reply e = None.
Proof. destruct e as [R c r| | |]; [destruct c|..]; cbn; congruence. Qed.

Lemma session_call_no_delete e : is_session_call e = true -> delete_reply e = None.
Proof. destruct e as [R c r| | |]; [destruct c|..]; cbn; congruence. Qed.

Lemma session_call_no_change e : is_session_call e = true -> is_change_call e = false.
Proof. destruct e as [R c r| | |]; [destruct c|..]; cbn; congruence. Qed.

Lemma log_no_delete e : is_call e = false -> delete_reply e = None.
Proof. destruct e; [discriminate | reflexivity..]. Qed.

Lemma log_no_change e : is_call e = false -> is_change_call e = false.
Proof. destruct e; [discriminate | reflexivity..]. Qed.

(** X14.  In a run over LDAPS with [-no-add] or [-delete], when the search
    for the account does not find exactly one entry, the run ends there: it
    logs at critical level that the account was not found in the base DN,
    and neither deletes nor sets a password. *)
Theorem ldaps_missing_account_is_left_alone :
  forall fuel (s : St W) b cs,
    __noAdd (me s) || __delete (me s) = true ->
    first_reply search_reply (trace_of (run_ldaps respond fuel s)) = Some (inr (b, cs)) ->
    List.length (entries cs) <> 1%nat ->
    out_of (run_ldaps respond fuel s) = Ret tt
    /\ Forall (fun e => is_change_call e = false) (trace_of (run_ldaps respond fuel s))
    /\ exists pre,
        trace_of (run_ldaps respond fuel s)
        = (pre ++ [Log CRITICAL
                     ("Account " ++ fmt (__computerName (me s)) ++ " not found in "
                      ++ fmt (__baseDN (me s)) ++ "!")])%list.
Proof.
  intros fuel s b cs Hflags Hfirst Hlen. unfold run_ldaps in *.
  destruct (guarded_trace (ldaps_body respond fuel) s) as (logs & Htr & Hlogs).
  assert (Hl : first_reply search_reply logs = None).
  { apply first_reply_none. eapply Forall_impl; [|exact Hlogs]. apply log_no_search. }
  rewrite Htr, first_reply_app, Hl in Hfirst. clear Htr Hl Hlogs logs.
  destruct (ldaps_body_cases fuel s) as (o & s1 & t1 & Es & Hme & Ht1 & Hb).
  assert (Hf1 : first_reply search_reply t1 = None).
  { apply first_reply_none. eapply Forall_impl; [|exact Ht1].
    apply session_call_no_search. }
  assert (Hc1 : Forall (fun e => is_change_call e = false) t1).
  { eapply Forall_impl; [|exact Ht1]. apply session_call_no_change. }
  destruct o as [conn|e|].
  2,3: rewrite Hb in Hfirst; cbn [trace_of snd] in Hfirst;
    rewrite Hf1 in Hfirst; discriminate Hfirst.
  cbn zeta in Hb. rewrite Hflags in Hb.
  rewrite Hb in Hfirst. cbn [trace_of snd] in Hfirst.
  rewrite first_reply_app, Hf1 in Hfirst.
  pose proof (ldaps_existing_not_found conn s1) as Hnf.
  assert (Hhead : exists rest,
             trace_of (ldaps_existing respond conn s1)
             = Ev (ldap_search conn (__baseDN (me s1))
                     ("(sAMAccountName=" ++ fmt (__computerName (me s1)) ++ ")")
                     SUBTREE [])
                  (fst (respond _ (ldap_search conn (__baseDN (me s1))
                                     ("(sAMAccountName="
                                      ++ fmt (__computerName (me s1)) ++ ")")
                                     SUBTREE []) (world s1)))
               :: rest).
  { unfold ldaps_existing. rewrite bind_get_me, trace_bind.
    rewrite (LDAPComputerExists_step respond conn (__computerName (me s1)) s1).
    cbn zeta. destruct (respond _ _ (world s1)) as [[e|[b0 cs0]] w];
      eexists; reflexivity. }
  destruct Hhead as [rest Hhead]. rewrite Hhead in Hfirst. cbn in Hfirst.
  destruct (respond _ _ (world s1)) as [[e|[b0 cs0]] w] eqn:Er;
    cbn in Hfirst; [discriminate Hfirst|].
  injection Hfirst as -> ->.
  specialize (Hnf b cs w eq_refl Hlen). rewrite Hme in Hnf.
  rewrite guarded_run, Hb, Hnf.
  cbn [out_of state_of trace_of fst snd is_Exception str_exn].
  split; [reflexivity|]. split.
  - repeat (apply Forall_app; split); try exact Hc1;
      try (destruct (debug _)); repeat constructor.
  - eexists. rewrite !app_assoc. reflexivity.
Qed.

(** X15.  In a run over LDAPS with [-delete], once the delete has
    succeeded the run ends with one more line, at the level of information:
    that the account was deleted.  When [-no-add] is given as well the
    account is deleted all the same, and the line says that its password was
    set. *)
Theorem ldaps_delete_is_reported :
  forall fuel (s : St W) cs,
    __delete (me s) = true ->
    first_reply delete_reply (trace_of (run_ldaps respond fuel s))
    = Some (inr (true, cs)) ->
    out_of (run_ldaps respond fuel s) = Ret tt
    /\ exists pre,
        trace_of (run_ldaps respond fuel s)
        = (pre ++ [Log INFO
                     (if __noAdd (me s)
                      then "Succesfully set password of "
                           ++ fmt (__computerName (me s)) ++ " to "
                           ++ __computerPassword (me s) ++ "."
                      else "Succesfully deleted "
                           ++ fmt (__computerName (me s)) ++ ".")])%list.
Proof.
  intros fuel s cs Hdel Hfirst. unfold run_ldaps in *.
  destruct (guarded_trace (ldaps_body respond fuel) s) as (logs & Htr & Hlogs).
  assert (Hl : first_reply delete_reply logs = None).
  { apply first_reply_none. eapply Forall_impl; [|exact Hlogs]. apply log_no_delete. }
  rewrite Htr, first_reply_app, Hl in Hfirst. clear Htr Hl Hlogs logs.
  destruct (ldaps_body_cases fuel s) as (o & s1 & t1 & Es & Hme & Ht1 & Hb).
  assert (Hf1 : first_reply delete_reply t1 = None).
  { apply first_reply_none. eapply Forall_impl; [|exact Ht1].
    apply session_call_no_delete. }
  destruct o as [conn|e|].
  2,3: rewrite Hb in Hfirst; cbn [trace_of snd] in Hfirst;
    rewrite Hf1 in Hfirst; discriminate Hfirst.
  cbn zeta in Hb. rewrite Hdel, orb_true_r in Hb.
  rewrite Hb in Hfirst. cbn [trace_of snd] in Hfirst.
  rewrite first_reply_app, Hf1 in Hfirst.
  rewrite <- Hme in Hdel.
  destruct (first_reply delete_reply (trace_of (ldaps_existing respond conn s1)))
    as [x|] eqn:Hf; [injection Hfirst as ->|discriminate Hfirst].
  destruct (ldaps_existing_deleted conn s1 cs Hdel Hf) as (pre & s' & He).
  rewrite Hme in He.
  rewrite guarded_run, Hb, He. cbn [out_of state_of trace_of fst snd].
  split; [reflexivity|]. eexists. rewrite app_assoc. reflexivity.
Qed.

Lemma raised_bind {A B} (m : M W A) (f : A -> M W B) (s : St W) :
  raised_by_last_call (m s) ->
  (forall a s1, raised_by_last_call (f a s1)) ->
  raised_by_last_call (bind m f s).
Proof.
  intros Hm Hf e. rewrite out_bind, trace_bind.
  destruct (out_of (m s)) as [a|e0|] eqn:E.
  - intros Ho. destruct (Hf a (state_of (m s)) e Ho) as (pre & ev & Ht & Hr).
    exists (trace_of (m s) ++ pre)%list, ev. rewrite Ht, app_assoc. auto.
  - intros Ho. injection Ho as ->. rewrite app_nil_r. apply Hm; auto.
  - discriminate.
Qed.

Lemma raised_invoke {R} (c : call R) (s : St W) :
  raised_by_last_call (invoke respond c s).
Proof.
  intros e. unfold invoke.
  destruct (respond R c (world s)) as [[e0|r] w]; cbn; [|discriminate].
  intros H. injection H as ->. exists [], (Ev c (inl e)). auto.
Qed.

Lemma raised_never {A} (r : outcome A * St W * list event) :
  (forall e, out_of r <> Raise e) -> raised_by_last_call r.
Proof. intros H e Ho. destruct (H e Ho). Qed.

Lemma ldaps_connect_raised connectTo user tls (s : St W) :
  raised_by_last_call (ldaps_connect respond connectTo user tls s).
Proof.
  unfold ldaps_connect.
  repeat first
    [ apply raised_bind; [|intros ? ?]
    | apply raised_invoke
    | apply raised_never; intros ? ?; discriminate
    | match goal with
      | |- raised_by_last_call ((if ?b then _ else _) _) => destruct b
      | |- raised_by_last_call ((match ?x with _ => _ end) _) => destruct x
      end ].
Qed.

(** The retry begins by making the TLSv1 profile, and makes it once. *)
Lemma ldaps_connect_tlsv1_trace connectTo user (s : St W) :
  exists r post,
    trace_of (ldaps_connect_tlsv1 respond connectTo user s)
    = Ev (ldap3_Tls PROTOCOL_TLSv1) r :: post
    /\ Forall (fun e => is_tlsv1_call e = false) post.
Proof.
  unfold ldaps_connect_tlsv1. rewrite bind_invoke.
  destruct (respond _ _ (world s)) as [[e|tls] w].
  - exists (inl e), []. split; [reflexivity | constructor].
  - exists (inr tls). eexists. split; [reflexivity|].
    match goal with
    | |- Forall _ (trace_of (?k0 _)) =>
        assert (Hk : sat (only (fun e => is_tlsv1_call e = false)) k0) by sat_auto
    end.
    apply Hk.
Qed.

(** X16.  A run over LDAPS makes the TLSv1 profile only in answer to a
    socket error: the event just before it is a call of the first attempt
    that raised LDAPSocketOpenError, and the profile is made once. *)
Theorem tlsv1_only_after_socket_error :
  forall fuel (s : St W),
    existsb is_tlsv1_call (trace_of (run_ldaps respond fuel s)) = true ->
    exists pre ev msg r post,
      trace_of (run_ldaps respond fuel s)
      = (pre ++ ev :: Ev (ldap3_Tls PROTOCOL_TLSv1) r :: post)%list
      /\ raise_of ev = Some (LDAPSocketOpenError msg)
      /\ Forall (fun e => is_tlsv1_call e = false) pre
      /\ Forall (fun e => is_tlsv1_call e = false) post.
Proof.
  intros fuel s Hex. unfold run_ldaps in *.
  destruct (guarded_trace (ldaps_body respond fuel) s) as (logs & Htr & Hlogs).
  rewrite Htr in *. clear Htr.
  assert (Hl : Forall (fun e => is_tlsv1_call e = false) logs).
  { eapply Forall_impl; [|exact Hlogs].
    intros e He. destruct e; [discriminate | reflexivity..]. }
  assert (Hrest : exists rest,
             trace_of (ldaps_body respond fuel s)
             = (trace_of (ldaps_session respond s) ++ rest)%list
             /\ Forall (fun e => is_tlsv1_call e = false) rest).
  { destruct (ldaps_body_cases fuel s) as (o & s1 & t1 & Es & Hme & Ht1 & Hb).
    rewrite Es. cbn [trace_of snd]. destruct o as [conn|e|].
    - cbn zeta in Hb. rewrite Hb. cbn [trace_of snd]. eexists. split; [reflexivity|].
      destruct (__noAdd (me s) || __delete (me s)).
      + assert (H : sat (only (fun e => is_tlsv1_call e = false))
                      (ldaps_existing respond conn)) by sat_auto.
        apply H.
      + assert (H : sat (only (fun e => is_tlsv1_call e = false))
                      (ldaps_create respond fuel conn)) by sat_auto.
        apply H.
    - rewrite Hb. exists []. rewrite app_nil_r. split; [reflexivity | constructor].
    - rewrite Hb. exists []. rewrite app_nil_r. split; [reflexivity | constructor]. }
  destruct Hrest as (rest & Hbody & Hr). rewrite Hbody in *. clear Hbody.
  assert (Hs : Forall (fun e => is_tlsv1_call e = false)
                 (trace_of (ldaps_session respond s))
               \/ exists pre ev msg r post,
                   trace_of (ldaps_session respond s)
                   = (pre ++ ev :: Ev (ldap3_Tls PROTOCOL_TLSv1) r :: post)%list
                   /\ raise_of ev = Some (LDAPSocketOpenError msg)
                   /\ Forall (fun e => is_tlsv1_call e = false) pre
                   /\ Forall (fun e => is_tlsv1_call e = false) post).
  { unfold ldaps_session. rewrite bind_get_me, bind_invoke.
    destruct (respond _ _ (world s)) as [[e|tls] w].
    { left. repeat constructor. }
    cbn [trace_of snd]. rewrite try_except_run.
    match goal with
    | |- context [out_of (ldaps_connect respond ?a ?b ?c ?d)] =>
        pose proof (ldaps_connect_raised a b c d) as Hraised;
        assert (Hc : sat (only (fun e => is_tlsv1_call e = false))
                       (ldaps_connect respond a b c)) by sat_auto;
        specialize (Hc d); unfold only in Hc;
        destruct (out_of (ldaps_connect respond a b c d)) as [conn|e|] eqn:Eo
    end.
    1,3: left; constructor; [reflexivity | exact Hc].
    destruct (Hraised e Eo) as (pre & ev & Ht & Hev).
    destruct e; try (left; constructor; [reflexivity | exact Hc]).
    right. cbn [trace_of snd].
    match goal with
    | |- context [trace_of (ldaps_connect_tlsv1 respond ?a ?b ?d)] =>
        destruct (ldaps_connect_tlsv1_trace a b d) as (r & post & Hp & Hpost)
    end.
    rewrite Hp, Ht. rewrite Ht in Hc.
    exists (Ev (ldap3_Tls PROTOCOL_TLSv1_2) (inr tls) :: pre), ev, msg, r, post.
    split; [|split; [exact Hev | split; [|exact Hpost]]].
    - cbn [app]. rewrite <- app_assoc. reflexivity.
    - constructor; [reflexivity|]. eapply Forall_app_l. exact Hc. }
  destruct Hs as [Hnone | (pre & ev & msg & r & post & Ht & Hev & Hpre & Hpost)].
  { rewrite existsb_Forall_false in Hex; [discriminate Hex|].
    repeat (apply Forall_app; split); auto. }
  exists pre, ev, msg, r, (post ++ rest ++ logs)%list.
  split; [|split; [exact Hev | split; [exact Hpre|]]].
  - rewrite Ht, <- !app_assoc. reflexivity.
  - repeat (apply Forall_app; split); auto.
Qed.

(** X17.  On the first attempt the answer of [bind()] is not looked at:
    when the call returns, refused or not, the connection is used.  On the
    TLSv1 retry a refused bind raises the result as an error when hashes are
    used, and goes unnoticed with a password. *)
Theorem refused_bind_is_noticed_only_on_retry :
  (forall connectTo user tls (s : St W) r,
      first_reply bind_reply (trace_of (ldaps_connect respond connectTo user tls s))
      = Some (inr r) ->
      exists conn, out_of (ldaps_connect respond connectTo user tls s) = Ret conn)
  /\ (forall connectTo user (s : St W) cs,
        first_reply bind_reply (trace_of (ldaps_connect_tlsv1 respond connectTo user s))
        = Some (inr (false, cs)) ->
        match __hashes (me s) with
        | Some _ =>
            out_of (ldaps_connect_tlsv1 respond connectTo user s)
            = Raise (Exception (result_str (conn_result cs)))
        | None =>
            exists conn, out_of (ldaps_connect_tlsv1 respond connectTo user s) = Ret conn
        end).
Proof.
  split.
  - intros connectTo user tls s r.
    unfold ldaps_connect, bind, invoke, get_me, ret.
    destruct (__doKerberos (me s)), (__hashes (me s));
      repeat match goal with
        | |- context [respond ?R ?c ?w] =>
            destruct (respond R c w) as [[?|?] ?]; cbn
        end;
      intros H; try discriminate H; eauto.
  - intros connectTo user s cs.
    unfold ldaps_connect_tlsv1. rewrite bind_invoke.
    destruct (respond _ _ (world s)) as [[e|tls] w];
      [destruct (__hashes (me s)); discriminate|].
    cbn [trace_of out_of fst snd first_reply bind_reply].
    rewrite bind_get_me. cbn [me set_world].
    unfold bind, invoke, ret.
    destruct (__doKerberos (me s)), (__hashes (me s));
      repeat match goal with
        | |- context [respond ?R ?c ?w] =>
            destruct (respond R c w) as [[?|[[|] ?]] ?]; cbn
        | |- context [respond ?R ?c ?w] =>
            destruct (respond R c w) as [[?|?] ?]; cbn
        end;
      intros H; try discriminate H; try (injection H as <-); eauto.
Qed.

Lemma getUserInfo_run conn u (s : St W) :
  let c := ldap_search conn (__baseDN (me s))
             ("(sAMAccountName=" ++ escape_filter_chars u ++ ")") SUBTREE ["objectSid"] in
  getUserInfo respond conn u s =
    match respond _ c (world s) with
    | (inl e, w) => (Raise e, set_world s w, [Ev c (inl e)])
    | (inr (b, cs), w) =>
        match entries cs with
        | [] => (Ret None, set_world s w,
                 [Ev c (inr (b, cs)); Log ERROR ("User not found in LDAP: " ++ u)])
        | e0 :: _ =>
            match objectSid e0 with
            | Some sid0 => (Ret (Some (entry_dn e0, sid0)), set_world s w, [Ev c (inr (b, cs))])
            | None => (Raise (KeyError "objectSid"), set_world s w, [Ev c (inr (b, cs))])
            end
        end
    end.
Proof.
  cbn zeta. unfold getUserInfo, search. rewrite bind_get_me.
  unfold bind, invoke, try_except, index0, ret, raise, log, emit.
  destruct (respond _ _ (world s)) as [[e|[b cs]] w]; [reflexivity|].
  destruct (entries cs) as [|e0 es]; [reflexivity|].
  destruct (objectSid e0); reflexivity.
Qed.

Lemma upper_alphabet (c : ascii) :
  In c (list_ascii_of_string ascii_uppercase) -> is_upper c = true.
Proof.
  cbn. intros H.
  repeat (destruct H as [<-|H]; [reflexivity|]). contradiction.
Qed.

(** X18.  Whatever the server answers, the fallback asks for at most two
    adds.  The first is a container of class [msExchStorageGroup] with the
    security descriptor that allows everyone everything and [sdflags] 4,
    named by eight upper-case letters and placed under the DN of the first
    entry the search for the authenticating user returned.  The second, made
    only after the first, is the computer entry with the attributes it was
    given, placed under that container. *)
Theorem fallback_adds_container_then_computer :
  forall conn ucd (s : St W),
  let t := trace_of (bypass_with_msExchStorageGroup respond conn ucd s) in
  add_requests t = []
  \/ exists m b cs e0 es,
      String.length m = 8%nat
      /\ Forall (fun c => is_upper c = true) (list_ascii_of_string m)
      /\ In (Ev (ldap_search conn (__baseDN (me s))
                   ("(sAMAccountName=" ++ escape_filter_chars (__username (me s)) ++ ")")
                   SUBTREE ["objectSid"]) (inr (b, cs))) t
      /\ entries cs = e0 :: es
      /\ (add_requests t = [storage_group m (entry_dn e0)]
          \/ exists n,
              __computerName (me s) = Some n
              /\ add_requests t
                 = [storage_group m (entry_dn e0);
                    ("CN=" ++ drop_last n ++ "," ++ "CN=" ++ m ++ "," ++ entry_dn e0,
                     computer_classes, computer_attrs ucd, None)]).
Proof.
  intros conn ucd s.
  cbn zeta. unfold bypass_with_msExchStorageGroup, log.
  rewrite bind_emit. cbn [trace_of snd]. rewrite bind_invoke.
  destruct (respond _ _ (world s)) as [[e|ctx] w1]; [left; reflexivity|].
  cbn [trace_of snd].
  destruct ctx as [|schema ctx]; cbn [index0].
  { rewrite bind_raise. left. reflexivity. }
  rewrite bind_ret. unfold search. rewrite bind_invoke. cbn [world set_world].
  destruct (respond _ _ w1) as [[e|[res cs1]] w2]; [left; reflexivity|].
  cbn [trace_of snd].
  destruct res; cbn [negb].
  2:{ rewrite bind_emit. left. reflexivity. }
  destruct (response cs1) as [|poss rsp]; cbn [index0].
  { rewrite bind_raise. left. reflexivity. }
  rewrite bind_ret.
  destruct (existsb (String.eqb "computer") poss); cbn [negb].
  2:{ rewrite bind_emit. left. reflexivity. }
  rewrite bind_emit. cbn [trace_of snd]. rewrite bind_get_me. cbn [me set_world].
  match goal with
  | |- context [bind (getUserInfo respond conn ?u) _ ?s0] =>
      pose proof (getUserInfo_run conn u s0) as Hu
  end.
  cbn zeta in Hu. cbn [me world set_world] in Hu.
  destruct (respond _ _ w2) as [[e|[b cs]] w3].
  { erewrite bind_of_Raise; [|exact Hu]. left. reflexivity. }
  destruct (entries cs) as [|e0 es] eqn:Hent.
  { erewrite bind_of_Ret; [|exact Hu]. cbn [out_of state_of trace_of fst snd].
    rewrite bind_emit. left. reflexivity. }
  destruct (objectSid e0) as [sid0|].
  2:{ erewrite bind_of_Raise; [|exact Hu]. left. reflexivity. }
  erewrite bind_of_Ret; [|exact Hu]. cbn [out_of state_of trace_of fst snd].
  match goal with
  | |- context [bind (random_string 8 ascii_uppercase) _ ?s0] =>
      destruct (random_string_spec 8 ascii_uppercase s0)
        as (m & s4 & Em & Hlen & Hall & Hme4 & _ & Hw4 & _); [cbn; lia|]
  end.
  erewrite bind_of_Ret; [|exact Em]. cbn [out_of state_of trace_of fst snd app].
  rewrite bind_emit. cbn [trace_of snd]. rewrite bind_invoke.
  right. exists m, b, cs, e0, es.
  split; [exact Hlen|].
  split; [eapply Forall_impl; [|exact Hall]; apply upper_alphabet|].
  split; [do 4 right; left; reflexivity|].
  split; [exact Hent|].
  destruct (respond _ _ (world s4)) as [[e|[res1 cs0]] w5]; [left; reflexivity|].
  cbn [trace_of snd].
  destruct res1; cbn [negb].
  2:{ rewrite bind_emit. left. reflexivity. }
  rewrite bind_emit. cbn [trace_of snd]. rewrite bind_get_me.
  cbn [me set_world]. rewrite Hme4. cbn [me set_world].
  destruct (__computerName (me s)) as [n|]; cbn [without_marker].
  2:{ rewrite bind_raise. left. reflexivity. }
  rewrite bind_ret, bind_emit. cbn [trace_of snd]. rewrite bind_invoke.
  right. exists n. split; [reflexivity|].
  destruct (respond _ _ (world (set_world s4 w5))) as [[e|[res2 cs2]] w6];
    [reflexivity|].
  cbn [trace_of snd].
  destruct res2; cbn [negb].
  - rewrite bind_get_me, bind_emit. reflexivity.
  - rewrite bind_emit. reflexivity.
Qed.

End Ldaps.

(** ** The SAMR engine, step by step *)

Section Samr.
Context {W : Type}.
Variable respond : forall R : Type, call R -> W -> (exn + R) * W.

(** The guarded body of [doSAMRAdd] opens the server and the domain, which
    leaves the object as it is, and goes on, by the options, with the account
    that is there or with the creation of one. *)
Lemma samr_body_cases fuel dce (s : St W) :
  exists o s1 t1,
    samr_open respond dce s = (o, s1, t1)
    /\ me s1 = me s
    /\ Forall (fun e => is_open_call e = true) t1
    /\ match o with
       | Ret (dh, sel) =>
           let K :=
             bind (if __noAdd (me s) || __delete (me s)
                   then samr_open_existing respond dce dh sel
                   else samr_create respond fuel dce dh)
                  (fun uh => samr_apply respond dce dh uh) in
           samr_body respond fuel dce s
           = (out_of (K s1), state_of (K s1), (t1 ++ trace_of (K s1))%list)
       | Raise e => samr_body respond fuel dce s = (Raise e, s1, t1)
       | Loop => samr_body respond fuel dce s = (Loop, s1, t1)
       end.
Proof.
  assert (Hq : sat (only (fun e => is_open_call e = true)) (samr_open respond dce))
    by sat_auto.
  pose proof (samr_open_same_me respond dce s) as Hme.
  specialize (Hq s). unfold only in Hq. unfold same_me in Hme.
  destruct (samr_open respond dce s) as [[o s1] t1] eqn:Es.
  cbn [trace_of state_of fst snd] in Hq, Hme.
  exists o, s1, t1. split; [reflexivity|]. split; [exact Hme|]. split; [exact Hq|].
  unfold samr_body. destruct o as [[dh sel]|e|].
  - erewrite bind_of_Ret; [|exact Es]. cbn beta iota. rewrite bind_get_me, Hme.
    cbn zeta. reflexivity.
  - erewrite bind_of_Raise; [reflexivity | exact Es].
  - erewrite bind_of_Loop; [reflexivity | exact Es].
Qed.

(** [doSAMRAdd] once it has its DCE/RPC object: the guarded body, then the
    calls of the [finally] block, which leave the object as it is. *)
Lemma doSAMRAdd_parts fuel t (s : St W) dce w :
  respond _ (get_dce_rpc t) (world s) = (inr dce, w) ->
  let g := try_except (samr_body respond fuel dce) log_exception
             (set_frame (set_world s w) (mk_Locals None None None)) in
  exists td,
    trace_of (doSAMRAdd respond fuel t s)
    = Ev (get_dce_rpc t) (inr dce) :: (trace_of g ++ td)%list
    /\ Forall (fun e => is_teardown e = true) td
    /\ me (state_of (doSAMRAdd respond fuel t s)) = me (state_of g).
Proof.
  intros Hd. cbn zeta. rewrite doSAMRAdd_run, Hd. cbn zeta.
  set (g := try_except _ _ _).
  destruct (samr_teardown_in_order respond dce (state_of g)) as [Hq _].
  assert (Hme : sat same_me (samr_teardown respond dce)) by sat_auto.
  specialize (Hme (state_of g)). unfold same_me in Hme.
  destruct (out_of g).
  - eexists. split; [reflexivity|]. split; [exact Hq | exact Hme].
  - eexists. split; [reflexivity|]. split; [exact Hq | exact Hme].
  - exists []. rewrite app_nil_r. split; [reflexivity|]. split; [constructor | reflexivity].
Qed.

Lemma state_bind {A B} (m : M W A) (f : A -> M W B) s :
  state_of (bind m f s) =
    match out_of (m s) with
    | Ret a => state_of (f a (state_of (m s)))
    | _ => state_of (m s)
    end.
Proof.
  unfold bind, out_of, state_of.
  destruct (m s) as [[[a|e|] s1] t1]; cbn; try reflexivity.
  destruct (f a s1) as [[r s2] t2]. reflexivity.
Qed.

Lemma samr_create_entry fuel dce dh (s : St W) :
  let r := samr_create respond fuel dce dh s in
  Forall (fun e => is_create_user e = false) (trace_of r)
  \/ exists pre n msg rep,
      trace_of r
      = (pre ++ [Ev (hSamrLookupNamesInDomain dce dh [Some n])
                    (inl (DCERPCSessionError STATUS_NONE_MAPPED msg));
                 Ev (hSamrCreateUser2InDomain dce dh (Some n)
                       USER_WORKSTATION_TRUST_ACCOUNT USER_FORCE_PASSWORD_CHANGE) rep])%list
      /\ Forall (fun e => is_create_user e = false) pre
      /\ __computerName (me (state_of r)) = Some n.
Proof.
  cbn zeta. unfold samr_create. rewrite bind_get_me.
  match goal with
  | |- context [bind ?pre0 ?tail0 s] =>
      set (chk := pre0); set (tl := tail0);
      assert (Hq : sat (only (fun e => is_create_user e = false)) chk)
        by (unfold chk; destruct (__computerName (me s)); sat_auto);
      assert (Hchk : forall u s2 t2,
                 chk s = (Ret u, s2, t2) ->
                 exists n pre msg,
                   __computerName (me s2) = Some n
                   /\ t2 = (pre ++ [Ev (hSamrLookupNamesInDomain dce dh [Some n])
                                      (inl (DCERPCSessionError STATUS_NONE_MAPPED msg))])%list)
  end.
  { intros u s2 t2 E. unfold chk in E.
    destruct (__computerName (me s)) as [n|] eqn:En.
    - unfold try_except, bind, invoke in E.
      destruct (respond _ _ (world s)) as [[e|rids] w]; [|discriminate E].
      destruct e; try discriminate E.
      destruct (Z.eqb_spec error_code STATUS_NONE_MAPPED) as [->|Hne];
        cbn in E; [|discriminate E].
      injection E as _ <- <-. exists n, [], msg. cbn. auto.
    - destruct (samr_find_unused_spec respond fuel dce dh s u s2 t2 E)
        as (n & pre & msg & Hn & _ & Ht & _).
      exists n, pre, msg. auto. }
  specialize (Hq s). unfold only in Hq.
  destruct (chk s) as [[[u|e|] s2] t2] eqn:Ec; cbn [trace_of snd] in Hq.
  2:{ left. erewrite bind_of_Raise; [|exact Ec]. exact Hq. }
  2:{ left. erewrite bind_of_Loop; [|exact Ec]. exact Hq. }
  destruct (Hchk u s2 t2 eq_refl) as (n & pre & msg & Hn & Ht).
  right. erewrite bind_of_Ret; [|exact Ec].
  cbn [trace_of state_of fst snd].
  unfold tl. rewrite bind_get_me, Hn, bind_invoke.
  exists pre, n, msg.
  destruct (respond _ _ (world s2)) as [[e|h] w].
  - exists (inl e). cbn [trace_of state_of fst snd].
    rewrite Ht, <- app_assoc. cbn [app].
    split; [reflexivity|]. split; [eapply Forall_app_l; rewrite <- Ht; exact Hq|].
    exact Hn.
  - exists (inr h). cbn [trace_of state_of fst snd].
    rewrite bind_set_userHandle. cbn.
    rewrite Ht, <- app_assoc. cbn [app].
    split; [reflexivity|]. split; [eapply Forall_app_l; rewrite <- Ht; exact Hq|].
    exact Hn.
Qed.

Lemma open_call_no_create e : is_open_call e = true -> is_create_user e = false.
Proof. destruct e as [R c r| | |]; [destruct c|..]; cbn; congruence. Qed.

Lemma teardown_no_create e : is_teardown e = true -> is_create_user e = false.
Proof. destruct e as [R c r| | |]; [destruct c|..]; cbn; congruence. Qed.

Lemma log_no_create e : is_call e = false -> is_create_user e = false.
Proof. destruct e; [discriminate | reflexivity..]. Qed.

(** X19.  Whenever [doSAMRAdd] calls create-user, the call just before it
    was the lookup of the same name in the same domain, refused with
    STATUS_NONE_MAPPED; the account is asked for as a workstation trust
    account, and its name is the computer name the object ends with. *)
Theorem samr_creates_the_name_it_checked :
  forall fuel t (s : St W),
    existsb is_create_user (trace_of (doSAMRAdd respond fuel t s)) = true ->
    exists pre dce dh n msg rep rest,
      trace_of (doSAMRAdd respond fuel t s)
      = (pre ++ Ev (hSamrLookupNamesInDomain dce dh [Some n])
                  (inl (DCERPCSessionError STATUS_NONE_MAPPED msg))
             :: Ev (hSamrCreateUser2InDomain dce dh (Some n)
                      USER_WORKSTATION_TRUST_ACCOUNT USER_FORCE_PASSWORD_CHANGE) rep
             :: rest)%list
      /\ Forall (fun e => is_create_user e = false) pre
      /\ Forall (fun e => is_create_user e = false) rest
      /\ __computerName (me (state_of (doSAMRAdd respond fuel t s))) = Some n.
Proof.
  intros fuel t s Hex.
  destruct (respond _ (get_dce_rpc t) (world s)) as [[e|dce] w] eqn:Hd.
  { rewrite doSAMRAdd_run, Hd in Hex. discriminate Hex. }
  destruct (doSAMRAdd_parts fuel t s dce w Hd) as (td & Htrace & Htd & Hend).
  rewrite Htrace in *. rewrite Hend. clear Htrace Hend.
  set (s0 := set_frame (set_world s w) (mk_Locals None None None)) in *.
  assert (Htd' : Forall (fun e => is_create_user e = false) td).
  { eapply Forall_impl; [|exact Htd]. apply teardown_no_create. }
  destruct (guarded_trace (samr_body respond fuel dce) s0) as (logs & Htr & Hlogs).
  rewrite guarded_state. rewrite Htr in *. clear Htr.
  assert (Hl : Forall (fun e => is_create_user e = false) logs).
  { eapply Forall_impl; [|exact Hlogs]. apply log_no_create. }
  destruct (samr_body_cases fuel dce s0) as (o & s1 & t1 & Es & Hme & Ht1 & Hb).
  assert (Hc1 : Forall (fun e => is_create_user e = false) t1).
  { eapply Forall_impl; [|exact Ht1]. apply open_call_no_create. }
  destruct o as [[dh sel]|e|].
  2,3: rewrite Hb in Hex; cbn [trace_of snd] in Hex;
    rewrite existsb_Forall_false in Hex;
    [discriminate Hex | constructor; [reflexivity|];
                        repeat (apply Forall_app; split); auto].
  cbn zeta in Hb. rewrite Hb in *. cbn [trace_of state_of fst snd] in *.
  assert (Hap : forall uh, sat (only (fun e => is_create_user e = false))
                             (samr_apply respond dce dh uh)) by sat_auto.
  assert (Hap2 : forall uh, sat same_me (samr_apply respond dce dh uh)) by sat_auto.
  change (me s0) with (me s) in Hb, Hex |- *.
  destruct (__noAdd (me s) || __delete (me s)).
  { assert (He : sat (only (fun e => is_create_user e = false))
                   (bind (samr_open_existing respond dce dh sel)
                      (fun uh => samr_apply respond dce dh uh))) by sat_auto.
    specialize (He s1). unfold only in He.
    rewrite existsb_Forall_false in Hex; [discriminate Hex|].
    constructor; [reflexivity|]. repeat (apply Forall_app; split); auto. }
  rewrite trace_bind, state_bind in *.
  destruct (samr_create_entry fuel dce dh s1)
    as [Hnone | (pre & n & msg & rep & Ht & Hpre & Hn)].
  { rewrite existsb_Forall_false in Hex; [discriminate Hex|].
    constructor; [reflexivity|]. repeat (apply Forall_app; split); auto.
    destruct (out_of _); [apply Hap | constructor..]. }
  exists (Ev (get_dce_rpc t) (inr dce) :: t1 ++ pre)%list, dce, dh, n, msg, rep.
  eexists. split; [|split; [|split]].
  - rewrite Ht. cbn [app]. rewrite <- !app_assoc. cbn [app]. reflexivity.
  - constructor; [reflexivity|]. apply Forall_app; auto.
  - repeat (apply Forall_app; split); auto.
    destruct (out_of _); [apply Hap | constructor..].
  - destruct (out_of (samr_create respond fuel dce dh s1)); [|exact Hn..].
    rewrite (Hap2 _ _). exact Hn.
Qed.

(** Lines 383-405, by the answers of the lookup and of the open. *)
Lemma samr_open_existing_run dce dh sel (s : St W) :
  let name := __computerName (me s) in
  let lookup := hSamrLookupNamesInDomain dce dh [name] in
  let access := if __delete (me s) then DELETE else USER_FORCE_PASSWORD_CHANGE in
  let what := if __delete (me s) then "delete" else "set password for" in
  samr_open_existing respond dce dh sel s =
    match respond _ lookup (world s) with
    | (inl e, w) =>
        (Raise (match e with
                | DCERPCSessionError code _ =>
                    if (code =? STATUS_NONE_MAPPED)%Z
                    then Exception ("Account " ++ fmt name ++ " not found in domain "
                                    ++ sel ++ "!")
                    else e
                | _ => e
                end), set_world s w, [Ev lookup (inl e)])
    | (inr rids, w) =>
        match rids with
        | [] => (Raise (IndexError "list index out of range"), set_world s w,
                 [Ev lookup (inr rids)])
        | rid :: _ =>
            match respond _ (hSamrOpenUser dce dh access rid) w with
            | (inl e, w2) =>
                (Raise (match e with
                        | DCERPCSessionError code _ =>
                            if (code =? STATUS_ACCESS_DENIED)%Z
                            then Exception ("User " ++ __username (me s)
                                            ++ " doesn't have right to " ++ what ++ " "
                                            ++ fmt name ++ "!")
                            else e
                        | _ => e
                        end), set_world (set_world s w) w2,
                 [Ev lookup (inr rids); Ev (hSamrOpenUser dce dh access rid) (inl e)])
            | (inr h, w2) =>
                (Ret h,
                 set_frame (set_world (set_world s w) w2)
                   (mk_Locals (servHandle (frame s)) (domainHandle (frame s)) (Some h)),
                 [Ev lookup (inr rids); Ev (hSamrOpenUser dce dh access rid) (inr h)])
            end
        end
    end.
Proof.
  cbn zeta. unfold samr_open_existing. rewrite bind_get_me.
  unfold try_except, bind, invoke, index0, set_userHandle, get_frame, put_frame, ret, raise.
  destruct (respond _ _ (world s)) as [[e|rids] w].
  - destruct e; try reflexivity.
    destruct (error_code =? STATUS_NONE_MAPPED)%Z; reflexivity.
  - destruct rids as [|rid rids]; [reflexivity|].
    destruct (__delete (me s)); cbn [world set_world];
      (destruct (respond _ _ w) as [[e|h] w2]; [|reflexivity];
       destruct e; try reflexivity;
       destruct (error_code =? STATUS_ACCESS_DENIED)%Z; reflexivity).
Qed.

Lemma open_call_quiet e :
  is_open_call e = true ->
  lookup_reply e = None /\ open_user_reply e = None /\ is_change_call e = false.
Proof. destruct e as [R c r| | |]; [destruct c|..]; cbn; intros; auto; congruence. Qed.

Lemma teardown_quiet e :
  is_teardown e = true ->
  lookup_reply e = None /\ open_user_reply e = None /\ is_change_call e = false.
Proof. destruct e as [R c r| | |]; [destruct c|..]; cbn; intros; auto; congruence. Qed.

Lemma log_quiet e :
  is_call e = false ->
  lookup_reply e = None /\ open_user_reply e = None /\ is_change_call e = false.
Proof. destruct e; cbn; intros; auto; congruence. Qed.

(** When the opening of the server and of the domain returns, the domain it
    names is the one it asked the server to look up. *)
Lemma samr_open_looked_up dce (s : St W) dh sel s1 t :
  samr_open respond dce s = (Ret (dh, sel), s1, t) ->
  first_reply looked_up_domain t = Some sel.
Proof.
  unfold samr_open. intros H.
  apply bind_invoke_Ret in H. destruct H as (u1 & w1 & t1 & _ & H & ->).
  apply bind_invoke_Ret in H. destruct H as (u2 & w2 & t2 & _ & H & ->).
  rewrite bind_get_me in H.
  apply bind_invoke_Ret in H. destruct H as (sh & w3 & t3 & _ & H & ->).
  rewrite bind_set_servHandle in H.
  apply bind_invoke_Ret in H. destruct H as (domains & w4 & t4 & _ & H & ->).
  apply bind_Ret in H. destruct H as (sel0 & s5 & t5 & t6 & Hsel & H & ->).
  apply samr_select_domain_Ret in Hsel. destruct Hsel as [-> ->].
  apply bind_invoke_Ret in H. destruct H as (sd & w6 & t7 & _ & H & ->).
  cbn. f_equal.
  rewrite bind_is_debug in H.
  destruct (debug _); cbn [when] in H.
  - unfold log in H. apply bind_emit_Ret in H. destruct H as (t8 & H & _).
    apply bind_invoke_Ret in H. destruct H as (dh0 & w7 & t9 & _ & H & _).
    rewrite bind_set_domainHandle in H. unfold ret in H. congruence.
  - rewrite bind_ret in H.
    apply bind_invoke_Ret in H. destruct H as (dh0 & w7 & t9 & _ & H & _).
    rewrite bind_set_domainHandle in H. unfold ret in H. congruence.
Qed.

(** A run of [doSAMRAdd] with [-no-add] or [-delete] that got as far as the
    account: the events before the block of lines 383-446 are quiet, and so
    are those after it, among which is the critical line when the block
    raised. *)
Lemma doSAMRAdd_existing_parts fuel t (s : St W) :
  __noAdd (me s) || __delete (me s) = true ->
  let quiet := fun e => lookup_reply e = None /\ open_user_reply e = None
                        /\ is_change_call e = false in
  Forall quiet (trace_of (doSAMRAdd respond fuel t s))
  \/ exists dce dh sel s1 pre post,
      me s1 = me s
      /\ Forall quiet pre /\ Forall quiet post
      /\ first_reply looked_up_domain pre = Some sel
      /\ let K := bind (samr_open_existing respond dce dh sel)
                    (fun uh => samr_apply respond dce dh uh) in
         trace_of (doSAMRAdd respond fuel t s) = (pre ++ trace_of (K s1) ++ post)%list
         /\ forall e, out_of (K s1) = Raise e -> is_Exception e = true ->
                      In (Log CRITICAL (str_exn e)) post.
Proof.
  intros Hflags. cbn zeta.
  destruct (respond _ (get_dce_rpc t) (world s)) as [[e|dce] w] eqn:Hd.
  { left. rewrite doSAMRAdd_run, Hd. repeat constructor. }
  destruct (doSAMRAdd_parts fuel t s dce w Hd) as (td & Htrace & Htd & _).
  rewrite Htrace. clear Htrace.
  set (s0 := set_frame (set_world s w) (mk_Locals None None None)) in *.
  assert (Htd' : Forall (fun e => lookup_reply e = None /\ open_user_reply e = None
                                 /\ is_change_call e = false) td).
  { eapply Forall_impl; [|exact Htd]. apply teardown_quiet. }
  destruct (samr_body_cases fuel dce s0) as (o & s1 & t1 & Es & Hme & Ht1 & Hb).
  assert (Hq1 : Forall (fun e => lookup_reply e = None /\ open_user_reply e = None
                                /\ is_change_call e = false) t1).
  { eapply Forall_impl; [|exact Ht1]. apply open_call_quiet. }
  change (me s0) with (me s) in Hme, Hb.
  rewrite guarded_run.
  destruct o as [[dh sel]|e|].
  - cbn zeta in Hb. rewrite Hflags in Hb. right.
    exists dce, dh, sel, s1, (Ev (get_dce_rpc t) (inr dce) :: t1).
    set (K := bind (samr_open_existing respond dce dh sel)
                (fun uh => samr_apply respond dce dh uh)) in *.
    exists (match out_of (K s1) with
            | Raise e =>
                if is_Exception e
                then (if debug (state_of (K s1)) then [Traceback e] else [])
                     ++ [Log CRITICAL (str_exn e)]
                else []
            | _ => []
            end ++ td)%list.
    split; [exact Hme|]. split; [constructor; [repeat split|exact Hq1]|].
    split; [|split; [|split]].
    + apply Forall_app. split; [|exact Htd'].
      destruct (out_of (K s1)) as [u|e|]; try constructor.
      destruct (is_Exception e); [|constructor].
      destruct (debug _); repeat constructor.
    + cbn [first_reply looked_up_domain]. eapply samr_open_looked_up. exact Es.
    + rewrite Hb. cbn [out_of state_of trace_of fst snd].
      destruct (out_of (K s1)) as [u|e|]; cbn [trace_of snd app];
        try (rewrite <- !app_assoc; reflexivity).
      destruct (is_Exception e); cbn [trace_of snd app];
        rewrite <- !app_assoc; reflexivity.
    + intros e He Hexc. rewrite He, Hexc. find_in 6%nat.
  - left. rewrite Hb. cbn [out_of state_of trace_of fst snd].
    constructor; [repeat split|].
    destruct (is_Exception e); cbn [trace_of snd];
      repeat (apply Forall_app; split); auto;
      try (destruct (debug s1)); repeat constructor.
  - left. rewrite Hb. cbn [out_of trace_of fst snd].
    constructor; [repeat split|]. apply Forall_app; auto.
Qed.

(** X20.  In a run of [doSAMRAdd] with [-no-add] or [-delete], when the
    lookup of the account is refused with STATUS_NONE_MAPPED, the run logs at
    critical level that the account was not found in the selected domain,
    the one it had asked the server to look up; it opens no user, deletes
    nothing and sets no password. *)
Theorem samr_missing_account_is_left_alone :
  forall fuel t (s : St W) msg,
    __noAdd (me s) || __delete (me s) = true ->
    first_reply lookup_reply (trace_of (doSAMRAdd respond fuel t s))
    = Some (inl (DCERPCSessionError STATUS_NONE_MAPPED msg)) ->
    Forall (fun e => open_user_reply e = None /\ is_change_call e = false)
      (trace_of (doSAMRAdd respond fuel t s))
    /\ exists sel,
        first_reply looked_up_domain (trace_of (doSAMRAdd respond fuel t s)) = Some sel
        /\ In (Log CRITICAL ("Account " ++ fmt (__computerName (me s))
                             ++ " not found in domain " ++ sel ++ "!"))
             (trace_of (doSAMRAdd respond fuel t s)).
Proof.
  intros fuel t s msg Hflags Hfirst.
  destruct (doSAMRAdd_existing_parts fuel t s Hflags)
    as [Hall | (dce & dh & sel & s1 & pre & post & Hme & Hpre & Hpost & Hsel & Htr
                & Hcrit)].
  { rewrite first_reply_none in Hfirst; [discriminate Hfirst|].
    eapply Forall_impl; [|exact Hall]. cbn. tauto. }
  rewrite Htr in *. clear Htr.
  assert (Hp : first_reply lookup_reply pre = None).
  { apply first_reply_none. eapply Forall_impl; [|exact Hpre]. cbn. tauto. }
  rewrite first_reply_app, Hp in Hfirst.
  pose proof (samr_open_existing_run dce dh sel s1) as Hrun. cbn zeta in Hrun.
  rewrite Hme in Hrun.
  destruct (respond _ _ (world s1)) as [[e|rids] w].
  - erewrite bind_of_Raise in Hfirst, Hcrit |- *; [|exact Hrun..].
    cbn [out_of state_of trace_of fst snd] in Hfirst, Hcrit |- *.
    cbn in Hfirst. injection Hfirst as ->.
    rewrite Z.eqb_refl in Hcrit. specialize (Hcrit _ eq_refl eq_refl).
    split.
    + apply Forall_app. split; [eapply Forall_impl; [|exact Hpre]; cbn; tauto|].
      constructor; [split; reflexivity|].
      eapply Forall_impl; [|exact Hpost]. cbn. tauto.
    + exists sel. split; [rewrite first_reply_app, Hsel; reflexivity|].
      apply in_or_app. right. right. exact Hcrit.
  - exfalso. rewrite trace_bind, !first_reply_app in Hfirst.
    destruct rids as [|rid rids];
      [|destruct (respond _ _ w) as [[e|h] w2]];
      rewrite Hrun in Hfirst; cbn in Hfirst; discriminate Hfirst.
Qed.

(** X21.  In a run of [doSAMRAdd] with [-no-add] or [-delete], when the
    account is found and the opening of it is
    refused with STATUS_ACCESS_DENIED, the run logs at critical level that
    the user has no right to delete the account, or to set its password, and
    neither deletes nor sets a password. *)
Theorem samr_denied_account_is_left_alone :
  forall fuel t (s : St W) msg,
    __noAdd (me s) || __delete (me s) = true ->
    first_reply open_user_reply (trace_of (doSAMRAdd respond fuel t s))
    = Some (inl (DCERPCSessionError STATUS_ACCESS_DENIED msg)) ->
    Forall (fun e => is_change_call e = false) (trace_of (doSAMRAdd respond fuel t s))
    /\ In (Log CRITICAL ("User " ++ __username (me s) ++ " doesn't have right to "
                         ++ (if __delete (me s) then "delete" else "set password for")
                         ++ " " ++ fmt (__computerName (me s)) ++ "!"))
         (trace_of (doSAMRAdd respond fuel t s)).
Proof.
  intros fuel t s msg Hflags Hfirst.
  destruct (doSAMRAdd_existing_parts fuel t s Hflags)
    as [Hall | (dce & dh & sel & s1 & pre & post & Hme & Hpre & Hpost & _ & Htr
                & Hcrit)].
  { rewrite first_reply_none in Hfirst; [discriminate Hfirst|].
    eapply Forall_impl; [|exact Hall]. cbn. tauto. }
  rewrite Htr in *. clear Htr.
  assert (Hp : first_reply open_user_reply pre = None).
  { apply first_reply_none. eapply Forall_impl; [|exact Hpre]. cbn. tauto. }
  assert (Hpo : first_reply open_user_reply post = None).
  { apply first_reply_none. eapply Forall_impl; [|exact Hpost]. cbn. tauto. }
  rewrite !first_reply_app, Hp, Hpo in Hfirst.
  pose proof (samr_open_existing_run dce dh sel s1) as Hrun. cbn zeta in Hrun.
  rewrite Hme in Hrun.
  destruct (respond _ _ (world s1)) as [[e|[|rid rids]] w].
  - exfalso. erewrite bind_of_Raise in Hfirst; [|exact Hrun].
    cbn in Hfirst. discriminate Hfirst.
  - exfalso. erewrite bind_of_Raise in Hfirst; [|exact Hrun].
    cbn in Hfirst. discriminate Hfirst.
  - destruct (respond _ _ w) as [[e|h] w2].
    + erewrite bind_of_Raise in Hfirst, Hcrit |- *; [|exact Hrun..].
      cbn [out_of state_of trace_of fst snd] in Hfirst, Hcrit |- *.
      cbn in Hfirst. injection Hfirst as ->.
      rewrite Z.eqb_refl in Hcrit. specialize (Hcrit _ eq_refl eq_refl).
      split.
      * apply Forall_app. split; [eapply Forall_impl; [|exact Hpre]; cbn; tauto|].
        constructor; [reflexivity|]. constructor; [reflexivity|].
        eapply Forall_impl; [|exact Hpost]. cbn. tauto.
      * apply in_or_app. right. right. right. exact Hcrit.
    + exfalso. rewrite trace_bind, first_reply_app, Hrun in Hfirst.
      cbn in Hfirst. discriminate Hfirst.
Qed.

(** X22.  In a run of [doSAMRAdd] with [-delete] whose guarded body
    returns, the account was looked up, the first relative identifier the
    lookup returned was opened with the DELETE right, and the account was
    deleted through the handle just opened.  That handle is then forgotten:
    the [finally] block closes the domain handle and the server handle only,
    and disconnects. *)
Theorem deleted_account_handle_is_not_closed :
  forall fuel t (s : St W) dce w s1 body,
    __delete (me s) = true ->
    respond _ (get_dce_rpc t) (world s) = (inr dce, w) ->
    samr_body respond fuel dce (set_frame (set_world s w) (mk_Locals None None None))
    = (Ret tt, s1, body) ->
    exists sh dh uh pre rid rids td,
      body = (pre ++
              [Ev (hSamrLookupNamesInDomain dce dh [__computerName (me s)])
                  (inr (rid :: rids));
               Ev (hSamrOpenUser dce dh DELETE rid) (inr uh);
               Ev (hSamrDeleteUser dce uh) (inr tt);
               Log INFO ("Successfully deleted " ++ fmt (__computerName (me s)) ++ ".")])%list
      /\ frame s1 = mk_Locals (Some sh) (Some dh) None
      /\ trace_of (doSAMRAdd respond fuel t s)
         = Ev (get_dce_rpc t) (inr dce) :: (body ++ td)%list
      /\ Forall (fun e => forall h, closed_handle e = Some h -> h = dh \/ h = sh) td
      /\ (existsb is_failed_close td = false ->
          exists rd,
            td = [Ev (hSamrCloseHandle dce dh) (inr tt);
                  Ev (hSamrCloseHandle dce sh) (inr tt);
                  Ev (dce_disconnect dce) rd]).
Proof.
  intros fuel t s dce w s1 body Hdel Hd Hbody.
  set (s0 := set_frame (set_world s w) (mk_Locals None None None)) in *.
  assert (Htrace : trace_of (doSAMRAdd respond fuel t s)
                   = Ev (get_dce_rpc t) (inr dce)
                     :: (body ++ trace_of (samr_teardown respond dce s1))%list).
  { rewrite doSAMRAdd_run, Hd. cbn zeta. fold s0.
    rewrite guarded_run, Hbody. reflexivity. }
  unfold samr_body in Hbody.
  apply bind_Ret in Hbody.
  destruct Hbody as ([dh sel] & s2 & t1 & t2 & Hopen & Hrest & ->).
  destruct (samr_open_Ret respond dce s0 dh sel s2 t1 Hopen) as (sh & Hfr2 & Hme2).
  change (me s0) with (me s) in Hme2.
  rewrite bind_get_me, Hme2, Hdel, orb_true_r in Hrest.
  apply bind_Ret in Hrest.
  destruct Hrest as (uh & s3 & t3 & t4 & Hex & Happly & ->).
  pose proof (samr_open_existing_run dce dh sel s2) as Hrun. cbn zeta in Hrun.
  rewrite Hme2, Hdel in Hrun. rewrite Hrun in Hex. clear Hrun.
  destruct (respond _ _ (world s2)) as [[e|[|rid rids]] w2]; try discriminate Hex.
  destruct (respond _ _ w2) as [[e|h] w3]; [discriminate Hex|].
  injection Hex as <- <- <-.
  unfold samr_apply in Happly. rewrite bind_get_me in Happly.
  cbn [me set_frame set_world] in Happly. rewrite Hme2, Hdel in Happly.
  apply bind_invoke_Ret in Happly. destruct Happly as ([] & w4 & t5 & _ & Happly & ->).
  unfold log in Happly. apply bind_emit_Ret in Happly.
  destruct Happly as (t6 & Happly & ->).
  cbn in Happly. injection Happly as <- <-.
  exists sh, dh, h, t1, rid, rids.
  exists (trace_of (samr_teardown respond dce
            (set_frame (set_world (set_frame (set_world (set_world s2 w2) w3)
               (mk_Locals (servHandle (frame s2)) (domainHandle (frame s2)) (Some h))) w4)
               (mk_Locals (servHandle (frame s2)) (domainHandle (frame s2)) None)))).
  split; [reflexivity|].
  split; [cbn [frame set_frame]; rewrite Hfr2; reflexivity|].
  split; [exact Htrace|]. split.
  - apply Forall_forall. intros e He h0 Hc.
    pose proof (samr_teardown_closes_held respond dce _ e h0 He Hc) as Hin.
    cbn in Hin. rewrite Hfr2 in Hin. cbn in Hin.
    destruct Hin as [<-|[<-|[]]]; auto.
  - intros Hok. apply samr_teardown_complete in Hok. destruct Hok as [rd Hok].
    exists rd. rewrite Hok. cbn. rewrite Hfr2. reflexivity.
Qed.

(** X23.  In a run of [doSAMRAdd] with [-no-add] and without [-delete]
    whose guarded body returns, the account was looked up, the first
    relative identifier the lookup returned was opened with the right to
    force a password change, and the password set through the handle just
    opened; the [finally] block closes that handle, the domain handle and
    the server handle, in this order, and disconnects. *)
Theorem password_is_set_through_the_opened_handle :
  forall fuel t (s : St W) dce w s1 body,
    __noAdd (me s) = true ->
    __delete (me s) = false ->
    respond _ (get_dce_rpc t) (world s) = (inr dce, w) ->
    samr_body respond fuel dce (set_frame (set_world s w) (mk_Locals None None None))
    = (Ret tt, s1, body) ->
    exists sh dh uh pre rid rids td,
      body = (pre ++
              [Ev (hSamrLookupNamesInDomain dce dh [__computerName (me s)])
                  (inr (rid :: rids));
               Ev (hSamrOpenUser dce dh USER_FORCE_PASSWORD_CHANGE rid) (inr uh);
               Ev (hSamrSetPasswordInternal4New dce uh (__computerPassword (me s)))
                  (inr tt);
               Log INFO ("Successfully set password of " ++ fmt (__computerName (me s))
                         ++ " to " ++ __computerPassword (me s) ++ ".")])%list
      /\ frame s1 = mk_Locals (Some sh) (Some dh) (Some uh)
      /\ trace_of (doSAMRAdd respond fuel t s)
         = Ev (get_dce_rpc t) (inr dce) :: (body ++ td)%list
      /\ (existsb is_failed_close td = false ->
          exists rd,
            td = [Ev (hSamrCloseHandle dce uh) (inr tt);
                  Ev (hSamrCloseHandle dce dh) (inr tt);
                  Ev (hSamrCloseHandle dce sh) (inr tt);
                  Ev (dce_disconnect dce) rd]).
Proof.
  intros fuel t s dce w s1 body Hna Hdel Hd Hbody.
  set (s0 := set_frame (set_world s w) (mk_Locals None None None)) in *.
  assert (Htrace : trace_of (doSAMRAdd respond fuel t s)
                   = Ev (get_dce_rpc t) (inr dce)
                     :: (body ++ trace_of (samr_teardown respond dce s1))%list).
  { rewrite doSAMRAdd_run, Hd. cbn zeta. fold s0.
    rewrite guarded_run, Hbody. reflexivity. }
  unfold samr_body in Hbody.
  apply bind_Ret in Hbody.
  destruct Hbody as ([dh sel] & s2 & t1 & t2 & Hopen & Hrest & ->).
  destruct (samr_open_Ret respond dce s0 dh sel s2 t1 Hopen) as (sh & Hfr2 & Hme2).
  change (me s0) with (me s) in Hme2.
  rewrite bind_get_me, Hme2, Hna in Hrest. cbn [orb] in Hrest.
  apply bind_Ret in Hrest.
  destruct Hrest as (uh & s3 & t3 & t4 & Hex & Happly & ->).
  pose proof (samr_open_existing_run dce dh sel s2) as Hrun. cbn zeta in Hrun.
  rewrite Hme2, Hdel in Hrun. rewrite Hrun in Hex. clear Hrun.
  destruct (respond _ _ (world s2)) as [[e|[|rid rids]] w2]; try discriminate Hex.
  destruct (respond _ _ w2) as [[e|h] w3]; [discriminate Hex|].
  injection Hex as <- <- <-.
  unfold samr_apply in Happly. rewrite bind_get_me in Happly.
  cbn [me set_frame set_world] in Happly. rewrite Hme2, Hdel, Hna in Happly.
  apply bind_invoke_Ret in Happly. destruct Happly as ([] & w4 & t5 & _ & Happly & ->).
  cbn in Happly. injection Happly as <- <-.
  exists sh, dh, h, t1, rid, rids.
  exists (trace_of (samr_teardown respond dce
            (set_world (set_frame (set_world (set_world s2 w2) w3)
               (mk_Locals (servHandle (frame s2)) (domainHandle (frame s2)) (Some h))) w4))).
  split; [reflexivity|].
  split; [cbn [frame set_frame set_world]; rewrite Hfr2; reflexivity|].
  split; [exact Htrace|].
  intros Hok. apply samr_teardown_complete in Hok. destruct Hok as [rd Hok].
  exists rd. rewrite Hok. cbn. rewrite Hfr2. reflexivity.
Qed.

(** What [samr_open] does once the server has enumerated its domains, when
    at most one of them is not the built-in one. *)
Lemma samr_open_enumerated dce (s : St W) doms :
  first_reply enum_reply (trace_of (samr_open respond dce s)) = Some (inr doms) ->
  exists sh pre,
    Forall (fun e => is_domain_call e = false) pre
    /\ (domainsWithoutBuiltin doms = [] ->
        out_of (samr_open respond dce s) = Raise (IndexError "list index out of range")
        /\ trace_of (samr_open respond dce s)
           = (pre ++ [Ev (hSamrEnumerateDomainsInSamServer dce sh) (inr doms)])%list)
    /\ (forall d, domainsWithoutBuiltin doms = [d] ->
        exists r rest,
          trace_of (samr_open respond dce s)
          = (pre ++ Ev (hSamrEnumerateDomainsInSamServer dce sh) (inr doms)
                 :: Ev (hSamrLookupDomainInSamServer dce sh d) r :: rest)%list).
Proof.
  unfold samr_open.
  rewrite bind_invoke.
  destruct (respond _ _ (world s)) as [[e|[]] w1]; [discriminate|].
  cbn [trace_of snd]. rewrite bind_invoke. cbn [world set_world].
  destruct (respond _ _ w1) as [[e|[]] w2]; [discriminate|].
  cbn [trace_of snd]. rewrite bind_get_me, bind_invoke. cbn [me world set_world].
  destruct (respond _ _ w2) as [[e|sh] w3]; [discriminate|].
  cbn [trace_of snd]. rewrite bind_set_servHandle, bind_invoke.
  cbn [world set_world set_frame].
  destruct (respond _ _ w3) as [[e|doms0] w4]; [discriminate|].
  cbn [trace_of snd first_reply enum_reply]. intros H. injection H as ->.
  exists sh.
  exists [Ev (dce_connect dce) (inr tt); Ev (dce_bind dce) (inr tt);
          Ev (hSamrConnect5 dce ("\\" ++ __target (me s) ++ nul)
                [SAM_SERVER_ENUMERATE_DOMAINS; SAM_SERVER_LOOKUP_DOMAIN]) (inr sh)].
  split; [repeat constructor|].
  cbn [out_of state_of trace_of fst snd app].
  match goal with
  | |- context [bind (samr_select_domain doms) ?f ?s0] =>
      set (s4 := s0); set (K := bind (samr_select_domain doms) f)
  end.
  pose proof (samr_select_domain_spec doms s4) as Hsel. cbn zeta in Hsel.
  fold (domainsWithoutBuiltin doms) in Hsel.
  destruct Hsel as [_ Hsel]. split.
  - intros Hc. rewrite Hc in Hsel. specialize (Hsel eq_refl).
    unfold K. erewrite bind_of_Raise; [|exact Hsel]. split; reflexivity.
  - intros d Hc. rewrite Hc in Hsel. specialize (Hsel eq_refl).
    unfold K. erewrite bind_of_Ret; [|exact Hsel].
    cbn [out_of state_of trace_of fst snd app].
    rewrite bind_invoke.
    destruct (respond _ _ (world s4)) as [[e|sid0] w5]; do 2 eexists; reflexivity.
Qed.

Lemma teardown_no_domain e : is_teardown e = true -> is_domain_call e = false.
Proof. destruct e as [R c r| | |]; [destruct c|..]; cbn; congruence. Qed.

(** X24.  When the server enumerates exactly one domain besides the
    built-in one, [doSAMRAdd] goes on with that domain, whatever NetBIOS name
    is configured: the next call is the lookup of that domain.  When it
    enumerates none, the run stops there with the critical line of an index
    error, and no domain is looked up or opened. *)
Theorem lone_domain_is_selected_unasked :
  forall fuel t (s : St W) doms,
    first_reply enum_reply (trace_of (doSAMRAdd respond fuel t s)) = Some (inr doms) ->
    (forall d,
        domainsWithoutBuiltin doms = [d] ->
        exists pre dce sh r rest,
          trace_of (doSAMRAdd respond fuel t s)
          = (pre ++ Ev (hSamrEnumerateDomainsInSamServer dce sh) (inr doms)
                 :: Ev (hSamrLookupDomainInSamServer dce sh d) r :: rest)%list)
    /\ (domainsWithoutBuiltin doms = [] ->
        In (Log CRITICAL "list index out of range")
          (trace_of (doSAMRAdd respond fuel t s))
        /\ Forall (fun e => is_domain_call e = false)
             (trace_of (doSAMRAdd respond fuel t s))).
Proof.
  intros fuel t s doms Hfirst.
  destruct (respond _ (get_dce_rpc t) (world s)) as [[e|dce] w] eqn:Hd.
  { rewrite doSAMRAdd_run, Hd in Hfirst. discriminate Hfirst. }
  destruct (doSAMRAdd_parts fuel t s dce w Hd) as (td & Htrace & Htd & _).
  rewrite Htrace in *. clear Htrace.
  set (s0 := set_frame (set_world s w) (mk_Locals None None None)) in *.
  assert (Htd1 : first_reply enum_reply td = None).
  { apply first_reply_none. eapply Forall_impl; [|exact Htd].
    intros e He. destruct e as [R c r| | |]; [destruct c|..]; cbn in *; congruence. }
  assert (Htd2 : Forall (fun e => is_domain_call e = false) td).
  { eapply Forall_impl; [|exact Htd]. apply teardown_no_domain. }
  rewrite guarded_run in *.
  assert (Hrest : forall dh sel,
             sat (only (fun e => enum_reply e = None))
               (bind (if __noAdd (me s) || __delete (me s)
                      then samr_open_existing respond dce dh sel
                      else samr_create respond fuel dce dh)
                     (fun uh => samr_apply respond dce dh uh))).
  { intros dh sel. destruct (__noAdd (me s) || __delete (me s)); sat_auto. }
  destruct (samr_body_cases fuel dce s0) as (o & s1 & t1 & Es & Hme & Ht1 & Hb).
  change (me s0) with (me s) in Hb.
  assert (Hopen : first_reply enum_reply t1 = Some (inr doms)).
  { destruct (first_reply enum_reply t1) as [x|] eqn:Hx.
    - cbn [first_reply enum_reply] in Hfirst. rewrite !first_reply_app in Hfirst.
      destruct o as [[dh sel]|e|]; rewrite Hb in Hfirst;
        cbn [out_of state_of trace_of fst snd] in Hfirst.
      + destruct (out_of _) as [u|e|]; cbn [trace_of snd] in Hfirst;
          try (destruct (is_Exception e)); cbn [trace_of snd] in Hfirst;
          rewrite ?first_reply_app, Hx in Hfirst; exact Hfirst.
      + destruct (is_Exception e); cbn [trace_of snd] in Hfirst;
          rewrite ?first_reply_app, Hx in Hfirst; exact Hfirst.
      + rewrite Hx in Hfirst. exact Hfirst.
    - exfalso. cbn [first_reply enum_reply] in Hfirst.
      rewrite !first_reply_app, Htd1 in Hfirst.
      destruct o as [[dh sel]|e|]; rewrite Hb in Hfirst;
        cbn [out_of state_of trace_of fst snd] in Hfirst.
      + specialize (Hrest dh sel s1). unfold only in Hrest.
        apply first_reply_none in Hrest.
        destruct (out_of _) as [u|e|]; cbn [trace_of snd] in Hfirst;
          try (destruct (is_Exception e)); cbn [trace_of snd] in Hfirst;
          rewrite ?first_reply_app, ?Hx, ?Hrest in Hfirst;
          try discriminate Hfirst;
          destruct (debug _); discriminate Hfirst.
      + destruct (is_Exception e); cbn [trace_of snd] in Hfirst;
          rewrite ?first_reply_app, ?Hx in Hfirst; try discriminate Hfirst;
          destruct (debug _); discriminate Hfirst.
      + rewrite Hx in Hfirst. discriminate Hfirst. }
  assert (Et : t1 = trace_of (samr_open respond dce s0)) by (rewrite Es; reflexivity).
  assert (Eo : o = out_of (samr_open respond dce s0)) by (rewrite Es; reflexivity).
  rewrite Et in Hopen.
  destruct (samr_open_enumerated dce s0 doms Hopen) as (sh & pre & Hpre & HA & HB).
  split.
  - intros d Hc. destruct (HB d Hc) as (r & rest & Ht).
    exists (Ev (get_dce_rpc t) (inr dce) :: pre), dce, sh, r.
    rewrite <- Et in Ht.
    destruct o as [[dh sel]|e|].
    + cbn zeta in Hb. rewrite Hb. cbn [out_of state_of trace_of fst snd].
      match goal with
      | |- context [match ?o0 with Ret _ => _ | Raise _ => _ | Loop => _ end] =>
          destruct o0 as [u|e|]; [|destruct (is_Exception e)|]
      end;
        cbn [trace_of snd]; eexists;
        rewrite Ht; cbn [app]; rewrite <- !app_assoc; cbn [app];
        rewrite <- ?app_assoc; reflexivity.
    + cbn iota in Hb. rewrite Hb. cbn [out_of state_of trace_of fst snd].
      destruct (is_Exception e); cbn [trace_of snd]; eexists;
        rewrite Ht; cbn [app]; rewrite <- !app_assoc; cbn [app];
        rewrite <- ?app_assoc; reflexivity.
    + cbn iota in Hb. rewrite Hb. cbn [out_of state_of trace_of fst snd]. eexists.
      rewrite Ht. cbn [app]. rewrite <- !app_assoc. cbn [app]. reflexivity.
  - intros Hc. destruct (HA Hc) as (Ho & Ht).
    rewrite <- Eo in Ho. rewrite <- Et in Ht. clear Eo Es. subst o.
    cbn iota in Hb. rewrite Hb. cbn [out_of state_of trace_of fst snd is_Exception str_exn].
    split; [find_in 8%nat|].
    constructor; [reflexivity|].
    repeat (apply Forall_app; split); auto; rewrite ?Ht;
      repeat (apply Forall_app; split); auto;
      try (destruct (debug s1)); repeat constructor.
Qed.

End Samr.

(** ** The theorems at work on the simulated domain controller *)

(** C9 as amended, at work: [PC1] becomes [PC1$]. *)
Lemma init_appends_marker_once_witness :
  computer_name (options_for (Some "PC1") "SAMR" None false false) = Some "PC1"
  /\ endswith "PC1" "$" = false
  /\ exists x,
      out_of (__init__ "alice" "pw" "corp.local"
                (options_for (Some "PC1") "SAMR" None false false)
                (start (sim_dc []))) = Ret x
      /\ __computerName x = Some "PC1$".
Proof.
  split; [reflexivity|]. split; [reflexivity|].
  destruct (init_appends_marker_once "alice" "pw" "corp.local"
              (options_for (Some "PC1") "SAMR" None false false) "PC1"
              (start (sim_dc [])) eq_refl eq_refl) as [Hname Hret].
  destruct Hret as [Hret _]; [reflexivity | reflexivity | reflexivity |].
  destruct Hret as [x Hx]; [discriminate|].
  exists x. split; [exact Hx|]. exact (proj1 (proj2 (Hname x Hx))).
Defined.

(** C6 at work: [-delete] with no computer name. *)
Lemma missing_name_rejected_before_any_call_witness :
  computer_name (options_for None "SAMR" None false true) = None
  /\ (no_add (options_for None "SAMR" None false true) = true
      \/ delete (options_for None "SAMR" None false true) = true)
  /\ (exists msg,
         out_of (__init__ "alice" "pw" "corp.local"
                   (options_for None "SAMR" None false true) (start (sim_dc [])))
         = Raise (ValueError msg))
  /\ Forall (fun e => is_call e = false)
       (trace_of (main sim_respond 5 "alice" "pw" "corp.local"
                    (options_for None "SAMR" None false true) (start (sim_dc [])))).
Proof.
  split; [reflexivity|]. split; [right; reflexivity|].
  apply (missing_name_rejected_before_any_call sim_respond 5 "alice" "pw" "corp.local"
           (options_for None "SAMR" None false true) (start (sim_dc [])));
    [reflexivity | right; reflexivity].
Defined.

(** C7 at work: the LDAPS loop on a directory where no generated name is
    taken returns after one probe. *)
Lemma generated_names_are_checked_absent_witness :
  exists s' t,
    ldaps_find_unused sim_respond 3 3 (ldaps_unnamed (sim_dc [])) = (Ret tt, s', t)
    /\ exists n pre b cs,
        __computerName (me s') = Some n
        /\ desktop_pattern n = true
        /\ t = (pre ++ [Ev (ldap_search 3
                              (__baseDN (me (ldaps_unnamed (sim_dc []))))
                              ("(sAMAccountName=" ++ n ++ ")") SUBTREE [])
                           (inr (b, cs))])%list
        /\ (List.length (entries cs) =? 1)%nat = false.
Proof.
  eexists. eexists. split; [vm_compute; reflexivity|].
  apply (proj1 (proj2 (generated_names_are_checked_absent sim_respond)) 3%nat 3%nat
           (ldaps_unnamed (sim_dc [])) tt).
  vm_compute. reflexivity.
Defined.

(** C8 at work: [PC1$] is in the directory. *)
Lemma existing_account_is_not_created_witness :
  let s := ldaps_pc1 "alice" (sim_dc ["PC1$"]) in
  let cs := mk_conn_state sim_success
              [mk_entry "CN=PC1,CN=Computers,DC=corp,DC=local" (Some "S-1-5-21-1-1104")]
              [] in
  __noAdd (me s) = false
  /\ __delete (me s) = false
  /\ __computerName (me s) = Some "PC1$"
  /\ first_reply search_reply (trace_of (run_ldaps sim_respond 5 s)) = Some (inr (true, cs))
  /\ List.length (entries cs) = 1%nat
  /\ out_of (run_ldaps sim_respond 5 s) = Ret tt
  /\ Forall (fun e => is_ldap_add e = false) (trace_of (run_ldaps sim_respond 5 s))
  /\ In (Log CRITICAL (already_exists "PC1$")) (trace_of (run_ldaps sim_respond 5 s)).
Proof.
  cbn zeta.
  split; [reflexivity|]. split; [reflexivity|]. split; [reflexivity|].
  split; [vm_compute; reflexivity|]. split; [reflexivity|].
  apply (proj1 (existing_account_is_not_created sim_respond 5
                  (ldaps_pc1 "alice" (sim_dc ["PC1$"])) "PC1$"
                  eq_refl eq_refl eq_refl) true
           (mk_conn_state sim_success
              [mk_entry "CN=PC1,CN=Computers,DC=corp,DC=local" (Some "S-1-5-21-1-1104")]
              []));
    [vm_compute; reflexivity | reflexivity].
Defined.

(** C2 at work: the quota of the machine account [WS01$] is used up. *)
Lemma quota_fallback_only_for_machine_accounts_witness :
  let s := ldaps_pc1 "WS01$" sim_quota in
  let cs := mk_conn_state sim_quota_exceeded [] [] in
  first_reply add_reply (trace_of (run_ldaps sim_respond 5 s)) = Some (inr (false, cs))
  /\ result (conn_result cs) = RESULT_UNWILLING_TO_PERFORM
  /\ sub_code cs = Some 0x216D%Z
  /\ bypass_attempts (trace_of (run_ldaps sim_respond 5 s)) = 1%nat.
Proof.
  cbn zeta.
  assert (H1 : first_reply add_reply
                 (trace_of (run_ldaps sim_respond 5 (ldaps_pc1 "WS01$" sim_quota)))
               = Some (inr (false, mk_conn_state sim_quota_exceeded [] [])))
    by (vm_compute; reflexivity).
  assert (H2 : result (conn_result (mk_conn_state sim_quota_exceeded [] []))
               = RESULT_UNWILLING_TO_PERFORM) by reflexivity.
  assert (H3 : sub_code (mk_conn_state sim_quota_exceeded [] []) = Some 0x216D%Z)
    by (vm_compute; reflexivity).
  split; [exact H1|]. split; [exact H2|]. split; [exact H3|].
  destruct (quota_fallback_only_for_machine_accounts sim_respond 5
              (ldaps_pc1 "WS01$" sim_quota)
              (mk_conn_state sim_quota_exceeded [] []) 0x216D%Z H1 H2 H3) as [H _].
  destruct (H eq_refl) as [Hc _]. rewrite Hc. vm_compute. reflexivity.
Defined.

(** C10 at work: the account [PC1$] is created over SAMR. *)
Lemma create_handle_is_replaced_not_closed_witness :
  let s := samr_pc1 (sim_dc []) in
  __noAdd (me s) = false
  /\ __delete (me s) = false
  /\ sim_respond _ (get_dce_rpc 1) (world s) = (inr 2%nat, sim_dc [])
  /\ exists s1 body,
      samr_body sim_respond 5 2
        (set_frame (set_world s (sim_dc [])) (mk_Locals None None None))
      = (Ret tt, s1, body)
      /\ exists sh dh hc ho pre name pw rids rid msg td,
          body = (pre ++
                  [Ev (hSamrCreateUser2InDomain 2 dh name
                         USER_WORKSTATION_TRUST_ACCOUNT USER_FORCE_PASSWORD_CHANGE)
                      (inr hc);
                   Ev (hSamrSetPasswordInternal4New 2 hc pw) (inr tt);
                   Ev (hSamrLookupNamesInDomain 2 dh [name]) (inr rids);
                   Ev (hSamrOpenUser 2 dh MAXIMUM_ALLOWED rid) (inr ho);
                   Ev (hSamrSetInformationUser2 2 ho USER_WORKSTATION_TRUST_ACCOUNT)
                      (inr tt);
                   Log INFO msg])%list
          /\ frame s1 = mk_Locals (Some sh) (Some dh) (Some ho)
          /\ trace_of (doSAMRAdd sim_respond 5 1 s)
             = Ev (get_dce_rpc 1) (inr 2%nat) :: (body ++ td)%list
          /\ Forall (fun e => closed_handle e = None) body
          /\ Forall (fun e => forall h, closed_handle e = Some h ->
                                       h = ho \/ h = dh \/ h = sh) td.
Proof.
  cbn zeta.
  split; [reflexivity|]. split; [reflexivity|]. split; [reflexivity|].
  eexists. eexists. split; [vm_compute; reflexivity|].
  apply (create_handle_is_replaced_not_closed sim_respond 5 1
           (samr_pc1 (sim_dc [])) 2 (sim_dc []));
    [reflexivity | reflexivity | reflexivity | vm_compute; reflexivity].
Defined.

(** C1 as stated fails: the account is created, and the close of the user
    handle raises.  The error leaves [doSAMRAdd]; the domain handle 11 and the
    server handle 10, both held, are never closed, and the transport is never
    disconnected. *)
Lemma teardown_cut_short_by_failed_close :
  let r := doSAMRAdd sim_respond 5 1 (samr_pc1 sim_close_fails) in
  out_of r = Raise (DCERPCSessionError 0xc0000008 "STATUS_INVALID_HANDLE")
  /\ frame (state_of r) = mk_Locals (Some 10%nat) (Some 11%nat) (Some 13%nat)
  /\ filter is_teardown (trace_of r)
     = [Ev (hSamrCloseHandle 2 13)
          (inl (DCERPCSessionError 0xc0000008 "STATUS_INVALID_HANDLE"))].
Proof. cbn zeta. repeat split; vm_compute; reflexivity. Qed.

(** C1 as amended, at work: the same run on a server whose close-handle
    calls return ends with the three closes and the disconnect; on the
    server whose close-handle calls raise, the teardown is the failed close
    of the first handle held. *)
Lemma teardown_follows_guarded_body_witness :
  let s := samr_pc1 (sim_dc []) in
  let s' := samr_pc1 sim_close_fails in
  (sim_respond _ (get_dce_rpc 1) (world s) = (inr 2%nat, sim_dc [])
   /\ out_of (doSAMRAdd sim_respond 5 1 s) <> Loop
   /\ exists body td,
       trace_of (doSAMRAdd sim_respond 5 1 s)
       = Ev (get_dce_rpc 1) (inr 2%nat) :: (body ++ td)%list
       /\ Forall (fun e => is_teardown e = false) body
       /\ Forall (fun e => is_teardown e = true) td
       /\ (exists n, closed_handles td = firstn n (handles_of (held body)))
       /\ (existsb is_failed_close td = false ->
           exists rd, td = teardown_trace 2 (held body) rd)
       /\ (existsb is_failed_close td = true ->
           exists n h e,
             nth_error (handles_of (held body)) n = Some h
             /\ td = (map (fun h0 => Ev (hSamrCloseHandle 2 h0) (inr tt))
                        (firstn n (handles_of (held body)))
                      ++ [Ev (hSamrCloseHandle 2 h) (inl e)])%list
             /\ out_of (doSAMRAdd sim_respond 5 1 s) = Raise e))
  /\ (sim_respond _ (get_dce_rpc 1) (world s') = (inr 2%nat, sim_close_fails)
      /\ out_of (doSAMRAdd sim_respond 5 1 s') <> Loop
      /\ exists body td,
          trace_of (doSAMRAdd sim_respond 5 1 s')
          = Ev (get_dce_rpc 1) (inr 2%nat) :: (body ++ td)%list
          /\ Forall (fun e => is_teardown e = false) body
          /\ Forall (fun e => is_teardown e = true) td
          /\ (exists n, closed_handles td = firstn n (handles_of (held body)))
          /\ (existsb is_failed_close td = false ->
              exists rd, td = teardown_trace 2 (held body) rd)
          /\ (existsb is_failed_close td = true ->
              exists n h e,
                nth_error (handles_of (held body)) n = Some h
                /\ td = (map (fun h0 => Ev (hSamrCloseHandle 2 h0) (inr tt))
                           (firstn n (handles_of (held body)))
                         ++ [Ev (hSamrCloseHandle 2 h) (inl e)])%list
                /\ out_of (doSAMRAdd sim_respond 5 1 s') = Raise e)).
Proof.
  cbn zeta. split.
  - split; [reflexivity|].
    split; [vm_compute; discriminate|].
    apply (teardown_follows_guarded_body sim_respond 5 1 (samr_pc1 (sim_dc [])) 2
             (sim_dc []));
      [reflexivity | vm_compute; discriminate].
  - split; [reflexivity|].
    split; [vm_compute; discriminate|].
    apply (teardown_follows_guarded_body sim_respond 5 1 (samr_pc1 sim_close_fails) 2
             sim_close_fails);
      [reflexivity | vm_compute; discriminate].
Defined.



(** C4 as stated fails: the endpoint mapper does not answer, and the error
    leaves [run_samr] and [run] unlogged; the end of the script prints it. *)
Lemma setup_error_leaves_run_samr :
  let s := samr_pc1 sim_no_endpoint in
  run_samr sim_respond 5 s
  = (Raise (Exception "Connection error: timed out"), s,
     [Ev (hept_map "corp.local") (inl (Exception "Connection error: timed out"))])
  /\ out_of (run sim_respond 5 s) = Raise (Exception "Connection error: timed out")
  /\ trace_of (main sim_respond 5 "alice" "pw" "corp.local"
                 (options_for (Some "PC1") "SAMR" None false false)
                 (start sim_no_endpoint))
     = [Ev (hept_map "corp.local") (inl (Exception "Connection error: timed out"));
        Stdout "Connection error: timed out"].
Proof. cbn zeta. repeat split; vm_compute; reflexivity. Qed.

(** C4 as amended, at work, in both directions: the error that left
    [run_samr] above is the error of its last call, a call of the set-up;
    and the call of the set-up that raised is the last call made, and its
    error is the one that leaves [run_samr]. *)
Lemma exceptions_caught_in_guarded_blocks_witness :
  let s := samr_pc1 sim_no_endpoint in
  let x := Exception "Connection error: timed out" in
  let ev := Ev (hept_map "corp.local") (inl x) in
  (out_of (run_samr sim_respond 5 s) = Raise x
   /\ is_Exception x = true
   /\ exists pre ev',
       trace_of (run_samr sim_respond 5 s) = (pre ++ [ev'])%list
       /\ raise_of ev' = Some x
       /\ is_unguarded ev' = true)
  /\ (trace_of (run_samr sim_respond 5 s) = ([] ++ ev :: [])%list
      /\ is_unguarded ev = true
      /\ raise_of ev = Some x
      /\ @nil event = []
      /\ out_of (run_samr sim_respond 5 s) = Raise x).
Proof.
  cbn zeta. split.
  - split; [vm_compute; reflexivity|]. split; [reflexivity|].
    apply (proj1 (proj2 (proj2 (proj2 (exceptions_caught_in_guarded_blocks sim_respond))))
             5%nat (samr_pc1 sim_no_endpoint));
      [vm_compute; reflexivity | reflexivity].
  - split; [vm_compute; reflexivity|]. split; [reflexivity|]. split; [reflexivity|].
    apply (proj2 (proj2 (proj2 (proj2 (proj2
             (exceptions_caught_in_guarded_blocks sim_respond)))))
             5%nat (samr_pc1 sim_no_endpoint) []
             (Ev (hept_map "corp.local") (inl (Exception "Connection error: timed out")))
             [] (Exception "Connection error: timed out"));
      [vm_compute; reflexivity | reflexivity | reflexivity].
Defined.

(** The objects used above are the ones the constructor builds. *)
Lemma ready_objects_are_constructed (w : Sim) :
  constructed "alice" "pw" "corp.local"
    (options_for (Some "PC1") "SAMR" None false false) w = samr_pc1 w
  /\ constructed "alice" "pw" "corp.local"
       (options_for None "SAMR" None false false) w = samr_unnamed w
  /\ constructed "WS01$" "pw" "corp.local"
       (options_for (Some "PC1") "LDAPS" None false false) w = ldaps_pc1 "WS01$" w
  /\ constructed "alice" "pw" "corp.local"
       (options_for None "LDAPS" None false false) w = ldaps_unnamed w
  /\ constructed "alice" "pw" "corp.local"
       (options_for (Some "PC1") "SAMR" (Some "CORP") false false) w
     = ready w (samr_self "alice" (Some "PC1$") "CORP" false false).
Proof. repeat split; vm_compute; reflexivity. Qed.

(** C9 as stated fails: the empty computer name lacks the trailing [$],
    and it is not completed to [$]: [self.__computerName[-1]] raises
    IndexError, and no object is constructed. *)
Lemma init_empty_name_raises :
  let o := options_for (Some "") "SAMR" None false false in
  computer_name o = Some ""
  /\ endswith "" "$" = false
  /\ out_of (__init__ "alice" "pw" "corp.local" o (start (sim_dc [])))
     = Raise (IndexError "string index out of range").
Proof. cbn zeta. repeat split; vm_compute; reflexivity. Qed.

(** ** More runs on the simulated domain controller *)

(** The constructor, over LDAPS with nothing but the computer name given. *)
Lemma init_port_default_witness :
  let o := options_for (Some "PC1") "LDAPS" None false false in
  exists x,
    out_of (__init__ "alice" "pw" "corp.local" o (start (sim_dc []))) = Ret x
    /\ __port x = Some 636%Z.
Proof.
  cbn zeta. eexists. split; [vm_compute; reflexivity|].
  apply (init_port_default "alice" "pw" "corp.local"
           (options_for (Some "PC1") "LDAPS" None false false) (start (sim_dc []))).
  vm_compute. reflexivity.
Defined.

Lemma init_base_dn_and_group_witness :
  let o := options_for (Some "PC1") "LDAPS" None false false in
  exists x,
    out_of (__init__ "alice" "pw" "corp.local" o (start (sim_dc []))) = Ret x
    /\ __baseDN x = Some "dc=corp,dc=local"
    /\ __computerGroup x = Some "CN=Computers,dc=corp,dc=local".
Proof.
  cbn zeta. eexists. split; [vm_compute; reflexivity|].
  apply (init_base_dn_and_group "alice" "pw" "corp.local"
           (options_for (Some "PC1") "LDAPS" None false false) (start (sim_dc [])));
    [vm_compute; reflexivity | reflexivity].
Defined.

(** With an NT hash alone, the pair gets the empty-password LM hash and the
    LM hash attribute stays empty. *)
Lemma init_hashes_split_witness :
  let o := mk_Options (Some ":0123456789abcdef0123456789abcdef") None false None
             (Some "PC1") None "SAMR" None None false false None None None in
  exists x,
    out_of (__init__ "alice" "pw" "corp.local" o (start (sim_dc []))) = Ret x
    /\ exists lm nt,
        split ":" ":0123456789abcdef0123456789abcdef" = [lm; nt]
        /\ __lmhash x = lm
        /\ __nthash x = nt
        /\ __hashes x
           = Some (if (lm =? "") && (String.length nt =? 32)%nat
                   then "aad3b435b51404eeaad3b435b51404ee:" ++ nt
                   else ":0123456789abcdef0123456789abcdef").
Proof.
  cbn zeta. eexists. split; [vm_compute; reflexivity|].
  apply (init_hashes_split "alice" "pw" "corp.local"
           (mk_Options (Some ":0123456789abcdef0123456789abcdef") None false None
              (Some "PC1") None "SAMR" None None false false None None None)
           (start (sim_dc [])));
    [vm_compute; reflexivity | reflexivity].
Defined.

Lemma init_computer_password_witness :
  let o := mk_Options None None false None (Some "PC1") None "SAMR" None None
             false false None None None in
  exists x,
    out_of (__init__ "alice" "pw" "corp.local" o (start (sim_dc []))) = Ret x
    /\ String.length (__computerPassword x) = 32%nat
    /\ Forall (fun c => In c (list_ascii_of_string (ascii_letters ++ digits)))
         (list_ascii_of_string (__computerPassword x)).
Proof.
  cbn zeta. eexists. split; [vm_compute; reflexivity|].
  apply (init_computer_password "alice" "pw" "corp.local"
           (mk_Options None None false None (Some "PC1") None "SAMR" None None
              false false None None None) (start (sim_dc []))).
  vm_compute. reflexivity.
Defined.

(** Kerberos without [-dc-host], and no computer name with [-delete]: the
    error is the one about Kerberos. *)
Lemma bad_options_rejected_before_any_call_witness :
  let o := mk_Options None None true None None None "SAMR" None None
             false true None None None in
  (k o = true /\ dc_host o = None)
  /\ exists msg,
      __init__ "alice" "pw" "corp.local" o (start (sim_dc []))
      = (Raise (ValueError msg), start (sim_dc []), []).
Proof.
  cbn zeta. split; [split; reflexivity|].
  apply (bad_options_rejected_before_any_call "alice" "pw" "corp.local"
           (mk_Options None None true None None None "SAMR" None None
              false true None None None) (start (sim_dc []))).
  right. left. split; reflexivity.
Defined.

(** The endpoint mapper does not answer: the error leaves [run_samr] and is
    printed by the script. *)
Lemma main_prints_every_exception_witness :
  let o := options_for (Some "PC1") "SAMR" None false false in
  let s := start sim_no_endpoint in
  exists s1 t1,
    main_body sim_respond 5 "alice" "pw" "corp.local" o s
    = (Raise (Exception "Connection error: timed out"), s1, t1)
    /\ main sim_respond 5 "alice" "pw" "corp.local" o s
       = (Ret tt, s1,
          (t1 ++ (if debug s1 then [Traceback (Exception "Connection error: timed out")]
                  else [])
              ++ [Stdout "Connection error: timed out"])%list).
Proof.
  cbn zeta. do 2 eexists. split; [vm_compute; reflexivity|].
  apply (proj2 (proj2 (main_prints_every_exception sim_respond 5 "alice" "pw"
                         "corp.local" (options_for (Some "PC1") "SAMR" None false false)
                         (start sim_no_endpoint))));
    [discriminate | vm_compute; reflexivity | reflexivity].
Defined.

(** A create run over SAMR deletes nothing. *)
Lemma run_deletes_only_when_asked_witness :
  __delete (me (samr_pc1 (sim_dc []))) = false
  /\ Forall (fun e => is_delete_call e = false)
       (trace_of (run sim_respond 5 (samr_pc1 (sim_dc [])))).
Proof.
  split; [reflexivity|].
  apply (run_deletes_only_when_asked sim_respond 5 (samr_pc1 (sim_dc []))).
  reflexivity.
Defined.

(** A [-no-add] run over SAMR on an account that is there creates nothing. *)
Lemma run_creates_only_when_asked_witness :
  let s := ready (sim_dc ["PC1$"])
             (samr_self "alice" (Some "PC1$") "corp.local" true false) in
  __noAdd (me s) || __delete (me s) = true
  /\ Forall (fun e => is_create_call e = false) (trace_of (run sim_respond 5 s)).
Proof.
  cbn zeta. split; [reflexivity|].
  apply (run_creates_only_when_asked sim_respond 5
           (ready (sim_dc ["PC1$"])
              (samr_self "alice" (Some "PC1$") "corp.local" true false))).
  reflexivity.
Defined.

(** A run with both [-no-add] and [-delete] over LDAPS sets no password. *)
Lemma run_with_delete_sets_no_password_witness :
  let s := ready (sim_dc ["PC1$"]) (ldaps_self_with true true None) in
  __delete (me s) = true
  /\ Forall (fun e => is_password_call e = false) (trace_of (run sim_respond 5 s)).
Proof.
  cbn zeta. split; [reflexivity|].
  apply (run_with_delete_sets_no_password sim_respond 5
           (ready (sim_dc ["PC1$"]) (ldaps_self_with true true None))).
  reflexivity.
Defined.

Lemma run_keeps_to_its_method_witness :
  (__method (me (samr_pc1 (sim_dc []))) = "SAMR"
   /\ Forall (fun e => is_ldap_call e || is_kerberos_login_call e = false)
        (trace_of (run sim_respond 5 (samr_pc1 (sim_dc [])))))
  /\ (__method (me (ldaps_pc1 "alice" (sim_dc []))) = "LDAPS"
      /\ Forall (fun e => is_rpc_call e = false)
           (trace_of (run sim_respond 5 (ldaps_pc1 "alice" (sim_dc []))))).
Proof.
  split; (split; [reflexivity|]).
  - apply (proj1 (run_keeps_to_its_method sim_respond 5 (samr_pc1 (sim_dc [])))).
    reflexivity.
  - apply (proj1 (proj2 (run_keeps_to_its_method sim_respond 5
                           (ldaps_pc1 "alice" (sim_dc []))))).
    reflexivity.
Defined.

(** The account [PC1$] is added over LDAPS: the add follows the search that
    did not find it. *)
Lemma ldaps_adds_the_entry_it_checked_witness :
  let s := ldaps_pc1 "alice" (sim_dc []) in
  existsb is_ldap_add (trace_of (run_ldaps sim_respond 5 s)) = true
  /\ exists pre conn n b cs rep rest,
      trace_of (run_ldaps sim_respond 5 s)
      = (pre ++ Ev (ldap_search conn (__baseDN (me s))
                     ("(sAMAccountName=" ++ n ++ ")") SUBTREE []) (inr (b, cs))
             :: Ev (ldap_add conn (computer_dn (me s) n) computer_classes
                      (computer_attrs (computer_entry (me s) n)) None) rep
             :: rest)%list
      /\ Forall (fun e => is_ldap_add e = false) pre
      /\ List.length (entries cs) <> 1%nat
      /\ __computerName (me (state_of (run_ldaps sim_respond 5 s))) = Some n.
Proof.
  cbn zeta. split; [vm_compute; reflexivity|].
  apply (ldaps_adds_the_entry_it_checked sim_respond 5 (ldaps_pc1 "alice" (sim_dc []))).
  vm_compute. reflexivity.
Defined.

(** The caller may not add the entry. *)
Lemma refused_add_is_reported_witness :
  let respond := respond_refusing_add insufficient_rights in
  let s := ldaps_pc1 "alice" (sim_dc []) in
  let cs := mk_conn_state insufficient_rights [] [] in
  first_reply add_reply (trace_of (run_ldaps respond 5 s)) = Some (inr (false, cs))
  /\ out_of (run_ldaps respond 5 s) = Ret tt
  /\ bypass_attempts (trace_of (run_ldaps respond 5 s)) = 0%nat
  /\ exists pre,
      trace_of (run_ldaps respond 5 s)
      = (pre ++ [Log CRITICAL
                   "User alice doesn't have right to create a machine account!"])%list.
Proof.
  cbn zeta. split; [vm_compute; reflexivity|].
  apply (refused_add_is_reported (respond_refusing_add insufficient_rights) 5
           (ldaps_pc1 "alice" (sim_dc [])) (mk_conn_state insufficient_rights [] []));
    [vm_compute; reflexivity | vm_compute; discriminate].
Defined.

(** The message of the refusal does not begin with a number. *)
Lemma unreadable_sub_code_is_reported_witness :
  let respond := respond_refusing_add unwilling_no_code in
  let s := ldaps_pc1 "alice" (sim_dc []) in
  let cs := mk_conn_state unwilling_no_code [] [] in
  first_reply add_reply (trace_of (run_ldaps respond 5 s)) = Some (inr (false, cs))
  /\ sub_code cs = None
  /\ out_of (run_ldaps respond 5 s) = Ret tt
  /\ bypass_attempts (trace_of (run_ldaps respond 5 s)) = 0%nat
  /\ exists pre msg,
      trace_of (run_ldaps respond 5 s) = (pre ++ [Log CRITICAL msg])%list.
Proof.
  cbn zeta. split; [vm_compute; reflexivity|]. split; [vm_compute; reflexivity|].
  apply (unreadable_sub_code_is_reported (respond_refusing_add unwilling_no_code) 5
           (ldaps_pc1 "alice" (sim_dc [])) (mk_conn_state unwilling_no_code [] []));
    [vm_compute; reflexivity | reflexivity | vm_compute; reflexivity].
Defined.

(** [-no-add] over LDAPS for an account that is not there. *)
Lemma ldaps_missing_account_is_left_alone_witness :
  let s := ready (sim_dc []) (ldaps_self_with true false None) in
  let cs := mk_conn_state sim_success [] [] in
  first_reply search_reply (trace_of (run_ldaps sim_respond 5 s)) = Some (inr (true, cs))
  /\ out_of (run_ldaps sim_respond 5 s) = Ret tt
  /\ Forall (fun e => is_change_call e = false) (trace_of (run_ldaps sim_respond 5 s))
  /\ exists pre,
      trace_of (run_ldaps sim_respond 5 s)
      = (pre ++ [Log CRITICAL "Account PC1$ not found in dc=corp,dc=local!"])%list.
Proof.
  cbn zeta. split; [vm_compute; reflexivity|].
  apply (ldaps_missing_account_is_left_alone sim_respond 5
           (ready (sim_dc []) (ldaps_self_with true false None)) true
           (mk_conn_state sim_success [] []));
    [reflexivity | vm_compute; reflexivity | cbn; discriminate].
Defined.

(** [-no-add] and [-delete] together over LDAPS: the account is deleted, and
    the line says its password was set. *)
Lemma ldaps_delete_is_reported_witness :
  let s := ready (sim_dc ["PC1$"]) (ldaps_self_with true true None) in
  let cs := mk_conn_state sim_success [] [] in
  first_reply delete_reply (trace_of (run_ldaps sim_respond 5 s)) = Some (inr (true, cs))
  /\ out_of (run_ldaps sim_respond 5 s) = Ret tt
  /\ exists pre,
      trace_of (run_ldaps sim_respond 5 s)
      = (pre ++ [Log INFO "Succesfully set password of PC1$ to Passw0rd!."])%list.
Proof.
  cbn zeta. split; [vm_compute; reflexivity|].
  apply (ldaps_delete_is_reported sim_respond 5
           (ready (sim_dc ["PC1$"]) (ldaps_self_with true true None))
           (mk_conn_state sim_success [] []));
    [reflexivity | vm_compute; reflexivity].
Defined.

(** A server that speaks TLSv1 only. *)
Lemma tlsv1_only_after_socket_error_witness :
  let s := ldaps_pc1 "alice" (sim_dc []) in
  existsb is_tlsv1_call (trace_of (run_ldaps respond_tlsv1_only 5 s)) = true
  /\ exists pre ev msg r post,
      trace_of (run_ldaps respond_tlsv1_only 5 s)
      = (pre ++ ev :: Ev (ldap3_Tls PROTOCOL_TLSv1) r :: post)%list
      /\ raise_of ev = Some (LDAPSocketOpenError msg)
      /\ Forall (fun e => is_tlsv1_call e = false) pre
      /\ Forall (fun e => is_tlsv1_call e = false) post.
Proof.
  cbn zeta. split; [vm_compute; reflexivity|].
  apply (tlsv1_only_after_socket_error respond_tlsv1_only 5
           (ldaps_pc1 "alice" (sim_dc []))).
  vm_compute. reflexivity.
Defined.

(** The credentials are refused: unnoticed on the first attempt, an error
    on the retry with hashes. *)
Lemma refused_bind_is_noticed_only_on_retry_witness :
  let s := ldaps_pc1 "alice" (sim_dc []) in
  let s' := ready (sim_dc []) (ldaps_self_with false false (Some "aa:bb")) in
  let cs := mk_conn_state invalid_credentials [] [] in
  (exists conn,
      out_of (ldaps_connect respond_refusing_bind "corp.local" "corp.local\alice" 1 s)
      = Ret conn)
  /\ out_of (ldaps_connect_tlsv1 respond_tlsv1_refusing "corp.local" "corp.local\alice" s')
     = Raise (Exception (result_str (conn_result cs))).
Proof.
  cbn zeta. split.
  - apply (proj1 (refused_bind_is_noticed_only_on_retry respond_refusing_bind)
             "corp.local" "corp.local\alice" 1%nat (ldaps_pc1 "alice" (sim_dc []))
             (false, mk_conn_state invalid_credentials [] [])).
    vm_compute. reflexivity.
  - apply (proj2 (refused_bind_is_noticed_only_on_retry respond_tlsv1_refusing)
             "corp.local" "corp.local\alice"
             (ready (sim_dc []) (ldaps_self_with false false (Some "aa:bb")))
             (mk_conn_state invalid_credentials [] [])).
    vm_compute. reflexivity.
Defined.

(** The account [PC1$] is created over SAMR. *)
Lemma samr_creates_the_name_it_checked_witness :
  let s := samr_pc1 (sim_dc []) in
  existsb is_create_user (trace_of (doSAMRAdd sim_respond 5 1 s)) = true
  /\ exists pre dce dh n msg rep rest,
      trace_of (doSAMRAdd sim_respond 5 1 s)
      = (pre ++ Ev (hSamrLookupNamesInDomain dce dh [Some n])
                  (inl (DCERPCSessionError STATUS_NONE_MAPPED msg))
             :: Ev (hSamrCreateUser2InDomain dce dh (Some n)
                      USER_WORKSTATION_TRUST_ACCOUNT USER_FORCE_PASSWORD_CHANGE) rep
             :: rest)%list
      /\ Forall (fun e => is_create_user e = false) pre
      /\ Forall (fun e => is_create_user e = false) rest
      /\ __computerName (me (state_of (doSAMRAdd sim_respond 5 1 s))) = Some n.
Proof.
  cbn zeta. split; [vm_compute; reflexivity|].
  apply (samr_creates_the_name_it_checked sim_respond 5 1%nat (samr_pc1 (sim_dc []))).
  vm_compute. reflexivity.
Defined.

(** [-delete] over SAMR for an account that is not there. *)
Lemma samr_missing_account_is_left_alone_witness :
  let s := ready (sim_dc []) (samr_self "alice" (Some "PC1$") "corp.local" false true) in
  first_reply lookup_reply (trace_of (doSAMRAdd sim_respond 5 1 s))
  = Some (inl (DCERPCSessionError STATUS_NONE_MAPPED "STATUS_NONE_MAPPED"))
  /\ Forall (fun e => open_user_reply e = None /\ is_change_call e = false)
       (trace_of (doSAMRAdd sim_respond 5 1 s))
  /\ exists sel,
      first_reply looked_up_domain (trace_of (doSAMRAdd sim_respond 5 1 s)) = Some sel
      /\ In (Log CRITICAL ("Account PC1$ not found in domain " ++ sel ++ "!"))
           (trace_of (doSAMRAdd sim_respond 5 1 s)).
Proof.
  cbn zeta. split; [vm_compute; reflexivity|].
  apply (samr_missing_account_is_left_alone sim_respond 5 1%nat
           (ready (sim_dc [])
              (samr_self "alice" (Some "PC1$") "corp.local" false true))
           "STATUS_NONE_MAPPED");
    [reflexivity | vm_compute; reflexivity].
Defined.

(** [-delete] over SAMR by a caller who may not open the account. *)
Lemma samr_denied_account_is_left_alone_witness :
  let s := ready (sim_dc ["PC1$"])
             (samr_self "alice" (Some "PC1$") "corp.local" false true) in
  first_reply open_user_reply (trace_of (doSAMRAdd respond_denying_open 5 1 s))
  = Some (inl (DCERPCSessionError STATUS_ACCESS_DENIED "STATUS_ACCESS_DENIED"))
  /\ Forall (fun e => is_change_call e = false)
       (trace_of (doSAMRAdd respond_denying_open 5 1 s))
  /\ In (Log CRITICAL "User alice doesn't have right to delete PC1$!")
       (trace_of (doSAMRAdd respond_denying_open 5 1 s)).
Proof.
  cbn zeta. split; [vm_compute; reflexivity|].
  apply (samr_denied_account_is_left_alone respond_denying_open 5 1%nat
           (ready (sim_dc ["PC1$"])
              (samr_self "alice" (Some "PC1$") "corp.local" false true))
           "STATUS_ACCESS_DENIED");
    [reflexivity | vm_compute; reflexivity].
Defined.

(** [-delete] over SAMR for the account [PC1$]: the user handle 12 is not
    closed. *)
Lemma deleted_account_handle_is_not_closed_witness :
  let s := ready (sim_dc ["PC1$"])
             (samr_self "alice" (Some "PC1$") "corp.local" false true) in
  let s0 := set_frame (set_world s (sim_dc ["PC1$"])) (mk_Locals None None None) in
  let body := trace_of (samr_body sim_respond 5 2 s0) in
  let s1 := state_of (samr_body sim_respond 5 2 s0) in
  out_of (samr_body sim_respond 5 2 s0) = Ret tt
  /\ exists sh dh uh pre rid rids td,
      body = (pre ++
              [Ev (hSamrLookupNamesInDomain 2 dh [__computerName (me s)])
                  (inr (rid :: rids));
               Ev (hSamrOpenUser 2 dh DELETE rid) (inr uh);
               Ev (hSamrDeleteUser 2 uh) (inr tt);
               Log INFO ("Successfully deleted " ++ fmt (__computerName (me s)) ++ ".")])%list
      /\ frame s1 = mk_Locals (Some sh) (Some dh) None
      /\ trace_of (doSAMRAdd sim_respond 5 1 s)
         = Ev (get_dce_rpc 1) (inr 2) :: (body ++ td)%list
      /\ Forall (fun e => forall h, closed_handle e = Some h -> h = dh \/ h = sh) td
      /\ (existsb is_failed_close td = false ->
          exists rd,
            td = [Ev (hSamrCloseHandle 2 dh) (inr tt);
                  Ev (hSamrCloseHandle 2 sh) (inr tt);
                  Ev (dce_disconnect 2) rd]).
Proof.
  cbn zeta. split; [vm_compute; reflexivity|].
  apply (deleted_account_handle_is_not_closed sim_respond 5 1%nat
           (ready (sim_dc ["PC1$"])
              (samr_self "alice" (Some "PC1$") "corp.local" false true))
           2%nat (sim_dc ["PC1$"]));
    [reflexivity | reflexivity | vm_compute; reflexivity].
Defined.

(** [-no-add] over SAMR for the account [PC1$]: the password is set through
    the handle 12, which is closed first. *)
Lemma password_is_set_through_the_opened_handle_witness :
  let s := ready (sim_dc ["PC1$"])
             (samr_self "alice" (Some "PC1$") "corp.local" true false) in
  let s0 := set_frame (set_world s (sim_dc ["PC1$"])) (mk_Locals None None None) in
  let body := trace_of (samr_body sim_respond 5 2 s0) in
  let s1 := state_of (samr_body sim_respond 5 2 s0) in
  out_of (samr_body sim_respond 5 2 s0) = Ret tt
  /\ exists sh dh uh pre rid rids td,
      body = (pre ++
              [Ev (hSamrLookupNamesInDomain 2 dh [__computerName (me s)])
                  (inr (rid :: rids));
               Ev (hSamrOpenUser 2 dh USER_FORCE_PASSWORD_CHANGE rid) (inr uh);
               Ev (hSamrSetPasswordInternal4New 2 uh (__computerPassword (me s)))
                  (inr tt);
               Log INFO ("Successfully set password of " ++ fmt (__computerName (me s))
                         ++ " to " ++ __computerPassword (me s) ++ ".")])%list
      /\ frame s1 = mk_Locals (Some sh) (Some dh) (Some uh)
      /\ trace_of (doSAMRAdd sim_respond 5 1 s)
         = Ev (get_dce_rpc 1) (inr 2) :: (body ++ td)%list
      /\ (existsb is_failed_close td = false ->
          exists rd,
            td = [Ev (hSamrCloseHandle 2 uh) (inr tt);
                  Ev (hSamrCloseHandle 2 dh) (inr tt);
                  Ev (hSamrCloseHandle 2 sh) (inr tt);
                  Ev (dce_disconnect 2) rd]).
Proof.
  cbn zeta. split; [vm_compute; reflexivity|].
  apply (password_is_set_through_the_opened_handle sim_respond 5 1%nat
           (ready (sim_dc ["PC1$"])
              (samr_self "alice" (Some "PC1$") "corp.local" true false))
           2%nat (sim_dc ["PC1$"]));
    [reflexivity | reflexivity | reflexivity | vm_compute; reflexivity].
Defined.

(** A server with the domain [CORP] besides the built-in one, asked with the
    NetBIOS name [OTHER]; and a server with the built-in domain only. *)
Lemma lone_domain_is_selected_unasked_witness :
  let s := ready (sim_dc []) (samr_self "alice" (Some "PC1$") "OTHER" false false) in
  let s' := samr_pc1 sim_builtin_only in
  (first_reply enum_reply (trace_of (doSAMRAdd sim_respond 5 1 s))
   = Some (inr ["Builtin"; "CORP"])
   /\ exists pre dce sh r rest,
       trace_of (doSAMRAdd sim_respond 5 1 s)
       = (pre ++ Ev (hSamrEnumerateDomainsInSamServer dce sh) (inr ["Builtin"; "CORP"])
              :: Ev (hSamrLookupDomainInSamServer dce sh "CORP") r :: rest)%list)
  /\ (first_reply enum_reply (trace_of (doSAMRAdd sim_respond 5 1 s'))
      = Some (inr ["Builtin"])
      /\ In (Log CRITICAL "list index out of range")
           (trace_of (doSAMRAdd sim_respond 5 1 s'))
      /\ Forall (fun e => is_domain_call e = false)
           (trace_of (doSAMRAdd sim_respond 5 1 s'))).
Proof.
  cbn zeta. split; (split; [vm_compute; reflexivity|]).
  - apply (proj1 (lone_domain_is_selected_unasked sim_respond 5 1%nat
                    (ready (sim_dc [])
                       (samr_self "alice" (Some "PC1$") "OTHER" false false))
                    ["Builtin"; "CORP"] ltac:(vm_compute; reflexivity)) "CORP").
    reflexivity.
  - apply (proj2 (lone_domain_is_selected_unasked sim_respond 5 1%nat
                    (samr_pc1 sim_builtin_only)
                    ["Builtin"] ltac:(vm_compute; reflexivity))).
    reflexivity.
Defined.
